(** * nowcast-template: statespace mapper, regression sensors and orchestrator

    A shallow embedding of the Python sources

      - [src/fusion/datasetname_location_mapper.py]
      - [src/sensors/sensor_update.py]
      - [src/sensors/isch.py]
      - [src/util/datasetname_data_source.py]

    Python values are embedded as follows.  Integers are [Z] (population
    counts [N]), [fractions.Fraction] is the canonical rational [Qc],
    strings are [string], exceptions are values of [exn] carried by
    [result], dictionaries are [gmap]s or insertion-ordered association
    lists, Python sets are [gset]s.  The calendar, the population table, the
    geographic hierarchy, the Epidata service, the numerical solvers and the
    fusion kernel live outside the repository and enter as section
    variables. *)

From Stdlib Require Import ZArith QArith Qcanon Reals Lra Lia.
From stdpp Require Import gmap strings list sorting.

(** ** Exceptions and results *)

(** The exceptions the embedded code can raise.  The sources raise the plain
    [Exception] class with a message; the message is kept (format arguments
    apart, which are carried beside it), so that two different failures are
    two different values. *)
Inductive exn : Type :=
| KeyError
| IndexError
| ZeroDivisionError
| TypeError
| LinAlgError
| ValueError
| AttributeError
| Exception (msg : string)
| ExceptionAt (msg : string) (location : string)
| ExceptionFmt (msg : string) (args : list Z)
| ExceptionNamed (name : string) (msg : string) (arg : Z).

Inductive result (A : Type) : Type :=
| Ok (value : A)
| Raise (e : exn).
Arguments Ok {A} value.
Arguments Raise {A} e.

#[global] Instance result_ret : MRet result := λ A a, Ok a.
#[global] Instance result_bind : MBind result := λ A B k r,
  match r with
  | Ok a => k a
  | Raise e => Raise e
  end.

Definition is_Ok {A} (r : result A) : Prop := ∃ a, r = Ok a.
Definition is_Raise {A} (r : result A) : Prop := ∃ e, r = Raise e.

(** [list(map(f, xs))] for an [f] that may raise: the first exception wins. *)
Fixpoint map_raising {A B} (f : A → result B) (xs : list A) : result (list B) :=
  match xs with
  | [] => Ok []
  | x :: xs' =>
      y ← f x;
      ys ← map_raising f xs';
      Ok (y :: ys)
  end.

(** [xs[i]] with Python's negative indices. *)
Definition py_index {A} (xs : list A) (i : Z) : result A :=
  let n := Z.of_nat (length xs) in
  let j := if (i <? 0)%Z then (n + i)%Z else i in
  if (j <? 0)%Z then Raise IndexError
  else match xs !! Z.to_nat j with
       | Some x => Ok x
       | None => Raise IndexError
       end.

Lemma map_raising_Ok_length {A B} (f : A → result B) xs ys :
  map_raising f xs = Ok ys → length ys = length xs.
Proof.
  revert ys. induction xs as [|x xs IH]; intros ys; simpl.
  - intros [= <-]. reflexivity.
  - destruct (f x) as [y|e]; simpl; [|discriminate].
    destruct (map_raising f xs) as [ys'|e]; simpl; [|discriminate].
    intros [= <-]. simpl. f_equal. now apply IH.
Qed.

Lemma map_raising_Raise_elem {A B} (f : A → result B) xs x e :
  x ∈ xs → f x = Raise e → is_Raise (map_raising f xs).
Proof.
  intros Hin Hx. induction xs as [|x' xs IH]; [by apply elem_of_nil in Hin|].
  simpl. apply elem_of_cons in Hin as [->|Hin].
  - rewrite Hx. by eexists.
  - destruct (f x') as [y|e']; simpl; [|by eexists].
    destruct (IH Hin) as [e'' ->]. by eexists.
Qed.

Lemma map_raising_total {A B} (f : A → result B) (g : A → B) xs :
  (∀ x, x ∈ xs → f x = Ok (g x)) → map_raising f xs = Ok (map g xs).
Proof.
  induction xs as [|x xs IH]; intros Hf; [reflexivity|].
  simpl. rewrite (Hf x) by apply list_elem_of_here. simpl.
  rewrite IH; [reflexivity|]. intros y Hy. apply Hf. by apply list_elem_of_further.
Qed.

(** A [for] loop whose body may raise, threading the loop-carried state. *)
Fixpoint fold_raising {A S} (body : S → A → result S) (xs : list A) (s : S) : result S :=
  match xs with
  | [] => Ok s
  | x :: xs' =>
      s' ← body s x;
      fold_raising body xs' s'
  end.

(** ** Exact fractions *)

(** [fractions.Fraction(numerator, denominator)]: a normalised rational;
    a zero denominator raises. *)
Definition Fraction (numerator denominator : Z) : result Qc :=
  if decide (denominator = 0%Z) then Raise ZeroDivisionError
  else Ok (Qc_of_Z numerator / Qc_of_Z denominator)%Qc.

(** Python's [sum] over a row of fractions. *)
Definition sum_row (row : list Qc) : Qc := foldr Qcplus (Q2Qc 0) row.

(** ** The statespace mapper ([datasetname_location_mapper.py]) *)

Module LocationMapper.

Definition matrix : Type := list (list Qc).

(** The two catalogues [determine_statespace] reads from its [data_source]. *)
Record data_source : Type := DataSource {
  ALL_LOCATIONS : list string;
  ATOMIC_LOCATIONS : list string
}.

#[global] Instance data_source_eq_dec : EqDecision data_source.
Proof. solve_decision. Defined.

Definition msg_no_constituent_atoms : string := "location has no constituent atoms".
Definition msg_input_contains_excluded : string := "input contains excluded locations".

Section mapper.

(** [Locations.region_map]: the atoms each named location contains. *)
Variable region_map : gmap string (list string).
(** [get_population(location, season=None)]: the population table. *)
Variable get_population : string → option Z → N.
(** numpy's float type and the conversion [astype(np.float)] of one entry. *)
Variable float : Type.
Variable to_float : Qc → float.
(** [fusion.determine_statespace(H0, W0)], the external reduction. *)
Variable fusion_determine_statespace :
  matrix → matrix → result (matrix * matrix * list Z).

Definition region_map_at (location : string) : result (list string) :=
  match region_map !! location with
  | Some members => Ok members
  | None => Raise KeyError
  end.

(** The population looked up for one remapping atom: [if season:] is true
    for a season that is neither [None] nor [0]. *)
Definition season_population (season : option Z) (remapping_atom : string) : N :=
  match season with
  | Some s =>
      if decide (s = 0%Z) then get_population remapping_atom None
      else
        let remapped_season := Z.max s 2013 in
        get_population remapping_atom (Some remapped_season)
  | None => get_population remapping_atom None
  end.

Definition remapped_atom_to_atoms (atom : string) : list string :=
  if decide (atom = "ny") then ["ny_minus_jfk"; "jfk"] else [atom].

(** Body of the inner loop [for remapping_atom in remapped_atom_to_atoms]. *)
Definition add_remapping_atom (location : string) (season : option Z)
    (population : N) (remapping_atom : string) : result N :=
  members ← region_map_at location;
  if decide (remapping_atom ∈ members)
  then Ok (population + season_population season remapping_atom)%N
  else Ok (population + 0)%N.

(** Body of the outer loop [for atom in atoms]; the state is
    [(total_population, atom_populations)]. *)
Definition weigh_atom (location : string) (season : option Z)
    (st : N * list N) (atom : string) : result (N * list N) :=
  let '(total_population, atom_populations) := st in
  population ←
    fold_raising (add_remapping_atom location season) (remapped_atom_to_atoms atom) 0%N;
  Ok ((total_population + population)%N, atom_populations ++ [population]).

Definition get_weight_row (location : string) (season : option Z)
    (atoms : list string) : result (list Qc) :=
  st ← fold_raising (weigh_atom location season) atoms (0%N, []);
  let '(total_population, atom_populations) := st in
  if decide (total_population = 0%N)
  then Raise (ExceptionAt msg_no_constituent_atoms location)
  else
    let get_fraction pop := Fraction (Z.of_N pop) (Z.of_N total_population) in
    map_raising get_fraction atom_populations.

Definition get_weight_matrix (locations : list string) (season : option Z)
    (atoms : list string) : result matrix :=
  let get_row loc := get_weight_row loc season atoms in
  map_raising get_row locations.

Definition astype_float (M : matrix) : list (list float) := map (map to_float) M.

(** [determine_statespace]; the first component of the outcome lists the
    calls made to the external reduction, in order.  The [lru_cache] around
    the function only replays outcomes and is left out. *)
(* This is the function as written under its decorator, what runs when the
   table of the [lru_cache] has no answer; the decorated function, with its
   table, is [determine_statespace_cached] below. *)
Definition determine_statespace (input_locations : list string) (ds : data_source)
    (season : option Z) (exclude_locations : list string)
  : list (matrix * matrix) * result (list (list float) * list (list float) * list string) :=
  if decide ((list_to_set exclude_locations : gset string) ∩ list_to_set input_locations ≠ ∅)
  then ([], Raise (Exception msg_input_contains_excluded))
  else
    let atom_filter a := a ∉ exclude_locations in
    let all_locations := filter atom_filter (ALL_LOCATIONS ds) in
    let atoms := filter atom_filter (ATOMIC_LOCATIONS ds) in
    let get_matrix locs := get_weight_matrix locs season atoms in
    match get_matrix input_locations with
    | Raise e => ([], Raise e)
    | Ok H0 =>
        match get_matrix all_locations with
        | Raise e => ([], Raise e)
        | Ok W0 =>
            if decide ((list_to_set atoms : gset string) ⊆ list_to_set input_locations)
            then ([], Ok (astype_float H0, astype_float W0, all_locations))
            else
              ([(H0, W0)],
               r ← fusion_determine_statespace H0 W0;
               let '(H, W, selected_rows) := r in
               output_locations ← map_raising (py_index all_locations) selected_rows;
               Ok (astype_float H, astype_float W, output_locations))
        end
    end.

(** *** Specification-side notions *)

(** The population an atom contributes to a location with constituents
    [members]: its remapped sub-units that are members, summed. *)
Definition constituent_population (members : list string) (season : option Z)
    (atom : string) : N :=
  foldl (λ acc r, if decide (r ∈ members) then (acc + season_population season r)%N else acc)
        0%N (remapped_atom_to_atoms atom).

Definition row_total (members : list string) (season : option Z) (atoms : list string) : N :=
  foldr N.add 0%N (map (constituent_population members season) atoms).

(** The weight of one atom, as an exact fraction of the row total. *)
Definition weight_of (members : list string) (season : option Z)
    (atoms : list string) (atom : string) : Qc :=
  (Qc_of_Z (Z.of_N (constituent_population members season atom))
   / Qc_of_Z (Z.of_N (row_total members season atoms)))%Qc.

(** The catalogue [xs] without the excluded locations ([filter(atom_filter, xs)]). *)
Definition filtered (exclude_locations xs : list string) : list string :=
  filter (λ a, a ∉ exclude_locations) xs.

(** Every constituent sub-unit of every atom of [atoms] has no population. *)
Definition unpopulated (members : list string) (season : option Z)
    (atoms : list string) : Prop :=
  ∀ atom r, atom ∈ atoms → r ∈ remapped_atom_to_atoms atom → r ∈ members →
    season_population season r = 0%N.

(** Some atom of [atoms] has a constituent sub-unit with population. *)
Definition populated (members : list string) (season : option Z)
    (atoms : list string) : Prop :=
  ∃ atom r, atom ∈ atoms ∧ r ∈ remapped_atom_to_atoms atom ∧ r ∈ members ∧
    season_population season r ≠ 0%N.

(** No sub-unit of [atom] is a member of the location. *)
Definition outside (members : list string) (atom : string) : Prop :=
  ∀ r, r ∈ remapped_atom_to_atoms atom → r ∉ members.

(** *** The two loops of [get_weight_row] *)

Lemma add_remapping_atom_known location season members acc r :
  region_map !! location = Some members →
  add_remapping_atom location season acc r
  = Ok (if decide (r ∈ members) then (acc + season_population season r)%N else acc).
Proof.
  intros Hloc. unfold add_remapping_atom, region_map_at. rewrite Hloc. simpl.
  destruct (decide (r ∈ members)); [done|]. by rewrite N.add_0_r.
Qed.

Lemma inner_loop location season members rs acc :
  region_map !! location = Some members →
  fold_raising (add_remapping_atom location season) rs acc
  = Ok (foldl (λ acc r, if decide (r ∈ members)
                        then (acc + season_population season r)%N else acc) acc rs).
Proof.
  intros Hloc. revert acc. induction rs as [|r rs IH]; intros acc; [reflexivity|].
  simpl. rewrite (add_remapping_atom_known _ _ members) by done. simpl. apply IH.
Qed.

Lemma outer_loop location season members atoms total pops :
  region_map !! location = Some members →
  fold_raising (weigh_atom location season) atoms (total, pops)
  = Ok ((total + row_total members season atoms)%N,
        pops ++ map (constituent_population members season) atoms).
Proof.
  intros Hloc. revert total pops.
  induction atoms as [|atom atoms IH]; intros total pops; simpl.
  - unfold row_total. simpl. by rewrite N.add_0_r, app_nil_r.
  - rewrite (inner_loop _ _ members) by done. simpl.
    rewrite IH. unfold row_total, constituent_population. simpl.
    by rewrite N.add_assoc, <- app_assoc.
Qed.

Lemma outer_loop_unknown location season atom atoms st :
  region_map !! location = None →
  fold_raising (weigh_atom location season) (atom :: atoms) st = Raise KeyError.
Proof.
  intros Hloc. destruct st as [total pops]. simpl.
  unfold remapped_atom_to_atoms. destruct (decide (atom = "ny")); simpl;
    unfold add_remapping_atom, region_map_at; rewrite Hloc; reflexivity.
Qed.

(** *** Arithmetic of a normalised row *)

Lemma fractions_total (total : N) (pops : list N) :
  total ≠ 0%N →
  map_raising (λ pop, Fraction (Z.of_N pop) (Z.of_N total)) pops
  = Ok (map (λ pop, (Qc_of_Z (Z.of_N pop) / Qc_of_Z (Z.of_N total))%Qc) pops).
Proof.
  intros Hne. apply map_raising_total. intros pop _. unfold Fraction.
  destruct (decide (Z.of_N total = 0%Z)); [lia|reflexivity].
Qed.

Lemma sum_row_fractions (d : Qc) (pops : list N) :
  sum_row (map (λ pop, (Qc_of_Z (Z.of_N pop) / d)%Qc) pops)
  = (Qc_of_Z (Z.of_N (foldr N.add 0%N pops)) / d)%Qc.
Proof.
  unfold sum_row. induction pops as [|pop pops IH]; simpl.
  - unfold Qcdiv. by rewrite Z2Qc_inj_0, Qcmult_0_l.
  - rewrite IH, N2Z.inj_add, Z2Qc_inj_add. unfold Qcdiv. ring.
Qed.

Lemma constituent_population_ge members season atom r :
  r ∈ remapped_atom_to_atoms atom → r ∈ members →
  (season_population season r ≤ constituent_population members season atom)%N.
Proof.
  unfold constituent_population.
  generalize (remapped_atom_to_atoms atom) as rs. intros rs Hr Hm.
  assert (Hmono : ∀ rs a b, (a ≤ b)%N →
    (a ≤ foldl (λ acc r, if decide (r ∈ members)
                         then (acc + season_population season r)%N else acc) b rs)%N).
  { clear. induction rs as [|r rs IH]; intros a b Hab; simpl; [done|].
    apply IH. destruct (decide (r ∈ members)); lia. }
  generalize 0%N as acc. induction rs as [|r' rs IH]; intros acc;
    [by apply elem_of_nil in Hr|].
  simpl. apply elem_of_cons in Hr as [<-|Hr]; [|by apply IH].
  destruct (decide (r ∈ members)); [|done]. apply Hmono. lia.
Qed.

Lemma constituent_population_outside members season atom :
  outside members atom → constituent_population members season atom = 0%N.
Proof.
  unfold outside, constituent_population.
  generalize (remapped_atom_to_atoms atom) as rs.
  induction rs as [|r rs IH]; intros Hout; simpl; [done|].
  destruct (decide (r ∈ members)) as [Hin|_].
  - exfalso. apply (Hout r); [apply list_elem_of_here|done].
  - apply IH. intros r' Hr'. apply Hout. by apply list_elem_of_further.
Qed.

Lemma constituent_population_unpopulated members season atom :
  (∀ r, r ∈ remapped_atom_to_atoms atom → r ∈ members → season_population season r = 0%N) →
  constituent_population members season atom = 0%N.
Proof.
  unfold constituent_population.
  generalize (remapped_atom_to_atoms atom) as rs.
  induction rs as [|r rs IH]; intros Hz; simpl; [done|].
  destruct (decide (r ∈ members)) as [Hin|_].
  - rewrite (Hz r); [|apply list_elem_of_here|done]. simpl.
    apply IH. intros r' Hr'. apply Hz. by apply list_elem_of_further.
  - apply IH. intros r' Hr'. apply Hz. by apply list_elem_of_further.
Qed.

Lemma row_total_ge members season atoms atom :
  atom ∈ atoms →
  (constituent_population members season atom ≤ row_total members season atoms)%N.
Proof.
  unfold row_total. induction atoms as [|a atoms IH]; intros Hin;
    [by apply elem_of_nil in Hin|].
  simpl. apply elem_of_cons in Hin as [<-|Hin]; [lia|]. specialize (IH Hin). lia.
Qed.

Lemma row_total_populated members season atoms :
  populated members season atoms → row_total members season atoms ≠ 0%N.
Proof.
  intros (atom & r & Hatom & Hr & Hm & Hpop).
  pose proof (constituent_population_ge members season atom r Hr Hm).
  pose proof (row_total_ge members season atoms atom Hatom). lia.
Qed.

Lemma row_total_unpopulated members season atoms :
  unpopulated members season atoms → row_total members season atoms = 0%N.
Proof.
  unfold unpopulated, row_total. induction atoms as [|a atoms IH]; intros Hz; [done|].
  simpl. rewrite constituent_population_unpopulated.
  - simpl. apply IH. intros atom r Hatom. apply Hz. by apply list_elem_of_further.
  - intros r. apply Hz. apply list_elem_of_here.
Qed.

Lemma get_weight_row_populated location season atoms members :
  region_map !! location = Some members →
  populated members season atoms →
  get_weight_row location season atoms = Ok (map (weight_of members season atoms) atoms).
Proof.
  intros Hloc Hpop. unfold get_weight_row.
  rewrite (outer_loop _ _ members) by done. simpl.
  pose proof (row_total_populated _ _ _ Hpop) as Hne.
  rewrite N.add_0_l. destruct (decide (row_total members season atoms = 0%N)); [done|].
  rewrite fractions_total by done. by rewrite map_map.
Qed.

Lemma get_weight_row_unpopulated location season atoms members :
  region_map !! location = Some members →
  unpopulated members season atoms →
  get_weight_row location season atoms = Raise (ExceptionAt msg_no_constituent_atoms location).
Proof.
  intros Hloc Hz. unfold get_weight_row.
  rewrite (outer_loop _ _ members) by done. simpl.
  rewrite N.add_0_l, row_total_unpopulated by done.
  by destruct (decide (0%N = 0%N)).
Qed.

Lemma get_weight_matrix_Raise locations season atoms location e :
  location ∈ locations →
  get_weight_row location season atoms = Raise e →
  is_Raise (get_weight_matrix locations season atoms).
Proof.
  intros Hin Hrow. unfold get_weight_matrix.
  by apply (map_raising_Raise_elem _ _ location e).
Qed.

(** *** Claims about the statespace mapper *)

(** C1. For a location with at least one constituent atom of nonzero
    population, [get_weight_row] returns a row: entry by entry it is the
    atom's population over the row total as an exact fraction, the entries
    sum to exactly 1, and an atom none of whose sub-units lies in the
    location has weight zero. *)
Theorem get_weight_row_stochastic (location : string) (season : option Z)
    (atoms members : list string) :
  region_map !! location = Some members →
  populated members season atoms →
  ∃ row : list Qc,
    get_weight_row location season atoms = Ok row
    ∧ row = map (weight_of members season atoms) atoms
    ∧ sum_row row = 1%Qc
    ∧ ∀ (i : nat) (atom : string),
        atoms !! i = Some atom → outside members atom → row !! i = Some (Q2Qc 0).
Proof.
  intros Hloc Hpop. eexists. split; [by apply get_weight_row_populated|].
  split; [reflexivity|]. split.
  - unfold weight_of.
    rewrite <- (map_map (constituent_population members season)
                  (λ pop, (Qc_of_Z (Z.of_N pop)
                           / Qc_of_Z (Z.of_N (row_total members season atoms)))%Qc)).
    rewrite sum_row_fractions. fold (row_total members season atoms).
    apply Qcmult_inv_r. rewrite <- Z2Qc_inj_0. intros Heq%Z2Qc_inj.
    apply (row_total_populated _ _ _ Hpop). lia.
  - intros i atom Hi Hout. rewrite list_lookup_fmap, Hi. simpl. f_equal.
    unfold weight_of. rewrite constituent_population_outside by done.
    simpl. unfold Qcdiv. by rewrite Z2Qc_inj_0, Qcmult_0_l.
Qed.

(** C7. A known location all of whose constituent atoms have zero population
    over [atoms] makes [get_weight_row] raise the exception that carries the
    location; and when [atoms] is the filtered atom universe of a statespace
    request that weighs the location (as an input or as an output), the
    request raises as well: it returns no matrices and calls no reduction. *)
Theorem zero_population_location_raises (location : string) (season : option Z)
    (atoms members : list string) :
  region_map !! location = Some members →
  unpopulated members season atoms →
  get_weight_row location season atoms
    = Raise (ExceptionAt msg_no_constituent_atoms location)
  ∧ ∀ (input_locations exclude_locations : list string) (ds : data_source),
      atoms = filtered exclude_locations (ATOMIC_LOCATIONS ds) →
      location ∈ input_locations
        ∨ location ∈ filtered exclude_locations (ALL_LOCATIONS ds) →
      ∃ e, determine_statespace input_locations ds season exclude_locations
           = ([], Raise e).
Proof.
  intros Hloc Hz.
  pose proof (get_weight_row_unpopulated _ _ _ _ Hloc Hz) as Hrow.
  split; [done|]. intros input_locations exclude_locations ds -> Hin.
  unfold determine_statespace.
  destruct (decide (_ ≠ ∅)); [by eexists|].
  fold (filtered exclude_locations (ATOMIC_LOCATIONS ds)).
  fold (filtered exclude_locations (ALL_LOCATIONS ds)).
  destruct (get_weight_matrix input_locations _ _) as [H0|e] eqn:HH0; [|by eexists].
  destruct (get_weight_matrix (filtered _ (ALL_LOCATIONS ds)) _ _) as [W0|e] eqn:HW0;
    [|by eexists].
  exfalso. destruct Hin as [Hin|Hin].
  - destruct (get_weight_matrix_Raise _ _ _ _ _ Hin Hrow) as [e He]. congruence.
  - destruct (get_weight_matrix_Raise _ _ _ _ _ Hin Hrow) as [e He]. congruence.
Qed.

(** C6. A location that is both excluded and an input makes
    [determine_statespace] raise the disjointness exception; the outcome does
    not depend on whether the weight matrices could have been built, and no
    reduction is called. *)
Theorem overlapping_request_raises (input_locations exclude_locations : list string)
    (ds : data_source) (season : option Z) (x : string) :
  x ∈ exclude_locations →
  x ∈ input_locations →
  determine_statespace input_locations ds season exclude_locations
  = ([], Raise (Exception msg_input_contains_excluded)).
Proof.
  intros Hex Hin. unfold determine_statespace.
  destruct (decide (_ ≠ ∅)) as [_|Hempty]; [reflexivity|].
  exfalso. apply Hempty. set_solver.
Qed.

(** C2. When the inputs cover every atom that survives the exclusion, the
    external reduction is never called; and when the request is well formed
    (inputs and exclusions disjoint, both weight matrices built), the outcome
    is the pair of raw weight matrices, converted entry by entry at the
    return boundary, with the filtered catalogue unchanged. *)
Theorem determine_statespace_fast_path (input_locations exclude_locations : list string)
    (ds : data_source) (season : option Z) :
  (∀ a, a ∈ filtered exclude_locations (ATOMIC_LOCATIONS ds) → a ∈ input_locations) →
  (determine_statespace input_locations ds season exclude_locations).1 = []
  ∧ ∀ H0 W0 : matrix,
      (∀ x, x ∈ exclude_locations → x ∉ input_locations) →
      get_weight_matrix input_locations season
        (filtered exclude_locations (ATOMIC_LOCATIONS ds)) = Ok H0 →
      get_weight_matrix (filtered exclude_locations (ALL_LOCATIONS ds)) season
        (filtered exclude_locations (ATOMIC_LOCATIONS ds)) = Ok W0 →
      determine_statespace input_locations ds season exclude_locations
      = ([], Ok (astype_float H0, astype_float W0,
                 filtered exclude_locations (ALL_LOCATIONS ds))).
Proof.
  intros Hsup.
  assert (Hsub : (list_to_set (filtered exclude_locations (ATOMIC_LOCATIONS ds)) : gset string)
                 ⊆ list_to_set input_locations) by set_solver.
  unfold determine_statespace.
  fold (filtered exclude_locations (ATOMIC_LOCATIONS ds)).
  fold (filtered exclude_locations (ALL_LOCATIONS ds)).
  split.
  - destruct (decide (_ ≠ ∅)); [done|].
    destruct (get_weight_matrix input_locations _ _); [|done].
    destruct (get_weight_matrix (filtered _ (ALL_LOCATIONS ds)) _ _); [|done].
    by destruct (decide (_ ⊆ _)).
  - intros H0 W0 Hdisj -> ->.
    destruct (decide (_ ≠ ∅)) as [Hne|_].
    { exfalso. apply Hne, elem_of_equiv_empty_L.
      intros x [Hx1 Hx2]%elem_of_intersection.
      apply elem_of_list_to_set in Hx1, Hx2. by apply (Hdisj x). }
    by destruct (decide (_ ⊆ _)).
Qed.

(** *** More about the weight rows *)

Lemma sum_weights_one (members : list string) (season : option Z) (atoms : list string) :
  row_total members season atoms ≠ 0%N →
  sum_row (map (weight_of members season atoms) atoms) = 1%Qc.
Proof.
  intros Hne. unfold weight_of.
  rewrite <- (map_map (constituent_population members season)
                (λ pop, (Qc_of_Z (Z.of_N pop)
                         / Qc_of_Z (Z.of_N (row_total members season atoms)))%Qc)).
  rewrite sum_row_fractions. fold (row_total members season atoms).
  apply Qcmult_inv_r. rewrite <- Z2Qc_inj_0. intros Heq%Z2Qc_inj.
  unfold row_total in *. lia.
Qed.

Lemma weight_of_bounds (members : list string) (season : option Z) (atoms : list string)
    (atom : string) :
  atom ∈ atoms → row_total members season atoms ≠ 0%N →
  (Q2Qc 0 ≤ weight_of members season atoms atom)%Qc
  ∧ (weight_of members season atoms atom ≤ 1)%Qc.
Proof.
  intros Hin Hne. unfold weight_of.
  pose proof (row_total_ge members season atoms atom Hin) as Hle.
  set (p := constituent_population members season atom) in *.
  set (t := row_total members season atoms) in *. clearbody p t.
  assert (Ht : (Q2Qc 0 < Qc_of_Z (Z.of_N t))%Qc).
  { rewrite <- Z2Qc_inj_0. apply (proj1 (Z2Qc_inj_lt _ _)). lia. }
  assert (Hinv : (Q2Qc 0 ≤ / Qc_of_Z (Z.of_N t))%Qc) by (apply Qclt_le_weak, Qcinv_pos, Ht).
  unfold Qcdiv. split.
  - apply Qcmult_nonneg_nonneg; [|done].
    rewrite <- Z2Qc_inj_0. apply (proj1 (Z2Qc_inj_le _ _)). lia.
  - rewrite <- (Qcmult_inv_r (Qc_of_Z (Z.of_N t))).
    + apply Qcmult_le_mono_nonneg_r; [done|]. apply (proj1 (Z2Qc_inj_le _ _)). lia.
    + intros Heq. rewrite Heq in Ht. by apply Qclt_not_eq in Ht.
Qed.

(** Whatever [get_weight_row] returns was computed for a location of the
    hierarchy with population in [atoms]. *)
Lemma get_weight_row_Ok_inv (location : string) (season : option Z)
    (atoms : list string) (row : list Qc) :
  get_weight_row location season atoms = Ok row →
  ∃ members, region_map !! location = Some members
             ∧ row_total members season atoms ≠ 0%N
             ∧ row = map (weight_of members season atoms) atoms.
Proof.
  unfold get_weight_row. destruct (region_map !! location) as [members|] eqn:Hloc.
  - rewrite (outer_loop _ _ members) by done. simpl. rewrite N.add_0_l.
    destruct (decide (row_total members season atoms = 0%N)) as [|Hne]; [done|].
    rewrite fractions_total by done. rewrite map_map. intros [= <-]. by exists members.
  - destruct atoms as [|atom atoms].
    + simpl. by destruct (decide (0%N = 0%N)).
    + by rewrite outer_loop_unknown.
Qed.

(** X1. Whenever [get_weight_row] returns, the row has one weight per atom,
    every weight lies between 0 and 1, and the weights sum to exactly 1. *)
Theorem get_weight_row_is_distribution (location : string) (season : option Z)
    (atoms : list string) (row : list Qc) :
  get_weight_row location season atoms = Ok row →
  length row = length atoms
  ∧ sum_row row = 1%Qc
  ∧ ∀ w, w ∈ row → (Q2Qc 0 ≤ w)%Qc ∧ (w ≤ 1)%Qc.
Proof.
  intros (members & _ & Hne & ->)%get_weight_row_Ok_inv.
  split; [by rewrite length_map|]. split; [by apply sum_weights_one|].
  intros w (atom & -> & Hatom)%list_elem_of_fmap. by apply weight_of_bounds.
Qed.

(** X2. A location that the hierarchy does not know makes [get_weight_row]
    raise [KeyError] as soon as there is an atom to weigh; with no atom at
    all, known or not, the location is reported as having no constituents. *)
Theorem get_weight_row_unknown_location (location : string) (season : option Z)
    (atoms : list string) :
  region_map !! location = None →
  get_weight_row location season atoms
  = match atoms with
    | [] => Raise (ExceptionAt msg_no_constituent_atoms location)
    | _ :: _ => Raise KeyError
    end.
Proof.
  intros Hloc. unfold get_weight_row. destruct atoms as [|atom atoms].
  - simpl. by destruct (decide (0%N = 0%N)).
  - by rewrite outer_loop_unknown.
Qed.

(** X3. Whenever [get_weight_matrix] returns, the matrix has one row per
    location and one column per atom, and every row sums to exactly 1. *)
Theorem get_weight_matrix_is_stochastic (locations : list string) (season : option Z)
    (atoms : list string) (M : matrix) :
  get_weight_matrix locations season atoms = Ok M →
  length M = length locations
  ∧ ∀ row, row ∈ M → length row = length atoms ∧ sum_row row = 1%Qc.
Proof.
  unfold get_weight_matrix. revert M.
  induction locations as [|location locations IH]; intros M; simpl.
  - intros [= <-]. split; [done|]. by intros row ?%elem_of_nil.
  - destruct (get_weight_row location season atoms) as [row|] eqn:Hrow; [|done]. simpl.
    destruct (map_raising _ locations) as [M'|]; [|done]. simpl. intros [= <-].
    destruct (IH M' eq_refl) as [Hlen Hrows].
    apply get_weight_row_Ok_inv in Hrow as (members & _ & Hne & ->).
    split; [simpl; by rewrite Hlen|].
    intros row' [->|Hin]%elem_of_cons; [|by apply Hrows].
    split; [by rewrite length_map|by apply sum_weights_one].
Qed.

(** When the function runs, the inputs do not cover the filtered atoms and
    the request is well formed, the external reduction is called once, on the
    exact raw matrices; its matrices are converted at the return boundary and
    the output locations are the catalogue entries at the selected indices. *)
Lemma determine_statespace_reduces (input_locations exclude_locations : list string)
    (ds : data_source) (season : option Z) (H0 W0 H W : matrix) (selected_rows : list Z) :
  (∀ x, x ∈ exclude_locations → x ∉ input_locations) →
  (∃ a, a ∈ filtered exclude_locations (ATOMIC_LOCATIONS ds) ∧ a ∉ input_locations) →
  get_weight_matrix input_locations season
    (filtered exclude_locations (ATOMIC_LOCATIONS ds)) = Ok H0 →
  get_weight_matrix (filtered exclude_locations (ALL_LOCATIONS ds)) season
    (filtered exclude_locations (ATOMIC_LOCATIONS ds)) = Ok W0 →
  fusion_determine_statespace H0 W0 = Ok (H, W, selected_rows) →
  determine_statespace input_locations ds season exclude_locations
  = ([(H0, W0)],
     output_locations ←
       map_raising (py_index (filtered exclude_locations (ALL_LOCATIONS ds))) selected_rows;
     Ok (astype_float H, astype_float W, output_locations)).
Proof.
  intros Hdisj (a & Ha & Hnot) HH0 HW0 Hred. unfold determine_statespace.
  fold (filtered exclude_locations (ATOMIC_LOCATIONS ds)).
  fold (filtered exclude_locations (ALL_LOCATIONS ds)).
  destruct (decide (_ ≠ ∅)) as [Hne|_].
  { exfalso. apply Hne, elem_of_equiv_empty_L.
    intros x [Hx1 Hx2]%elem_of_intersection.
    apply elem_of_list_to_set in Hx1, Hx2. by apply (Hdisj x). }
  rewrite HH0, HW0.
  destruct (decide (_ ⊆ _)) as [Hsub|_].
  { exfalso. apply Hnot. specialize (Hsub a).
    rewrite !elem_of_list_to_set in Hsub. by apply Hsub. }
  by rewrite Hred.
Qed.

Lemma py_index_Ok_elem {A} (xs : list A) (i : Z) (x : A) :
  py_index xs i = Ok x → x ∈ xs.
Proof.
  unfold py_index. destruct (_ <? 0)%Z; [done|].
  destruct (xs !! _) eqn:Hx; [|done]. intros [= <-]. by eapply list_elem_of_lookup_2.
Qed.

(** Whenever the function runs and returns, the request was disjoint, every
    output location is a catalogue entry that is not excluded, and the
    reduction was skipped exactly when the inputs cover the filtered atoms. *)
Lemma determine_statespace_Ok_inv (input_locations exclude_locations : list string)
    (ds : data_source) (season : option Z) (calls : list (matrix * matrix))
    (H W : list (list float)) (output_locations : list string) :
  determine_statespace input_locations ds season exclude_locations
  = (calls, Ok (H, W, output_locations)) →
  (∀ x, x ∈ exclude_locations → x ∉ input_locations)
  ∧ (∀ l, l ∈ output_locations → l ∈ ALL_LOCATIONS ds ∧ l ∉ exclude_locations)
  ∧ (calls = [] ↔ ∀ a, a ∈ filtered exclude_locations (ATOMIC_LOCATIONS ds) →
                       a ∈ input_locations).
Proof.
  unfold determine_statespace.
  fold (filtered exclude_locations (ATOMIC_LOCATIONS ds)).
  fold (filtered exclude_locations (ALL_LOCATIONS ds)).
  destruct (decide (_ ≠ ∅)) as [|Hempty]; [done|].
  apply dec_stable in Hempty.
  assert (Hdisj : ∀ x, x ∈ exclude_locations → x ∉ input_locations).
  { intros x Hx Hx'. apply (not_elem_of_empty (C := gset string) x).
    rewrite <- Hempty. apply elem_of_intersection. by rewrite !elem_of_list_to_set. }
  assert (Hcat : ∀ l, l ∈ filtered exclude_locations (ALL_LOCATIONS ds) →
                      l ∈ ALL_LOCATIONS ds ∧ l ∉ exclude_locations).
  { intros l [? ?]%list_elem_of_filter. done. }
  destruct (get_weight_matrix input_locations _ _) as [H0|]; [|done].
  destruct (get_weight_matrix (filtered _ (ALL_LOCATIONS ds)) _ _) as [W0|]; [|done].
  destruct (decide (_ ⊆ _)) as [Hsub|Hnsub].
  - intros [= <- <- <- <-]. split; [done|]. split; [done|]. split; [|done].
    intros _ a Ha. specialize (Hsub a).
    rewrite !elem_of_list_to_set in Hsub. by apply Hsub.
  - destruct (fusion_determine_statespace H0 W0) as [[[H' W'] selected_rows]|]; [|done].
    simpl.
    destruct (map_raising _ selected_rows) as [locs|] eqn:Hlocs; [|done]. simpl.
    intros [= <- <- <- <-]. split; [done|]. split.
    + intros l Hl. apply Hcat. clear -Hlocs Hl. revert locs Hlocs Hl.
      induction selected_rows as [|i selected_rows IH]; intros locs; simpl.
      * intros [= <-]. by intros ?%elem_of_nil.
      * destruct (py_index _ i) as [x|] eqn:Hx; [|done]. simpl.
        destruct (map_raising _ selected_rows) as [locs'|]; [|done]. simpl.
        intros [= <-] [->|Hl]%elem_of_cons; [by eapply py_index_Ok_elem|by eapply IH].
    + split; [done|]. intros Hall. exfalso. apply Hnsub.
      intros a Ha. rewrite elem_of_list_to_set in Ha. rewrite elem_of_list_to_set.
      by apply Hall.
Qed.

(** *** The function as decorated *)

(** The arguments of a call, which are the key of the [lru_cache], and what
    a call returns.  Two data sources are the same key when they hold the
    same catalogues; Python compares them as objects, so a request that
    misses here misses there. *)
Abbreviation request := (list string * data_source * option Z * list string)%type.
Abbreviation answer := (list (list float) * list (list float) * list string)%type.

(** The answer the table holds for a request. *)
Definition lru_find (table : list (request * answer)) (req : request) : option answer :=
  snd <$> head (filter (λ entry, entry.1 = req) table).

(** The table once [req] is the most recently used entry. *)
Definition lru_touch (table : list (request * answer)) (req : request) (a : answer)
  : list (request * answer) :=
  (req, a) :: filter (λ entry, entry.1 ≠ req) table.

(** [determine_statespace] under [@functools.lru_cache(maxsize=16)].  The
    table lists the stored answers, the most recently used first.  A request
    in the table is answered from it and the function does not run; otherwise
    the function runs and its answer, if it returns one, is stored, the least
    recently used entry making room.  An exception is not stored. *)
Definition determine_statespace_cached (table : list (request * answer))
    (input_locations : list string) (ds : data_source) (season : option Z)
    (exclude_locations : list string)
  : list (request * answer) * (list (matrix * matrix) * result answer) :=
  let req := (input_locations, ds, season, exclude_locations) in
  match lru_find table req with
  | Some a => (lru_touch table req a, ([], Ok a))
  | None =>
      let '(calls, r) := determine_statespace input_locations ds season exclude_locations in
      (match r with
       | Ok a => take 16 (lru_touch table req a)
       | Raise _ => table
       end, (calls, r))
  end.

(** Every stored answer is what the function returns on its request. *)
Definition consistent (table : list (request * answer)) : Prop :=
  ∀ input_locations ds season exclude_locations a,
    (input_locations, ds, season, exclude_locations, a) ∈ table →
    (determine_statespace input_locations ds season exclude_locations).2 = Ok a.

Lemma lru_find_elem (table : list (request * answer)) (req : request) (a : answer) :
  lru_find table req = Some a → (req, a) ∈ table.
Proof.
  unfold lru_find. destruct (head _) as [[req' a']|] eqn:Hhead; [|done].
  intros [= <-]. apply head_Some_elem_of in Hhead.
  apply list_elem_of_filter in Hhead as [Hreq Hin]. simpl in Hreq. by subst.
Qed.

Lemma lru_find_touch (table : list (request * answer)) (req : request) (a : answer) (n : nat) :
  lru_find (take (S n) (lru_touch table req a)) req = Some a.
Proof.
  unfold lru_find, lru_touch. cbn [take]. rewrite filter_cons_True by done. done.
Qed.

Lemma lru_touch_elem (table : list (request * answer)) (req : request) (a : answer)
    (entry : request * answer) :
  entry ∈ lru_touch table req a → entry = (req, a) ∨ entry ∈ table.
Proof.
  unfold lru_touch. intros [->|Hin]%elem_of_cons; [by left|].
  apply list_elem_of_filter in Hin as [_ Hin]. by right.
Qed.

(** X4. On a call that the [lru_cache] does not answer, when the inputs do
    not cover the filtered atoms and the request is well formed, the external
    reduction is called exactly once, on the exact raw matrices; its matrices
    are converted at the return boundary and the output locations are the
    catalogue entries at the selected indices.  The answer is stored: the
    same request made again is answered from the table, with no call of the
    reduction. *)
Theorem determine_statespace_general_path (table : list (request * answer))
    (input_locations exclude_locations : list string)
    (ds : data_source) (season : option Z) (H0 W0 H W : matrix) (selected_rows : list Z) :
  lru_find table (input_locations, ds, season, exclude_locations) = None →
  (∀ x, x ∈ exclude_locations → x ∉ input_locations) →
  (∃ a, a ∈ filtered exclude_locations (ATOMIC_LOCATIONS ds) ∧ a ∉ input_locations) →
  get_weight_matrix input_locations season
    (filtered exclude_locations (ATOMIC_LOCATIONS ds)) = Ok H0 →
  get_weight_matrix (filtered exclude_locations (ALL_LOCATIONS ds)) season
    (filtered exclude_locations (ATOMIC_LOCATIONS ds)) = Ok W0 →
  fusion_determine_statespace H0 W0 = Ok (H, W, selected_rows) →
  ∃ table' : list (request * answer),
    determine_statespace_cached table input_locations ds season exclude_locations
    = (table',
       ([(H0, W0)],
        output_locations ←
          map_raising (py_index (filtered exclude_locations (ALL_LOCATIONS ds)))
            selected_rows;
        Ok (astype_float H, astype_float W, output_locations)))
    ∧ ∀ output_locations,
        map_raising (py_index (filtered exclude_locations (ALL_LOCATIONS ds))) selected_rows
        = Ok output_locations →
        ∃ table'' : list (request * answer),
          determine_statespace_cached table' input_locations ds season exclude_locations
          = (table'', ([], Ok (astype_float H, astype_float W, output_locations))).
Proof.
  intros Hmiss Hdisj Hnot HH0 HW0 Hred. unfold determine_statespace_cached at 1.
  rewrite Hmiss, (determine_statespace_reduces _ _ _ _ _ _ _ _ _ Hdisj Hnot HH0 HW0 Hred).
  destruct (map_raising _ selected_rows) as [output_locations|e];
    cbn [mbind result_bind]; eexists; (split; [reflexivity|]); [|done].
  intros locs [= <-]. eexists. unfold determine_statespace_cached.
  by rewrite lru_find_touch.
Qed.

(** X5. Along every run that started with an empty table, whenever the
    decorated [determine_statespace] returns, the request was disjoint and
    every output location is a catalogue entry that is not excluded.  On a
    call that the [lru_cache] does not answer, the reduction was skipped
    exactly when the inputs cover the filtered atoms; on a call that it
    answers, the reduction is not called at all. *)
Theorem determine_statespace_returns (table table' : list (request * answer))
    (input_locations exclude_locations : list string)
    (ds : data_source) (season : option Z) (calls : list (matrix * matrix))
    (H W : list (list float)) (output_locations : list string) :
  consistent table →
  determine_statespace_cached table input_locations ds season exclude_locations
  = (table', (calls, Ok (H, W, output_locations))) →
  (∀ x, x ∈ exclude_locations → x ∉ input_locations)
  ∧ (∀ l, l ∈ output_locations → l ∈ ALL_LOCATIONS ds ∧ l ∉ exclude_locations)
  ∧ (lru_find table (input_locations, ds, season, exclude_locations) = None →
     (calls = [] ↔ ∀ a, a ∈ filtered exclude_locations (ATOMIC_LOCATIONS ds) →
                        a ∈ input_locations))
  ∧ (is_Some (lru_find table (input_locations, ds, season, exclude_locations)) →
     calls = [])
  ∧ consistent table'.
Proof.
  intros Hcons. unfold determine_statespace_cached.
  destruct (lru_find table _) as [a|] eqn:Hfind.
  - intros [= <- <- ->]. apply lru_find_elem in Hfind.
    pose proof (Hcons _ _ _ _ _ Hfind) as Hbody.
    destruct (determine_statespace input_locations ds season exclude_locations)
      as [calls0 r0] eqn:Hrun. cbn [snd] in Hbody. subst r0.
    destruct (determine_statespace_Ok_inv _ _ _ _ _ _ _ _ Hrun) as (Hdisj & Hout & _).
    split; [done|]. split; [done|]. split; [done|]. split; [done|].
    intros i d s e a' Hin. apply lru_touch_elem in Hin as [[= -> -> -> -> ->]|Hin].
    + by rewrite Hrun.
    + by apply Hcons.
  - destruct (determine_statespace input_locations ds season exclude_locations)
      as [calls0 r0] eqn:Hrun.
    intros [= <- <- ->].
    destruct (determine_statespace_Ok_inv _ _ _ _ _ _ _ _ Hrun) as (Hdisj & Hout & Hcalls).
    split; [done|]. split; [done|]. split; [done|]. split; [by intros [? ?]|].
    intros i d s e a' Hin. apply elem_of_cons in Hin as [[= -> -> -> -> ->]|Hin].
    + by rewrite Hrun.
    + apply elem_of_take in Hin as (k & Hin & _). apply list_elem_of_lookup_2 in Hin.
      apply list_elem_of_filter in Hin as [_ Hin]. by apply Hcons.
Qed.

End mapper.

(** *** A small hierarchy on which the claims are exercised *)

Definition demo_region_map : gmap string (list string) :=
  list_to_map
    [("nj", ["nj"]); ("ny", ["ny_minus_jfk"; "jfk"]); ("vi", ["vi"]);
     ("hhs2", ["nj"; "ny_minus_jfk"; "jfk"; "vi"])].

Definition demo_population (location : string) (season : option Z) : N :=
  if decide (location = "nj") then 9
  else if decide (location = "ny_minus_jfk") then 11
  else if decide (location = "jfk") then 8
  else 0.

Definition demo_source : data_source :=
  DataSource ["nj"; "ny"; "vi"; "hhs2"] ["nj"; "ny"; "vi"].

Definition demo_to_float (q : Qc) : Qc := q.

Definition demo_reduce (H0 W0 : matrix) : result (matrix * matrix * list Z) :=
  Ok (H0, W0, [0%Z]).

Example demo_row :
  get_weight_row demo_region_map demo_population "hhs2" None ["nj"; "ny"; "vi"]
  = Ok [(Qc_of_Z 9 / Qc_of_Z 28)%Qc; (Qc_of_Z 19 / Qc_of_Z 28)%Qc; (Qc_of_Z 0 / Qc_of_Z 28)%Qc].
Proof. vm_compute. reflexivity. Qed.

Lemma demo_hhs2_populated :
  populated demo_population ["nj"; "ny_minus_jfk"; "jfk"; "vi"] None ["nj"; "ny"; "vi"].
Proof.
  exists "ny", "jfk". repeat split; [compute_done..|]. vm_compute. discriminate.
Defined.

Lemma demo_vi_unpopulated :
  unpopulated demo_population ["vi"] None ["nj"; "ny"; "vi"].
Proof.
  intros atom r _ _ Hr. apply list_elem_of_singleton in Hr as ->. reflexivity.
Defined.

Lemma get_weight_row_stochastic_witness :
  ∃ row : list Qc,
    get_weight_row demo_region_map demo_population "hhs2" None ["nj"; "ny"; "vi"] = Ok row
    ∧ row = map (weight_of demo_population ["nj"; "ny_minus_jfk"; "jfk"; "vi"] None
                   ["nj"; "ny"; "vi"]) ["nj"; "ny"; "vi"]
    ∧ sum_row row = 1%Qc
    ∧ ∀ (i : nat) (atom : string),
        ["nj"; "ny"; "vi"] !! i = Some atom →
        outside ["nj"; "ny_minus_jfk"; "jfk"; "vi"] atom → row !! i = Some (Q2Qc 0).
Proof.
  apply (get_weight_row_stochastic demo_region_map demo_population "hhs2" None
           ["nj"; "ny"; "vi"] ["nj"; "ny_minus_jfk"; "jfk"; "vi"]).
  - reflexivity.
  - exact demo_hhs2_populated.
Defined.

Lemma zero_population_location_raises_witness :
  get_weight_row demo_region_map demo_population "vi" None ["nj"; "ny"; "vi"]
    = Raise (ExceptionAt msg_no_constituent_atoms "vi")
  ∧ ∃ e, determine_statespace demo_region_map demo_population Qc demo_to_float demo_reduce
           ["nj"; "ny"; "vi"] demo_source None [] = ([], Raise e).
Proof.
  destruct (zero_population_location_raises demo_region_map demo_population Qc demo_to_float
              demo_reduce "vi" None ["nj"; "ny"; "vi"] ["vi"] eq_refl demo_vi_unpopulated)
    as [Hrow Hreq].
  split; [exact Hrow|].
  apply (Hreq ["nj"; "ny"; "vi"] [] demo_source eq_refl).
  left. compute_done.
Defined.

Lemma overlapping_request_raises_witness :
  determine_statespace demo_region_map demo_population Qc demo_to_float demo_reduce
    ["nj"; "ny"; "vi"] demo_source None ["vi"]
  = ([], Raise (Exception msg_input_contains_excluded)).
Proof.
  apply (overlapping_request_raises demo_region_map demo_population Qc demo_to_float demo_reduce
           ["nj"; "ny"; "vi"] ["vi"] demo_source None "vi"); compute_done.
Defined.

Lemma determine_statespace_fast_path_witness :
  ∃ H0 W0 : matrix,
    get_weight_matrix demo_region_map demo_population ["nj"; "ny"] None ["nj"; "ny"] = Ok H0
    ∧ get_weight_matrix demo_region_map demo_population ["nj"; "ny"; "hhs2"] None ["nj"; "ny"]
      = Ok W0
    ∧ determine_statespace demo_region_map demo_population Qc demo_to_float demo_reduce
        ["nj"; "ny"] demo_source None ["vi"]
      = ([], Ok (astype_float Qc demo_to_float H0, astype_float Qc demo_to_float W0, ["nj"; "ny"; "hhs2"])).
Proof.
  eexists. eexists. split; [vm_compute; reflexivity|]. split; [vm_compute; reflexivity|].
  apply (determine_statespace_fast_path demo_region_map demo_population Qc demo_to_float demo_reduce
           ["nj"; "ny"] ["vi"] demo_source None).
  - intros a Ha. vm_compute in Ha. exact Ha.
  - intros x Hx. apply list_elem_of_singleton in Hx as ->. compute_done.
  - vm_compute. reflexivity.
  - vm_compute. reflexivity.
Defined.

(** *** More about the population table *)

Lemma fold_raising_ext {A S} (f g : S → A → result S) (xs : list A) (s : S) :
  (∀ s x, x ∈ xs → f s x = g s x) → fold_raising f xs s = fold_raising g xs s.
Proof.
  revert s. induction xs as [|x xs IH]; intros s Hfg; [done|].
  simpl. rewrite (Hfg s x) by apply list_elem_of_here.
  destruct (g s x) as [s'|]; [|done]. simpl. apply IH.
  intros s'' y Hy. apply Hfg. by apply list_elem_of_further.
Qed.

(** Two population tables, or two seasons, that agree on every sub-unit
    looked up give the same row. *)
Lemma get_weight_row_ext (region_map : gmap string (list string))
    (pop pop' : string → option Z → N) (location : string) (season season' : option Z)
    (atoms : list string) :
  (∀ atom r, atom ∈ atoms → r ∈ remapped_atom_to_atoms atom →
     season_population pop season r = season_population pop' season' r) →
  get_weight_row region_map pop location season atoms
  = get_weight_row region_map pop' location season' atoms.
Proof.
  intros Hpop. unfold get_weight_row.
  rewrite (fold_raising_ext (weigh_atom region_map pop location season)
             (weigh_atom region_map pop' location season')); [done|].
  intros [total pops] atom Hatom. unfold weigh_atom.
  rewrite (fold_raising_ext (add_remapping_atom region_map pop location season)
             (add_remapping_atom region_map pop' location season')); [done|].
  intros acc r Hr. unfold add_remapping_atom.
  destruct (region_map_at region_map location); [|done]. simpl.
  by rewrite (Hpop atom r).
Qed.

(** X6. The season [0] is read as no season at all, and every other season
    up to 2013 is read as 2013: the rows are those of the remapped season. *)
Theorem get_weight_row_season_remapping (region_map : gmap string (list string))
    (pop : string → option Z → N) (location : string) (atoms : list string) :
  get_weight_row region_map pop location (Some 0%Z) atoms
    = get_weight_row region_map pop location None atoms
  ∧ ∀ s : Z, s ≠ 0%Z → (s ≤ 2013)%Z →
      get_weight_row region_map pop location (Some s) atoms
      = get_weight_row region_map pop location (Some 2013%Z) atoms.
Proof.
  split.
  - apply get_weight_row_ext. intros _ r _ _. reflexivity.
  - intros s Hs Hle. apply get_weight_row_ext. intros _ r _ _.
    unfold season_population. destruct (decide (s = 0%Z)); [done|].
    destruct (decide (2013%Z = 0%Z)); [done|]. by rewrite Z.max_r, Z.max_id.
Qed.

(** X7. The population table is never asked about [ny] itself, only about
    its two sub-units: tables that differ at [ny] alone give the same row. *)
Theorem get_weight_row_ignores_ny (region_map : gmap string (list string))
    (pop pop' : string → option Z → N) (location : string) (season : option Z)
    (atoms : list string) :
  (∀ a s, a ≠ "ny" → pop a s = pop' a s) →
  get_weight_row region_map pop location season atoms
  = get_weight_row region_map pop' location season atoms.
Proof.
  intros Hpop. apply get_weight_row_ext. intros atom r _ Hr.
  assert (r ≠ "ny") as Hny.
  { unfold remapped_atom_to_atoms in Hr. destruct (decide (atom = "ny")).
    - apply elem_of_cons in Hr as [->|Hr]; [done|].
      apply list_elem_of_singleton in Hr as ->. done.
    - apply list_elem_of_singleton in Hr as ->. done. }
  unfold season_population. destruct season as [s|]; [|by apply Hpop].
  destruct (decide (s = 0%Z)); by apply Hpop.
Qed.

(** *** The extras on the small hierarchy *)

Definition demo_population_ny (location : string) (season : option Z) : N :=
  if decide (location = "ny") then 1000 else demo_population location season.

Lemma get_weight_row_ignores_ny_witness :
  get_weight_row demo_region_map demo_population "hhs2" None ["nj"; "ny"; "vi"]
  = get_weight_row demo_region_map demo_population_ny "hhs2" None ["nj"; "ny"; "vi"].
Proof.
  apply (get_weight_row_ignores_ny demo_region_map demo_population demo_population_ny).
  intros a s Ha. unfold demo_population_ny. by destruct (decide (a = "ny")).
Defined.

Lemma get_weight_row_is_distribution_witness :
  length [(Qc_of_Z 9 / Qc_of_Z 28)%Qc; (Qc_of_Z 19 / Qc_of_Z 28)%Qc;
          (Qc_of_Z 0 / Qc_of_Z 28)%Qc] = length ["nj"; "ny"; "vi"]
  ∧ sum_row [(Qc_of_Z 9 / Qc_of_Z 28)%Qc; (Qc_of_Z 19 / Qc_of_Z 28)%Qc;
             (Qc_of_Z 0 / Qc_of_Z 28)%Qc] = 1%Qc
  ∧ ∀ w, w ∈ [(Qc_of_Z 9 / Qc_of_Z 28)%Qc; (Qc_of_Z 19 / Qc_of_Z 28)%Qc;
              (Qc_of_Z 0 / Qc_of_Z 28)%Qc] → (Q2Qc 0 ≤ w)%Qc ∧ (w ≤ 1)%Qc.
Proof.
  apply (get_weight_row_is_distribution demo_region_map demo_population "hhs2" None
           ["nj"; "ny"; "vi"]).
  vm_compute. reflexivity.
Defined.

Lemma get_weight_row_unknown_location_witness :
  get_weight_row demo_region_map demo_population "hhs9" None ["nj"; "ny"; "vi"]
  = Raise KeyError.
Proof.
  apply (get_weight_row_unknown_location demo_region_map demo_population "hhs9" None
           ["nj"; "ny"; "vi"]).
  vm_compute. reflexivity.
Defined.

Lemma get_weight_matrix_is_stochastic_witness :
  ∃ M : matrix,
    get_weight_matrix demo_region_map demo_population ["nj"; "hhs2"] None ["nj"; "ny"; "vi"]
    = Ok M
    ∧ length M = length ["nj"; "hhs2"]
    ∧ ∀ row, row ∈ M → length row = length ["nj"; "ny"; "vi"] ∧ sum_row row = 1%Qc.
Proof.
  eexists. split; [vm_compute; reflexivity|].
  apply (get_weight_matrix_is_stochastic demo_region_map demo_population
           ["nj"; "hhs2"] None ["nj"; "ny"; "vi"]).
  vm_compute. reflexivity.
Defined.

(** The raw matrices of the request for [hhs2] alone, without [vi]. *)
Definition demo_H0 : matrix :=
  match get_weight_matrix demo_region_map demo_population ["hhs2"] None ["nj"; "ny"] with
  | Ok M => M
  | Raise _ => []
  end.
Definition demo_W0 : matrix :=
  match get_weight_matrix demo_region_map demo_population ["nj"; "ny"; "hhs2"] None
          ["nj"; "ny"] with
  | Ok M => M
  | Raise _ => []
  end.

Lemma determine_statespace_general_path_witness :
  ∃ table',
    determine_statespace_cached demo_region_map demo_population Qc demo_to_float demo_reduce
      [] ["hhs2"] demo_source None ["vi"]
    = (table',
       ([(demo_H0, demo_W0)],
        output_locations ←
          map_raising (py_index (filtered ["vi"] (ALL_LOCATIONS demo_source))) [0%Z];
        Ok (astype_float Qc demo_to_float demo_H0, astype_float Qc demo_to_float demo_W0,
            output_locations)))
    ∧ ∀ output_locations,
        map_raising (py_index (filtered ["vi"] (ALL_LOCATIONS demo_source))) [0%Z]
        = Ok output_locations →
        ∃ table'',
          determine_statespace_cached demo_region_map demo_population Qc demo_to_float
            demo_reduce table' ["hhs2"] demo_source None ["vi"]
          = (table'',
             ([], Ok (astype_float Qc demo_to_float demo_H0,
                      astype_float Qc demo_to_float demo_W0, output_locations))).
Proof.
  apply (determine_statespace_general_path demo_region_map demo_population Qc
           demo_to_float demo_reduce [] ["hhs2"] ["vi"] demo_source None
           demo_H0 demo_W0 demo_H0 demo_W0 [0%Z]).
  - reflexivity.
  - intros x Hx. apply list_elem_of_singleton in Hx as ->.
    intros Hin. apply list_elem_of_singleton in Hin. discriminate.
  - exists "nj". split; [apply (bool_decide_unpack _); vm_compute; exact I|].
    intros Hin. apply list_elem_of_singleton in Hin. discriminate.
  - vm_compute. reflexivity.
  - vm_compute. reflexivity.
  - reflexivity.
Defined.

(** The table after the request for [hhs2] alone, without [vi]. *)
Definition demo_table : list (list string * data_source * option Z * list string
                              * (list (list Qc) * list (list Qc) * list string)) :=
  [(["hhs2"], demo_source, None, ["vi"],
    (astype_float Qc demo_to_float demo_H0, astype_float Qc demo_to_float demo_W0,
     ["nj"]))].

Lemma determine_statespace_returns_witness :
  (∀ x, x ∈ ["vi"] → x ∉ ["hhs2"])
  ∧ (∀ l, l ∈ ["nj"] → l ∈ ALL_LOCATIONS demo_source ∧ l ∉ ["vi"])
  ∧ (lru_find Qc [] (["hhs2"], demo_source, None, ["vi"]) = None →
     ([(demo_H0, demo_W0)] = []
      ↔ ∀ a, a ∈ filtered ["vi"] (ATOMIC_LOCATIONS demo_source) → a ∈ ["hhs2"]))
  ∧ (is_Some (lru_find Qc [] (["hhs2"], demo_source, None, ["vi"])) →
     [(demo_H0, demo_W0)] = [])
  ∧ consistent demo_region_map demo_population Qc demo_to_float demo_reduce demo_table.
Proof.
  apply (determine_statespace_returns demo_region_map demo_population Qc demo_to_float
           demo_reduce [] demo_table ["hhs2"] ["vi"] demo_source None
           [(demo_H0, demo_W0)]
           (astype_float Qc demo_to_float demo_H0) (astype_float Qc demo_to_float demo_W0)
           ["nj"]).
  - intros i d s e a Hin. by apply elem_of_nil in Hin.
  - vm_compute. reflexivity.
Defined.

End LocationMapper.

(** ** Insertion-ordered dictionaries *)

(** A Python [dict] whose iteration order is observed: an association list
    with distinct keys, a new key going to the end and an old key keeping its
    place. *)
Section pydict.
Context {K V : Type} `{EqDecision K}.

Fixpoint dict_set (d : list (K * V)) (k : K) (v : V) : list (K * V) :=
  match d with
  | [] => [(k, v)]
  | (k', v') :: d' =>
      if decide (k' = k) then (k', v) :: d' else (k', v') :: dict_set d' k v
  end.

Fixpoint dict_get (d : list (K * V)) (k : K) : option V :=
  match d with
  | [] => None
  | (k', v') :: d' => if decide (k' = k) then Some v' else dict_get d' k
  end.

Definition dict_keys (d : list (K * V)) : list K := map fst d.

(** [d[k]], raising [KeyError] on a missing key. *)
Definition dict_at (d : list (K * V)) (k : K) : result V :=
  match dict_get d k with
  | Some v => Ok v
  | None => Raise KeyError
  end.

Lemma dict_get_keys (d : list (K * V)) (k : K) :
  k ∈ dict_keys d → is_Some (dict_get d k).
Proof.
  induction d as [|[k' v'] d IH]; simpl; [by intros ?%elem_of_nil|].
  intros Hin. destruct (decide (k' = k)); [by eexists|].
  apply elem_of_cons in Hin as [->|Hin]; [done|by apply IH].
Qed.

Lemma dict_get_set (d : list (K * V)) (k k' : K) (v : V) :
  dict_get (dict_set d k v) k' = if decide (k = k') then Some v else dict_get d k'.
Proof.
  induction d as [|[k0 v0] d IH]; simpl.
  - by destruct (decide (k = k')).
  - destruct (decide (k0 = k)) as [->|Hne]; simpl.
    + by destruct (decide (k = k')).
    + destruct (decide (k0 = k')) as [->|]; [|done].
      by destruct (decide (k = k')).
Qed.

End pydict.

Section pydict_facts.
Context {K V : Type} `{EqDecision K}.

Lemma dict_keys_set (d : list (K * V)) (k : K) (v : V) :
  dict_keys (dict_set d k v)
  = if decide (k ∈ dict_keys d) then dict_keys d else dict_keys d ++ [k].
Proof.
  unfold dict_keys. induction d as [|[k' v'] d IH]; simpl.
  - destruct (decide (k ∈ [])) as [Hin|_]; [by apply elem_of_nil in Hin|done].
  - destruct (decide (k' = k)) as [->|Hne]; simpl.
    + destruct (decide (k ∈ k :: map fst d)) as [_|Hnot]; [done|].
      exfalso. apply Hnot, list_elem_of_here.
    + rewrite IH. destruct (decide (k ∈ map fst d)) as [Hin|Hnin].
      * destruct (decide (k ∈ k' :: map fst d)) as [_|Hnot]; [done|].
        exfalso. apply Hnot. by apply list_elem_of_further.
      * destruct (decide (k ∈ k' :: map fst d)) as [Hin|_]; [|done].
        apply elem_of_cons in Hin as [->|Hin]; done.
Qed.

Lemma dict_set_NoDup (d : list (K * V)) (k : K) (v : V) :
  NoDup (dict_keys d) → NoDup (dict_keys (dict_set d k v)).
Proof.
  intros Hnd. rewrite dict_keys_set. destruct (decide (k ∈ dict_keys d)); [done|].
  apply NoDup_app. split; [done|]. split; [|apply NoDup_singleton].
  intros x Hx ->%list_elem_of_singleton. done.
Qed.

Lemma dict_set_length (d : list (K * V)) (k : K) (v : V) :
  length (dict_set d k v) ≤ S (length d).
Proof.
  induction d as [|[k' v'] d IH]; simpl; [done|].
  destruct (decide (k' = k)); simpl; lia.
Qed.

Lemma dict_set_elem (d : list (K * V)) (k k' : K) (v v' : V) :
  (k', v') ∈ dict_set d k v → (k', v') = (k, v) ∨ (k', v') ∈ d.
Proof.
  induction d as [|[k0 v0] d IH]; simpl.
  - intros ->%list_elem_of_singleton. by left.
  - destruct (decide (k0 = k)) as [->|Hne].
    + intros [->|Hin]%elem_of_cons; [by left|right; by apply list_elem_of_further].
    + intros [->|Hin]%elem_of_cons; [right; apply list_elem_of_here|].
      destruct (IH Hin) as [?|?]; [by left|right; by apply list_elem_of_further].
Qed.

Lemma dict_get_elem (d : list (K * V)) (k : K) (v : V) :
  dict_get d k = Some v → (k, v) ∈ d.
Proof.
  induction d as [|[k0 v0] d IH]; simpl; [done|].
  destruct (decide (k0 = k)) as [->|Hne].
  - intros [= ->]. apply list_elem_of_here.
  - intros Hget. by apply list_elem_of_further, IH.
Qed.

Lemma dict_get_None (d : list (K * V)) (k : K) :
  dict_get d k = None ↔ k ∉ dict_keys d.
Proof.
  unfold dict_keys. induction d as [|[k0 v0] d IH]; simpl.
  - split; [intros _ Hin; by apply elem_of_nil in Hin|done].
  - destruct (decide (k0 = k)) as [->|Hne].
    + split; [done|]. intros Hnot. exfalso. apply Hnot, list_elem_of_here.
    + rewrite IH. split.
      * intros Hnot [->|Hin]%elem_of_cons; done.
      * intros Hnot Hin. apply Hnot. by apply list_elem_of_further.
Qed.

End pydict_facts.

(** ** Rows of the Epidata service *)

(** One row of the ground-truth response. *)
Record target_row : Type := TargetRow {
  target_epiweek : Z;
  target_value : R
}.

(** ** A calendar for the examples *)

(** The calendar of the sources is external; the examples run on this one, in
    which every year has 52 weeks and a week is written [yyyyww]. *)
Module DemoCalendar.

Definition index (ew : Z) : Z := (ew / 100 * 52 + (ew mod 100 - 1))%Z.
Definition epiweek_of (i : Z) : Z := (i / 52 * 100 + i mod 52 + 1)%Z.
Definition add_epiweeks (ew n : Z) : Z := epiweek_of (index ew + n).
Definition delta_epiweeks (ew1 ew2 : Z) : Z := (index ew2 - index ew1)%Z.
Definition split_epiweek (ew : Z) : Z * Z := ((ew / 100)%Z, (ew mod 100)%Z).
Definition get_num_weeks (year : Z) : positive := 52%positive.
Definition range_epiweeks_inclusive (first last : Z) : list Z :=
  map epiweek_of (seqZ (index first) (index last - index first + 1)).
Definition Epidata_range (first last : Z) : Z * Z := (first, last).

(** The rows of a response that reports the value [ew] for each week [ew]. *)
Definition rows_of (weeks : list Z) : list target_row :=
  map (λ ew, TargetRow ew (IZR ew)) weeks.

End DemoCalendar.

(** ** The loch-ness fit ([SensorFitting.fit_loch_ness]) *)

Module LochNess.

Section kernel.
Local Open Scope R_scope.

(** Python's [x % y] on floats, for a positive [y]: the remainder of the
    floored division.  Floats are idealised as real numbers. *)
Definition float_mod (x y : R) : R := x - y * IZR (Zfloor (x / y)).


(** The factor [b] of [get_weight]: a Gaussian bump around every whole year. *)
Definition seasonal_bump (dw : Z) (yr bw : R) : R :=
  exp (- ((Rmin (float_mod (IZR dw) yr) (yr - float_mod (IZR dw) yr) / bw) ^ 2)).

(** The factor [c]: halves every [hl1] weeks. *)
Definition decay_recent (dw : Z) (hl1 : R) : R := Rpower 2 (- (IZR dw / hl1)).

(** The factor [d]: suppresses the most recent weeks. *)
Definition decay_seasonal (dw : Z) (hl2 : R) : R := 1 - Rpower 2 (- (IZR dw / hl2)).

(** [get_weight] once [dw = flu.delta_epiweeks(ew1, ew2)] is known. *)
Definition get_weight_at (dw : Z) : R :=
  let yr := 52.2 in
  let '(hl1, hl2, bw) := (yr, 1, 4) in
  let a := 0.05 in
  let b := seasonal_bump dw yr bw in
  let c := decay_recent dw hl1 in
  let d := decay_seasonal dw hl2 in
  (a + (1 - a) * b) * c * d.

(** The two decay factors together. *)
Definition decay (dw : Z) : R := decay_recent dw 52.2 * decay_seasonal dw 1.

Lemma float_mod_year_multiple (m : Z) : float_mod (IZR (261 * m)) 52.2 = 0.
Proof.
  unfold float_mod.
  replace (IZR (261 * m) / 52.2) with (IZR (5 * m)) by (rewrite !mult_IZR; lra).
  rewrite ZfloorZ, !mult_IZR. lra.
Qed.

Lemma float_mod_before_year_multiple (m : Z) :
  float_mod (IZR (261 * m - 12)) 52.2 = 40.2.
Proof.
  unfold float_mod.
  rewrite (Zfloor_eq (5 * m - 1)).
  - rewrite !minus_IZR, !mult_IZR. lra.
  - rewrite !minus_IZR, !mult_IZR. split; lra.
Qed.

Lemma Rpower_2_pos x : 0 < Rpower 2 x.
Proof. unfold Rpower. apply exp_pos. Qed.

Lemma Rpower_2_neg_le_half (d : Z) : (1 <= d)%Z → Rpower 2 (- IZR d) <= / 2.
Proof.
  intros Hd. replace (/ 2) with (Rpower 2 (Ropp 1)).
  - apply Rle_Rpower; [lra|]. apply IZR_le in Hd. lra.
  - rewrite Rpower_Ropp, Rpower_1; lra.
Qed.

Lemma exp_neg_9 : exp (- 9) < / 10.
Proof.
  replace (-9) with (Ropp 9) by lra.
  rewrite exp_Ropp. apply Rinv_lt_contravar.
  - apply Rmult_lt_0_compat; [lra|apply exp_pos].
  - pose proof (exp_ineq1 9). lra.
Qed.

Lemma get_weight_at_year_multiple (m : Z) :
  (1 <= m)%Z → / 2 * Rpower 2 (- (IZR (261 * m) / 52.2)) <= get_weight_at (261 * m).
Proof.
  intros Hm. unfold get_weight_at, seasonal_bump, decay_recent, decay_seasonal.
  rewrite float_mod_year_multiple.
  rewrite Rmin_left by lra.
  replace (- (0 / 4) ^ 2) with 0 by lra. rewrite exp_0.
  pose proof (Rpower_2_pos (- (IZR (261 * m) / 52.2))) as Hc.
  pose proof (Rpower_2_neg_le_half (261 * m) ltac:(lia)) as Hd.
  replace (- (IZR (261 * m) / 1)) with (- IZR (261 * m)) by lra.
  nra.
Qed.

Lemma get_weight_at_before_year_multiple (m : Z) :
  (1 <= m)%Z →
  get_weight_at (261 * m - 12) <= 0.29 * Rpower 2 (- (IZR (261 * m) / 52.2)).
Proof.
  intros Hm. unfold get_weight_at, seasonal_bump, decay_recent, decay_seasonal.
  rewrite float_mod_before_year_multiple.
  rewrite Rmin_right by lra.
  replace (- ((52.2 - 40.2) / 4) ^ 2) with (-9) by lra.
  replace (- (IZR (261 * m - 12) / 52.2))
    with (- (IZR (261 * m) / 52.2) + 12 / 52.2) by (rewrite minus_IZR; lra).
  rewrite Rpower_plus.
  pose proof (Rpower_2_pos (- (IZR (261 * m) / 52.2))) as Hc.
  pose proof (Rpower_2_pos (- (IZR (261 * m - 12) / 1))) as Hu.
  pose proof (Rpower_2_pos (12 / 52.2)) as Hs.
  assert (Rpower 2 (12 / 52.2) <= 2) as Hs2.
  { rewrite <- (Rpower_1 2) at 2 by lra. apply Rle_Rpower; lra. }
  pose proof exp_neg_9 as Hb. pose proof (exp_pos (-9)) as Hb0.
  set (c := Rpower 2 (- (IZR (261 * m) / 52.2))) in *.
  set (s := Rpower 2 (12 / 52.2)) in *.
  set (u := Rpower 2 (- (IZR (261 * m - 12) / 1))) in *.
  set (b := exp (-9)) in *.
  assert (0 < c * s) by nra.
  assert (c * s <= c * 2) by nra.
  set (A := 0.05 + (1 - 0.05) * b).
  assert (0 < A <= 0.145) as HA by (unfold A; lra).
  assert (0 < A * (c * s)) by (apply Rmult_lt_0_compat; lra).
  assert (A * (c * s) * (1 - u) <= A * (c * s)) by nra.
  assert (A * (c * s) <= 0.145 * (c * 2)) by nra.
  lra.
Qed.

Lemma Rpower_2_neg_le_64th (d : Z) : (6 <= d)%Z → Rpower 2 (- (IZR d / 1)) <= / 64.
Proof.
  intros Hd. replace (/ 64) with (Rpower 2 (Ropp (INR 6))).
  - apply Rle_Rpower; [lra|]. apply IZR_le in Hd. simpl. lra.
  - rewrite Rpower_Ropp, Rpower_pow by lra. f_equal. lra.
Qed.

Lemma Rpower_2_week : 1 + / 104.4 < Rpower 2 (/ 52.2).
Proof.
  unfold Rpower. pose proof ln_lt_2 as Hln.
  pose proof (exp_ineq1 (/ 52.2 * ln 2)) as Hexp.
  assert (/ 52.2 * / 2 < / 52.2 * ln 2) by (apply Rmult_lt_compat_l; lra).
  lra.
Qed.

Lemma decay_pos (d : Z) : (1 <= d)%Z → 0 < decay d.
Proof.
  intros Hd. unfold decay, decay_recent, decay_seasonal.
  apply Rmult_lt_0_compat; [apply Rpower_2_pos|].
  pose proof (Rpower_2_neg_le_half d Hd).
  replace (- (IZR d / 1)) with (- IZR d) by lra. lra.
Qed.

Lemma decay_step (d : Z) : (6 <= d)%Z → decay (d + 1) < decay d.
Proof.
  intros Hd. unfold decay, decay_recent, decay_seasonal.
  replace (- (IZR (d + 1) / 52.2)) with (- (IZR d / 52.2) + - / 52.2)
    by (rewrite plus_IZR; lra).
  replace (- (IZR (d + 1) / 1)) with (- (IZR d / 1) + Ropp 1)
    by (rewrite plus_IZR; lra).
  rewrite !Rpower_plus, !Rpower_Ropp, (Rpower_1 2) by lra.
  pose proof (Rpower_2_neg_le_64th d Hd) as Hu. rewrite Rpower_Ropp in Hu.
  pose proof (Rpower_2_pos (IZR d / 52.2)) as Hc.
  pose proof (Rpower_2_pos (IZR d / 1)) as Hu0.
  pose proof Rpower_2_week as Hk.
  apply Rinv_0_lt_compat in Hc, Hu0.
  set (c := / Rpower 2 (IZR d / 52.2)) in *.
  set (u := / Rpower 2 (IZR d / 1)) in *.
  set (k := Rpower 2 (/ 52.2)) in *.
  assert (/ k < / (1 + / 104.4)) as Hq by (apply Rinv_lt_contravar; nra).
  assert (0 < / k) as Hq0 by (apply Rinv_0_lt_compat; lra).
  assert (/ (1 + / 104.4) * (1 - u * / 2) <= 1 - u) as Hmain.
  { replace (/ (1 + / 104.4)) with (104.4 / 105.4) by lra. lra. }
  assert (/ k * (1 - u * / 2) < 1 - u) by nra.
  replace (c * / k * (1 - u * / 2)) with (c * (/ k * (1 - u * / 2))) by ring.
  apply Rmult_lt_compat_l; lra.
Qed.

Lemma decay_decreasing (d d' : Z) : (6 <= d)%Z → (d < d')%Z → decay d' < decay d.
Proof.
  intros Hd Hlt.
  replace d' with (d + 1 + Z.of_nat (Z.to_nat (d' - d - 1)))%Z by lia.
  induction (Z.to_nat (d' - d - 1)) as [|n IH].
  - rewrite Z.add_0_r. by apply decay_step.
  - replace (d + 1 + Z.of_nat (S n))%Z with ((d + 1 + Z.of_nat n) + 1)%Z by lia.
    eapply Rlt_trans; [apply decay_step; lia|exact IH].
Qed.

Lemma seasonal_bump_bounds (dw : Z) (yr bw : R) : 0 < seasonal_bump dw yr bw.
Proof. apply exp_pos. Qed.

Lemma get_weight_at_decreasing_of_bump (d d' : Z) :
  (6 <= d)%Z → (d < d')%Z →
  seasonal_bump d' 52.2 4 <= seasonal_bump d 52.2 4 →
  get_weight_at d' < get_weight_at d.
Proof.
  intros Hd Hlt Hbump. unfold get_weight_at.
  pose proof (decay_decreasing d d' Hd Hlt) as Hdecay.
  pose proof (decay_pos d' ltac:(lia)) as Hpos.
  pose proof (seasonal_bump_bounds d' 52.2 4) as Hb'.
  unfold decay in *.
  set (b := seasonal_bump d 52.2 4) in *. set (b' := seasonal_bump d' 52.2 4) in *.
  set (g := decay_recent d 52.2 * decay_seasonal d 1) in *.
  set (g' := decay_recent d' 52.2 * decay_seasonal d' 1) in *.
  replace ((0.05 + (1 - 0.05) * b') * decay_recent d' 52.2 * decay_seasonal d' 1)
    with ((0.05 + (1 - 0.05) * b') * g') by (unfold g'; ring).
  replace ((0.05 + (1 - 0.05) * b) * decay_recent d 52.2 * decay_seasonal d 1)
    with ((0.05 + (1 - 0.05) * b) * g) by (unfold g; ring).
  assert ((0.05 + (1 - 0.05) * b') * g' <= (0.05 + (1 - 0.05) * b) * g') by nra.
  assert ((0.05 + (1 - 0.05) * b) * g' < (0.05 + (1 - 0.05) * b) * g) by nra.
  lra.
Qed.

Lemma float_mod_first_year (d : Z) :
  (0 <= d <= 52)%Z → float_mod (IZR d) 52.2 = IZR d.
Proof.
  intros [Hd0 Hd1]. unfold float_mod. rewrite (Zfloor_eq 0); [lra|].
  apply IZR_le in Hd0, Hd1. split; lra.
Qed.

Lemma seasonal_bump_first_half_year (d d' : Z) :
  (0 <= d)%Z → (d <= d')%Z → (d' <= 26)%Z →
  seasonal_bump d' 52.2 4 <= seasonal_bump d 52.2 4.
Proof.
  intros Hd0 Hle Hd'. unfold seasonal_bump.
  rewrite !float_mod_first_year by lia.
  apply IZR_le in Hd0, Hle, Hd'.
  rewrite !Rmin_left by lra.
  destruct (Rle_lt_or_eq_dec _ _ Hle) as [Hlt|<-]; [|lra].
  left. apply exp_increasing. nra.
Qed.

(** *** Claim about the kernel *)

(** C3, as the spec states it, fails for every choice of the bump radius:
    the bump returns each year, so a week 261 m weeks back (a whole number
    of 52.2-week years) outweighs the week 12 weeks nearer to the target. *)
Lemma get_weight_at_rises_every_year :
  ¬ ∃ radius : Z, ∀ d d' : Z,
      (radius < d)%Z → (d < d')%Z → get_weight_at d' < get_weight_at d.
Proof.
  intros [radius Hmono].
  set (m := Z.max 1 (radius + 1)).
  assert (1 <= m)%Z as Hm by lia.
  specialize (Hmono (261 * m - 12)%Z (261 * m)%Z ltac:(lia) ltac:(lia)).
  pose proof (get_weight_at_year_multiple m Hm).
  pose proof (get_weight_at_before_year_multiple m Hm).
  pose proof (Rpower_2_pos (- (IZR (261 * m) / 52.2))).
  lra.
Qed.

(** C3, amended. For whole-week distances [6 <= d < d'] the kernel weight at
    [d'] is strictly smaller than at [d] whenever the seasonal factor is not
    larger at [d'] than at [d] (all else equal); this is the case whenever
    [d' <= 26], that is before the bump of the previous year sets in. *)
Theorem get_weight_at_decreasing (d d' : Z) :
  (6 <= d)%Z → (d < d')%Z →
  (seasonal_bump d' 52.2 4 <= seasonal_bump d 52.2 4 →
   get_weight_at d' < get_weight_at d)
  ∧ ((d' <= 26)%Z → get_weight_at d' < get_weight_at d).
Proof.
  intros Hd Hlt. split.
  - by apply get_weight_at_decreasing_of_bump.
  - intros Hd'. apply get_weight_at_decreasing_of_bump; [done..|].
    apply seasonal_bump_first_half_year; lia.
Qed.

Lemma get_weight_at_decreasing_witness :
  (6 <= 7)%Z ∧ (7 < 9)%Z ∧ (9 <= 26)%Z
  ∧ seasonal_bump 9 52.2 4 <= seasonal_bump 7 52.2 4
  ∧ get_weight_at 9 < get_weight_at 7.
Proof.
  assert (6 <= 7)%Z as H6 by lia. assert (7 < 9)%Z as H7 by lia.
  assert (9 <= 26)%Z as H9 by lia.
  assert (seasonal_bump 9 52.2 4 <= seasonal_bump 7 52.2 4) as Hbump
    by (apply seasonal_bump_first_half_year; lia).
  repeat split; [done..|].
  exact (proj1 (get_weight_at_decreasing 7 9 H6 H7) Hbump).
Defined.

(** *** More about the kernel *)

Lemma seasonal_bump_le_1 (dw : Z) (yr bw : R) : seasonal_bump dw yr bw <= 1.
Proof.
  unfold seasonal_bump. rewrite <- exp_0.
  set (q := Rmin (float_mod (IZR dw) yr) (yr - float_mod (IZR dw) yr) / bw).
  destruct (Req_dec q 0) as [->|Hq].
  - right. f_equal. lra.
  - left. apply exp_increasing. assert (0 < q ^ 2) by nra. lra.
Qed.

(** X8. A week at distance zero gets the weight 0, and every week at a
    distance of one week or more gets a weight strictly between 0 and 1: no
    week before the target is left out of the fit. *)
Theorem get_weight_at_range :
  get_weight_at 0 = 0
  ∧ ∀ dw : Z, (1 <= dw)%Z → 0 < get_weight_at dw < 1.
Proof.
  split.
  - unfold get_weight_at, decay_seasonal.
    replace (- (0 / 1)) with 0 by lra. rewrite Rpower_O by lra. lra.
  - intros dw Hdw. unfold get_weight_at, decay_recent, decay_seasonal.
    pose proof (seasonal_bump_bounds dw 52.2 4) as Hb0.
    pose proof (seasonal_bump_le_1 dw 52.2 4) as Hb1.
    pose proof (Rpower_2_pos (- (IZR dw / 52.2))) as Hc0.
    assert (Rpower 2 (- (IZR dw / 52.2)) < 1) as Hc1.
    { rewrite <- (Rpower_O 2) by lra. apply Rpower_lt; [lra|].
      apply IZR_le in Hdw. lra. }
    pose proof (Rpower_2_pos (- (IZR dw / 1))) as Hd0.
    pose proof (Rpower_2_neg_le_half dw Hdw) as Hd1.
    replace (- (IZR dw / 1)) with (- IZR dw) in * by lra.
    set (b := seasonal_bump dw 52.2 4) in *.
    set (c := Rpower 2 (- (IZR dw / 52.2))) in *.
    set (u := Rpower 2 (- IZR dw)) in *.
    assert (0 < 0.05 + (1 - 0.05) * b <= 1) as [HA0 HA1] by lra.
    assert (0 < (0.05 + (1 - 0.05) * b) * c) as HAc0 by (apply Rmult_lt_0_compat; lra).
    assert ((0.05 + (1 - 0.05) * b) * c < 1) as HAc1 by nra.
    split; [apply Rmult_lt_0_compat; lra|nra].
Qed.

End kernel.

(** One row of a covariate response: the week and the named fields, a field
    being [None] for a JSON null. *)
Record signal_row : Type := SignalRow {
  row_epiweek : Z;
  row_fields : gmap string (option R)
}.

(** [fields] is a field name or a list of field names. *)
Inductive fields_arg : Type :=
| FieldName (f : string)
| FieldList (fs : list string).

Definition msg_unavailable : string := "unavailable on".
Definition msg_available_less : string := "available less than weeks".
Definition msg_targets_less : string := "datasetname_targets available less than weeks".
Definition msg_length_mismatch : string := "length mismatch".

Section fitting.

(** The epiweek calendar ([delphi.utils.epiweek]). *)
Variable add_epiweeks : Z → Z → Z.
Variable delta_epiweeks : Z → Z → Z.
(** [Epidata.range(from, to)] and the type of its result. *)
Variable week_range : Type.
Variable Epidata_range : Z → Z → week_range.
(** [Epidata.check(Epidata.datasetname_targets(auth, target, location, weeks))]. *)
Variable datasetname_targets : string → string → week_range → result (list target_row).
(** The solve [inv(X.T W X) (X.T W Y)] of [get_model], from the diagonal of
    [W], the rows of [X] and the entries of [Y]. *)
Variable weighted_least_squares : list R → list (list R) → list R → result (list R).

Definition get_weight (ew1 ew2 : Z) : R :=
  let dw := delta_epiweeks ew1 ew2 in
  get_weight_at dw.

Definition get_weeks (epiweek : Z) : Z * Z * Z * week_range * week_range :=
  let ew1 := 199301%Z in
  let ew2 := epiweek in
  let ew3 := add_epiweeks epiweek 1 in
  let weeks0 := Epidata_range ew1 ew2 in
  let weeks1 := Epidata_range ew1 ew3 in
  (ew1, ew2, ew3, weeks0, weeks1).

(** [float(row[f])]. *)
Definition float_of_field (row : signal_row) (f : string) : result R :=
  match row_fields row !! f with
  | None => Raise KeyError
  | Some None => Raise TypeError
  | Some (Some v) => Ok v
  end.

Definition extract (rows : list signal_row) (fields : list string)
    (signal_to_truth_ew_shift : Z) : result (list (Z * list R)) :=
  fold_raising
    (λ data row,
       values ← map_raising (float_of_field row) fields;
       Ok (dict_set data (add_epiweeks (row_epiweek row) signal_to_truth_ew_shift) values))
    rows [].

(** The ground-truth dictionary built from the target rows. *)
Definition ground_truth_of (datasetnameData : list target_row) : gmap Z R :=
  foldl (λ groundTruth row, <[target_epiweek row := target_value row]> groundTruth)
        ∅ datasetnameData.

(** Body of the loop [for signal_week in signal.keys()]; the state is
    [(data, dropped_weeks)]. *)
Definition align_week (signal : list (Z * list R)) (groundTruth : gmap Z R)
    (ew3 signal_to_truth_ew_shift : Z)
    (st : gmap Z (list R * R) * Z) (signal_week : Z) : result (gmap Z (list R * R) * Z) :=
  let '(data, dropped_weeks) := st in
  let ground_truth_week := add_epiweeks signal_week signal_to_truth_ew_shift in
  if decide (ground_truth_week = ew3) then Ok (data, dropped_weeks)
  else
    sig ← dict_at signal signal_week;
    match groundTruth !! ground_truth_week with
    | Some label => Ok (<[ground_truth_week := (sig, label)]> data, dropped_weeks)
    | None => Ok (data, (dropped_weeks + 1)%Z)
    end.

(** [data[week]]. *)
Definition data_at (data : gmap Z (list R * R)) (week : Z) : result (list R * R) :=
  match data !! week with
  | Some xy => Ok xy
  | None => Raise KeyError
  end.

(** [get_training_set_datasetname]; the warning it prints about dropped
    weeks is left out. *)
Definition get_training_set_datasetname (location : string) (epiweek : Z)
    (signal : list (Z * list R)) (target : string) (signal_to_truth_ew_shift : Z)
  : result (list Z * list (list R) * list R) :=
  let '(ew1, ew2, ew3, weeks0, weeks1) := get_weeks epiweek in
  datasetnameData ← datasetname_targets target location weeks0;
  let groundTruth := ground_truth_of datasetnameData in
  st ← fold_raising (align_week signal groundTruth ew3 signal_to_truth_ew_shift)
         (dict_keys signal) (∅, 0%Z);
  let '(data, dropped_weeks) := st in
  let epiweeks := merge_sort Z.le (map fst (map_to_list data)) in
  X ← map_raising (λ week, xy ← data_at data week; Ok xy.1) epiweeks;
  Y ← map_raising (λ week, xy ← data_at data week; Ok xy.2) epiweeks;
  Ok (epiweeks, X, Y).

Definition get_periodic_bias (epiweek : Z) : list R :=
  let weeks_per_year := 52.2%R in
  let offset := float_mod (IZR (delta_epiweeks 200001 epiweek)) weeks_per_year in
  let angle := (PI * 2 * offset / weeks_per_year)%R in
  [sin angle; cos angle].

(** [np.dot] of a row with a column. *)
Definition dot_row (obs beta : list R) : result R :=
  if decide (length obs = length beta)
  then Ok (foldr Rplus 0%R (zip_with Rmult obs beta))
  else Raise ValueError.

Definition apply_model (epiweek : Z) (beta values : list R) : result R :=
  let bias0 := [1%R] in
  if decide (length values + 1 < length beta)%nat
  then
    let bias1 := get_periodic_bias epiweek in
    dot_row (values ++ bias0 ++ bias1) beta
  else dot_row (values ++ bias0) beta.

Definition get_model (ew2 : Z) (epiweeks : list Z) (X : list (list R)) (Y : list R)
  : result (list R) :=
  x0 ← py_index X 0;
  let '(ne, nx1, nx2, ny) := (length epiweeks, length X, length x0, length Y) in
  if decide (ne ≠ nx1 ∨ nx1 ≠ ny)
  then Raise (ExceptionFmt msg_length_mismatch
                [Z.of_nat ne; Z.of_nat nx1; Z.of_nat ny])
  else
    let weights := map (λ ew1, get_weight ew1 ew2) epiweeks in
    (* [np.array(X).reshape((nx1, nx2))] needs rows of one length *)
    if decide (Forall (λ x, length x = nx2) X)
    then
      periodic ←
        (if decide (26 ≤ ne)
         then
           first ← py_index epiweeks 0;
           last ← py_index epiweeks (-1);
           Ok (bool_decide (52 ≤ delta_epiweeks first last)%Z)
         else Ok false);
      if periodic : bool
      then
        let rows := zip_with (λ x ew, x ++ [1%R] ++ get_periodic_bias ew) X epiweeks in
        weighted_least_squares weights rows Y
      else
        let rows := map (λ x, x ++ [1%R]) X in
        weighted_least_squares weights rows Y
    else Raise ValueError.

(** [fit_loch_ness] after the label alignment: the label-history check, the
    fit and the prediction. *)
Definition fit_on_training_set (signal : list (Z * list R)) (ew3 min_rows : Z)
    (ts : list Z * list (list R) * list R) : result R :=
  let '(epiweeks, X, Y) := ts in
  let min_rows := (min_rows - 1)%Z in
  if decide (Z.of_nat (length Y) < min_rows)%Z
  then Raise (ExceptionFmt msg_targets_less [min_rows])
  else
    model ← get_model ew3 epiweeks X Y;
    sig ← dict_at signal ew3;
    apply_model ew3 model sig.

(** [if type(fields) == str: fields = [fields]]. *)
Definition field_names (fields : fields_arg) : list string :=
  match fields with
  | FieldName f => [f]
  | FieldList fs => fs
  end.

(** [fit_loch_ness]; [fetch] stands for [Epidata.check(fetch(weeks))]. *)
Definition fit_loch_ness (location : string) (epiweek : Z) (name : string)
    (fields : fields_arg) (fetch : week_range → result (list signal_row))
    (valid : bool) (target : string) (signal_to_truth_ew_shift : Z) : result R :=
  let fields := field_names fields in
  let '(ew1, ew2, ew3, weeks0, weeks1) := get_weeks epiweek in
  rows ← fetch weeks1;
  signal ← extract rows fields signal_to_truth_ew_shift;
  let min_rows := Z.max (10 * Z.of_nat (length fields)) 52 in
  if decide (dict_get signal ew3 = None)
  then Raise (ExceptionNamed name msg_unavailable ew3)
  else if decide (Z.of_nat (length signal) < min_rows)%Z
  then Raise (ExceptionNamed name msg_available_less min_rows)
  else
    ts ← get_training_set_datasetname location epiweek signal target
           signal_to_truth_ew_shift;
    fit_on_training_set signal ew3 min_rows ts.

(** *** Specification-side notions *)

(** A training instance [(week, x, y)] is aligned when its week is not the
    predicted week [ew3], its covariates are those of a signal week that the
    shift maps to [week], and its label is the ground truth of [week]. *)
Definition aligned (signal : list (Z * list R)) (groundTruth : gmap Z R)
    (ew3 signal_to_truth_ew_shift : Z) (week : Z) (x : list R) (y : R) : Prop :=
  week ≠ ew3
  ∧ groundTruth !! week = Some y
  ∧ ∃ signal_week, dict_get signal signal_week = Some x
                   ∧ add_epiweeks signal_week signal_to_truth_ew_shift = week.

(** *** The alignment loop *)

Lemma align_loop signal groundTruth ew3 shift keys st :
  (∀ k, k ∈ keys → is_Some (dict_get signal k)) →
  (∀ week x y, st.1 !! week = Some (x, y) → aligned signal groundTruth ew3 shift week x y) →
  ∃ st', fold_raising (align_week signal groundTruth ew3 shift) keys st = Ok st'
         ∧ ∀ week x y, st'.1 !! week = Some (x, y) →
             aligned signal groundTruth ew3 shift week x y.
Proof.
  revert st. induction keys as [|k keys IH]; intros [data dropped] Hkeys Hinv.
  - by exists (data, dropped).
  - simpl. destruct (decide (add_epiweeks k shift = ew3)) as [Heq|Hne]; simpl.
    { apply IH; [|done]. intros k' Hk'. apply Hkeys. by apply list_elem_of_further. }
    destruct (Hkeys k (list_elem_of_here _ _)) as [sig Hsig].
    unfold dict_at. rewrite Hsig. simpl.
    destruct (groundTruth !! add_epiweeks k shift) as [label|] eqn:Hlabel.
    + apply IH; [intros k' Hk'; apply Hkeys; by apply list_elem_of_further|].
      intros week x y. simpl. rewrite lookup_insert.
      destruct (decide (add_epiweeks k shift = week)) as [<-|]; [|apply Hinv].
      intros [= <- <-]. split; [done|]. split; [done|]. by exists k.
    + apply IH; [|done]. intros k' Hk'. apply Hkeys. by apply list_elem_of_further.
Qed.

Lemma sorted_keys_lookup (data : gmap Z (list R * R)) (week : Z) :
  week ∈ merge_sort Z.le (map fst (map_to_list data)) ↔ is_Some (data !! week).
Proof.
  rewrite merge_sort_Permutation, list_elem_of_fmap. split.
  - intros [[w xy] [-> Hin%elem_of_map_to_list]]. by eexists.
  - intros [xy Hxy]. exists (week, xy). split; [done|]. by apply elem_of_map_to_list.
Qed.

(** *** Claims about the fit *)

(** C5. When the covariate signal holds a value for the target week: with
    fewer than [max(10 * len(fields), 52)] weeks in the signal the call
    raises the signal-history exception, and with at least that many it goes
    on to the label alignment, whose outcome it hands to the rest of the
    fit. *)
Theorem fit_loch_ness_signal_history (location : string) (epiweek : Z) (name : string)
    (fields : fields_arg) (fetch : week_range → result (list signal_row))
    (valid : bool) (target : string) (signal_to_truth_ew_shift : Z)
    (rows : list signal_row) (signal : list (Z * list R)) :
  fetch (Epidata_range 199301 (add_epiweeks epiweek 1)) = Ok rows →
  extract rows (field_names fields) signal_to_truth_ew_shift = Ok signal →
  is_Some (dict_get signal (add_epiweeks epiweek 1)) →
  ((Z.of_nat (length signal) < Z.max (10 * Z.of_nat (length (field_names fields))) 52)%Z →
   fit_loch_ness location epiweek name fields fetch valid target signal_to_truth_ew_shift
   = Raise (ExceptionNamed name msg_available_less
              (Z.max (10 * Z.of_nat (length (field_names fields))) 52)))
  ∧ ((Z.max (10 * Z.of_nat (length (field_names fields))) 52 ≤ Z.of_nat (length signal))%Z →
     fit_loch_ness location epiweek name fields fetch valid target signal_to_truth_ew_shift
     = (ts ← get_training_set_datasetname location epiweek signal target
               signal_to_truth_ew_shift;
        fit_on_training_set signal (add_epiweeks epiweek 1)
          (Z.max (10 * Z.of_nat (length (field_names fields))) 52) ts)).
Proof.
  intros Hfetch Hextract [sig Hsig]. unfold fit_loch_ness, get_weeks.
  rewrite Hfetch. simpl. rewrite Hextract. simpl.
  destruct (decide (dict_get signal (add_epiweeks epiweek 1) = None)); [congruence|].
  split; intros Hlen; destruct (decide (_ < _)%Z); (done || lia).
Qed.

(** C10. Whenever the ground truth can be fetched, the training set is
    built, and no instance of it has the predicted week (the week after
    [epiweek]) as its ground-truth week: every instance pairs the covariates
    of a signal week with the ground truth of the week the shift maps it to,
    and that week differs from the predicted one. *)
Theorem training_set_excludes_target (location : string) (epiweek : Z)
    (signal : list (Z * list R)) (target : string) (signal_to_truth_ew_shift : Z)
    (datasetnameData : list target_row) :
  datasetname_targets target location (Epidata_range 199301 epiweek) = Ok datasetnameData →
  ∃ (epiweeks : list Z) (X : list (list R)) (Y : list R),
    get_training_set_datasetname location epiweek signal target signal_to_truth_ew_shift
    = Ok (epiweeks, X, Y)
    ∧ length X = length epiweeks
    ∧ length Y = length epiweeks
    ∧ (add_epiweeks epiweek 1 ∉ epiweeks)
    ∧ ∀ (i : nat) (week : Z),
        epiweeks !! i = Some week →
        ∃ (x : list R) (y : R),
          X !! i = Some x
          ∧ Y !! i = Some y
          ∧ aligned signal (ground_truth_of datasetnameData)
              (add_epiweeks epiweek 1) signal_to_truth_ew_shift week x y.
Proof.
  intros Htruth. unfold get_training_set_datasetname, get_weeks.
  rewrite Htruth. simpl.
  destruct (align_loop signal (ground_truth_of datasetnameData) (add_epiweeks epiweek 1)
              signal_to_truth_ew_shift (dict_keys signal) (∅, 0%Z))
    as ([data dropped] & -> & Hinv).
  { intros k. apply dict_get_keys. }
  { intros week x y. simpl. by rewrite lookup_empty. }
  simpl in *.
  set (epiweeks := merge_sort Z.le (map fst (map_to_list data))).
  set (entry week := default ([], 0%R) (data !! week)).
  assert (Hat : ∀ week, week ∈ epiweeks → data_at data week = Ok (entry week)).
  { intros week [xy Hxy]%sorted_keys_lookup. unfold data_at, entry. by rewrite Hxy. }
  rewrite (map_raising_total _ (λ week, (entry week).1))
    by (intros week Hweek; by rewrite (Hat week Hweek)).
  simpl.
  rewrite (map_raising_total _ (λ week, (entry week).2))
    by (intros week Hweek; by rewrite (Hat week Hweek)).
  simpl. eexists _, _, _. split; [reflexivity|].
  rewrite !length_map. split; [done|]. split; [done|]. split.
  - intros [[x y] Hxy]%sorted_keys_lookup. by destruct (Hinv _ _ _ Hxy) as [Hne _].
  - intros i week Hi.
    assert (week ∈ epiweeks) as [[x y] Hxy]%sorted_keys_lookup
      by (apply list_elem_of_lookup; by exists i).
    exists x, y. rewrite !list_lookup_fmap, Hi. unfold entry. simpl. rewrite Hxy. simpl.
    split; [done|]. split; [done|]. by apply Hinv.
Qed.

(** *** More about the signal *)

Lemma extract_loop (rows : list signal_row) (fields : list string) (shift : Z)
    (data data' : list (Z * list R)) :
  fold_raising
    (λ data row,
       values ← map_raising (float_of_field row) fields;
       Ok (dict_set data (add_epiweeks (row_epiweek row) shift) values))
    rows data = Ok data' →
  NoDup (dict_keys data) →
  (∀ k v, (k, v) ∈ data → length v = length fields) →
  NoDup (dict_keys data')
  ∧ length data' ≤ length data + length rows
  ∧ (∀ k v, (k, v) ∈ data' → length v = length fields)
  ∧ ∀ k, k ∈ dict_keys data'
         ↔ k ∈ dict_keys data
           ∨ ∃ row, row ∈ rows ∧ add_epiweeks (row_epiweek row) shift = k.
Proof.
  revert data. induction rows as [|row rows IH]; intros data; simpl.
  - intros [= <-] Hnd Hlen. split; [done|]. split; [lia|]. split; [done|].
    intros k. split; [by left|]. intros [?|(row & Hrow & _)]; [done|].
    by apply elem_of_nil in Hrow.
  - destruct (map_raising (float_of_field row) fields) as [values|] eqn:Hvalues; [|done].
    simpl. intros Hfold Hnd Hlen.
    destruct (IH _ Hfold) as (Hnd' & Hlen' & Hvals' & Hkeys').
    { by apply dict_set_NoDup. }
    { intros k v [Heq|Hin]%dict_set_elem; [|by eapply Hlen].
      injection Heq as -> ->. by eapply map_raising_Ok_length. }
    split; [done|]. split.
    { pose proof (dict_set_length data (add_epiweeks (row_epiweek row) shift) values). lia. }
    split; [done|]. intros k. rewrite Hkeys', dict_keys_set. split.
    + intros [Hk|(row' & Hrow' & Hk)].
      * destruct (decide (_ ∈ dict_keys data)); [by left|].
        apply elem_of_app in Hk as [Hk|Hk]; [by left|].
        apply list_elem_of_singleton in Hk as ->.
        right. exists row. split; [apply list_elem_of_here|done].
      * right. exists row'. split; [by apply list_elem_of_further|done].
    + intros [Hk|(row' & [->|Hrow']%elem_of_cons & Hk)].
      * left. destruct (decide (_ ∈ dict_keys data)); [done|].
        apply elem_of_app. by left.
      * left. subst k. destruct (decide (_ ∈ dict_keys data)); [done|].
        apply elem_of_app. right. apply list_elem_of_here.
      * right. by exists row'.
Qed.

(** X9. Whenever [extract] returns, the signal has one entry per distinct
    shifted week of the rows, so no more entries than rows; its weeks are
    exactly the shifted weeks of the rows; and every entry holds one value
    per field. *)
Theorem extract_signal (rows : list signal_row) (fields : list string)
    (signal_to_truth_ew_shift : Z) (signal : list (Z * list R)) :
  extract rows fields signal_to_truth_ew_shift = Ok signal →
  NoDup (dict_keys signal)
  ∧ length signal ≤ length rows
  ∧ (∀ week values, dict_get signal week = Some values → length values = length fields)
  ∧ ∀ week, week ∈ dict_keys signal
            ↔ ∃ row, row ∈ rows
                     ∧ add_epiweeks (row_epiweek row) signal_to_truth_ew_shift = week.
Proof.
  unfold extract. intros Hfold.
  destruct (extract_loop _ _ _ _ _ Hfold) as (Hnd & Hlen & Hvals & Hkeys).
  { apply NoDup_nil_2. }
  { intros k v Hin. by apply elem_of_nil in Hin. }
  split; [done|]. split; [simpl in Hlen; lia|]. split.
  - intros week values Hget%dict_get_elem. by eapply Hvals.
  - intros week. rewrite Hkeys. split; [|by right].
    intros [Hin|?]; [by apply elem_of_nil in Hin|done].
Qed.

(** X10. When the rows are fetched and parsed but none of them falls, after
    the shift, on the week after [epiweek], the call raises the exception
    that names the signal as unavailable on that week, however long the
    signal is. *)
Theorem fit_loch_ness_unavailable (location : string) (epiweek : Z) (name : string)
    (fields : fields_arg) (fetch : week_range → result (list signal_row))
    (valid : bool) (target : string) (signal_to_truth_ew_shift : Z)
    (rows : list signal_row) (signal : list (Z * list R)) :
  fetch (Epidata_range 199301 (add_epiweeks epiweek 1)) = Ok rows →
  extract rows (field_names fields) signal_to_truth_ew_shift = Ok signal →
  (∀ row, row ∈ rows →
     add_epiweeks (row_epiweek row) signal_to_truth_ew_shift ≠ add_epiweeks epiweek 1) →
  fit_loch_ness location epiweek name fields fetch valid target signal_to_truth_ew_shift
  = Raise (ExceptionNamed name msg_unavailable (add_epiweeks epiweek 1)).
Proof.
  intros Hfetch Hextract Hnone. unfold fit_loch_ness, get_weeks.
  rewrite Hfetch. simpl. rewrite Hextract. simpl.
  destruct (decide (dict_get signal (add_epiweeks epiweek 1) = None)) as [_|Hsome]; [done|].
  exfalso. apply Hsome, dict_get_None.
  destruct (extract_loop _ _ _ _ _ Hextract) as (_ & _ & _ & Hkeys).
  { apply NoDup_nil_2. }
  { intros k v Hin. by apply elem_of_nil in Hin. }
  rewrite Hkeys. intros [Hin|(row & Hrow & Hweek)]; [by apply elem_of_nil in Hin|].
  by apply (Hnone row).
Qed.

(** *** More about the training set *)

Lemma align_loop_keys signal groundTruth ew3 shift keys st :
  (∀ k, k ∈ keys → is_Some (dict_get signal k)) →
  ∃ st', fold_raising (align_week signal groundTruth ew3 shift) keys st = Ok st'
         ∧ ∀ week, is_Some (st'.1 !! week)
                   ↔ is_Some (st.1 !! week)
                     ∨ ∃ k, k ∈ keys ∧ add_epiweeks k shift = week ∧ week ≠ ew3
                            ∧ is_Some (groundTruth !! week).
Proof.
  revert st. induction keys as [|k keys IH]; intros [data dropped] Hkeys.
  - exists (data, dropped). split; [done|]. intros week. split; [by left|].
    intros [?|(k & Hk & _)]; [done|]. by apply elem_of_nil in Hk.
  - assert (Hkeys' : ∀ k', k' ∈ keys → is_Some (dict_get signal k')).
    { intros k' Hk'. apply Hkeys. by apply list_elem_of_further. }
    simpl. destruct (decide (add_epiweeks k shift = ew3)) as [Heq|Hne]; simpl.
    { destruct (IH (data, dropped) Hkeys') as (st' & Hfold & Hst'). exists st'.
      split; [exact Hfold|]. intros week. rewrite Hst'. simpl. split.
      - intros [?|(k' & Hk' & ?)]; [by left|]. right. exists k'.
        split; [by apply list_elem_of_further|done].
      - intros [?|(k' & [->|Hk']%elem_of_cons & Hweek & Hne & ?)]; [by left| |].
        + congruence.
        + right. by exists k'. }
    destruct (Hkeys k (list_elem_of_here _ _)) as [sig Hsig].
    unfold dict_at. rewrite Hsig. simpl.
    destruct (groundTruth !! add_epiweeks k shift) as [label|] eqn:Hlabel.
    + destruct (IH (<[add_epiweeks k shift := (sig, label)]> data, dropped) Hkeys')
        as (st' & Hfold & Hst'). exists st'.
      split; [exact Hfold|]. intros week. rewrite Hst'. simpl. rewrite lookup_insert. split.
      * intros [Hweek|(k' & Hk' & ?)].
        -- destruct (decide (add_epiweeks k shift = week)) as [<-|]; [|by left].
           right. exists k. split; [apply list_elem_of_here|]. by rewrite Hlabel.
        -- right. exists k'. split; [by apply list_elem_of_further|done].
      * intros [Hweek|(k' & [->|Hk']%elem_of_cons & Hweek & Hne' & Htruth)].
        -- left. by destruct (decide (add_epiweeks k shift = week)).
        -- left. by destruct (decide (add_epiweeks k shift = week)).
        -- right. by exists k'.
    + destruct (IH (data, (dropped + 1)%Z) Hkeys') as (st' & Hfold & Hst'). exists st'.
      split; [exact Hfold|]. intros week. rewrite Hst'. simpl. split.
      * intros [?|(k' & Hk' & ?)]; [by left|]. right. exists k'.
        split; [by apply list_elem_of_further|done].
      * intros [?|(k' & [->|Hk']%elem_of_cons & Hweek & Hne' & Htruth)]; [by left| |].
        -- subst week. rewrite Hlabel in Htruth. by destruct Htruth.
        -- right. by exists k'.
Qed.

Lemma sorted_keys_strict (data : gmap Z (list R * R)) :
  StronglySorted Z.lt (merge_sort Z.le (map fst (map_to_list data))).
Proof.
  assert (Hnd : NoDup (merge_sort Z.le (map fst (map_to_list data)))).
  { rewrite merge_sort_Permutation. apply NoDup_fst_map_to_list. }
  pose proof (StronglySorted_merge_sort Z.le (map fst (map_to_list data))) as Hsorted.
  set (weeks := merge_sort Z.le (map fst (map_to_list data))) in *. clearbody weeks.
  induction Hsorted as [|week weeks Hsorted IH Hall]; [constructor|].
  apply NoDup_cons in Hnd as [Hnot Hnd]. constructor; [by apply IH|].
  rewrite Forall_forall in Hall |- *. intros w Hw. specialize (Hall w Hw).
  assert (week ≠ w) by (intros ->; done). lia.
Qed.

(** X11. Whenever the ground truth can be fetched, the weeks of the training
    set come out strictly increasing, and they are exactly the weeks, other
    than the predicted one, that have a ground-truth value and that the shift
    reaches from some week of the signal. *)
Theorem training_set_weeks (location : string) (epiweek : Z)
    (signal : list (Z * list R)) (target : string) (signal_to_truth_ew_shift : Z)
    (datasetnameData : list target_row) :
  datasetname_targets target location (Epidata_range 199301 epiweek) = Ok datasetnameData →
  ∃ (epiweeks : list Z) (X : list (list R)) (Y : list R),
    get_training_set_datasetname location epiweek signal target signal_to_truth_ew_shift
    = Ok (epiweeks, X, Y)
    ∧ StronglySorted Z.lt epiweeks
    ∧ ∀ week, week ∈ epiweeks
              ↔ week ≠ add_epiweeks epiweek 1
                ∧ is_Some (ground_truth_of datasetnameData !! week)
                ∧ ∃ signal_week, signal_week ∈ dict_keys signal
                                 ∧ add_epiweeks signal_week signal_to_truth_ew_shift = week.
Proof.
  intros Htruth. unfold get_training_set_datasetname, get_weeks.
  rewrite Htruth. simpl.
  destruct (align_loop_keys signal (ground_truth_of datasetnameData)
              (add_epiweeks epiweek 1) signal_to_truth_ew_shift (dict_keys signal) (∅, 0%Z))
    as ([data dropped] & -> & Hkeys).
  { intros k. apply dict_get_keys. }
  simpl in *.
  set (epiweeks := merge_sort Z.le (map fst (map_to_list data))).
  set (entry week := default ([], 0%R) (data !! week)).
  assert (Hat : ∀ week, week ∈ epiweeks → data_at data week = Ok (entry week)).
  { intros week [xy Hxy]%sorted_keys_lookup. unfold data_at, entry. by rewrite Hxy. }
  rewrite (map_raising_total _ (λ week, (entry week).1))
    by (intros week Hweek; by rewrite (Hat week Hweek)).
  simpl.
  rewrite (map_raising_total _ (λ week, (entry week).2))
    by (intros week Hweek; by rewrite (Hat week Hweek)).
  simpl. eexists _, _, _. split; [reflexivity|]. split; [apply sorted_keys_strict|].
  intros week. unfold epiweeks. rewrite sorted_keys_lookup, Hkeys, lookup_empty. split.
  - intros [[? ?]|(k & Hk & Hweek & Hne & Hgt)]; [done|]. split; [done|].
    split; [done|]. by exists k.
  - intros (Hne & Hgt & k & Hk & Hweek). right. by exists k.
Qed.

(** X12. When the signal is long enough but fewer than the minimum less one
    of its weeks come out of the alignment with a label, the call raises the
    exception that reports the missing target history. *)
Theorem fit_loch_ness_label_history (location : string) (epiweek : Z) (name : string)
    (fields : fields_arg) (fetch : week_range → result (list signal_row))
    (valid : bool) (target : string) (signal_to_truth_ew_shift : Z)
    (rows : list signal_row) (signal : list (Z * list R))
    (epiweeks : list Z) (X : list (list R)) (Y : list R) :
  fetch (Epidata_range 199301 (add_epiweeks epiweek 1)) = Ok rows →
  extract rows (field_names fields) signal_to_truth_ew_shift = Ok signal →
  is_Some (dict_get signal (add_epiweeks epiweek 1)) →
  (Z.max (10 * Z.of_nat (length (field_names fields))) 52 ≤ Z.of_nat (length signal))%Z →
  get_training_set_datasetname location epiweek signal target signal_to_truth_ew_shift
    = Ok (epiweeks, X, Y) →
  (Z.of_nat (length Y) < Z.max (10 * Z.of_nat (length (field_names fields))) 52 - 1)%Z →
  fit_loch_ness location epiweek name fields fetch valid target signal_to_truth_ew_shift
  = Raise (ExceptionFmt msg_targets_less
             [(Z.max (10 * Z.of_nat (length (field_names fields))) 52 - 1)%Z]).
Proof.
  intros Hfetch Hextract [sig Hsig] Hlong Hts Hshort. unfold fit_loch_ness, get_weeks.
  rewrite Hfetch. simpl. rewrite Hextract. simpl.
  destruct (decide (dict_get signal (add_epiweeks epiweek 1) = None)); [congruence|].
  destruct (decide (_ < _)%Z); [lia|]. rewrite Hts. simpl.
  by destruct (decide (_ < _)%Z).
Qed.

(** *** More about the prediction *)

(** X13. [apply_model] returns exactly when the model has one coefficient
    more than there are covariates (constant bias) or three more (constant
    and periodic bias); any other model raises [ValueError]. *)
Theorem apply_model_shapes (epiweek : Z) (beta values : list R) :
  (is_Ok (apply_model epiweek beta values)
   ↔ length beta = (length values + 1)%nat ∨ length beta = (length values + 3)%nat)
  ∧ (¬ is_Ok (apply_model epiweek beta values)
     → apply_model epiweek beta values = Raise ValueError).
Proof.
  unfold apply_model, dot_row, get_periodic_bias.
  destruct (decide (length values + 1 < length beta)%nat) as [Hlt|Hge].
  - rewrite !length_app. simpl.
    destruct (decide (_ = length beta)) as [Heq|Hne].
    + split; [|intros Hno; exfalso; apply Hno; by eexists].
      split; [intros _; lia|intros _; by eexists].
    + split; [|done]. split; [by intros [? ?]|lia].
  - rewrite !length_app. simpl.
    destruct (decide (_ = length beta)) as [Heq|Hne].
    + split; [|intros Hno; exfalso; apply Hno; by eexists].
      split; [intros _; lia|intros _; by eexists].
    + split; [|done]. split; [by intros [? ?]|lia].
Qed.

End fitting.

(** *** A small data set on which the claims are exercised *)

Definition demo_targets (target location : string) (weeks : Z * Z)
  : result (list target_row) :=
  Ok [TargetRow 201001 10; TargetRow 201002 20; TargetRow 201003 30].

Definition demo_solver (weights : list R) (X : list (list R)) (Y : list R)
  : result (list R) := Raise LinAlgError.

Definition demo_signal : list (Z * list R) :=
  [(201001%Z, [1%R]); (201002%Z, [2%R]); (201003%Z, [3%R])].

(** Weeks 1 to [n] of 2010, each with the value 0 in the field [value]. *)
Definition demo_rows (n : nat) : list signal_row :=
  map (λ i, SignalRow (201000 + i) {["value" := Some 0%R]}) (seqZ 1 (Z.of_nat n)).

Definition demo_fetch (n : nat) (weeks : Z * Z) : result (list signal_row) :=
  Ok (demo_rows n).

Example demo_training_set :
  get_training_set_datasetname DemoCalendar.add_epiweeks (Z * Z) DemoCalendar.Epidata_range demo_targets
    "nat" 201002 demo_signal "ov" 0
  = Ok ([201001%Z; 201002%Z], [[1%R]; [2%R]], [10%R; 20%R]).
Proof. vm_compute. reflexivity. Qed.

Lemma fit_loch_ness_signal_history_witness :
  fit_loch_ness DemoCalendar.add_epiweeks DemoCalendar.delta_epiweeks (Z * Z) DemoCalendar.Epidata_range demo_targets
    demo_solver "nat" 201002 "ght" (FieldName "value") (demo_fetch 3) true "ov" 0
  = Raise (ExceptionNamed "ght" msg_available_less 52)
  ∧ ∃ signal : list (Z * list R),
      extract DemoCalendar.add_epiweeks (demo_rows 52) ["value"] 0 = Ok signal
      ∧ fit_loch_ness DemoCalendar.add_epiweeks DemoCalendar.delta_epiweeks (Z * Z) DemoCalendar.Epidata_range demo_targets
          demo_solver "nat" 201051 "ght" (FieldName "value") (demo_fetch 52) true "ov" 0
        = (ts ← get_training_set_datasetname DemoCalendar.add_epiweeks (Z * Z) DemoCalendar.Epidata_range
                  demo_targets "nat" 201051 signal "ov" 0;
           fit_on_training_set DemoCalendar.delta_epiweeks demo_solver signal 201052 52 ts).
Proof.
  split.
  - eapply (proj1 (fit_loch_ness_signal_history DemoCalendar.add_epiweeks DemoCalendar.delta_epiweeks
                     (Z * Z) DemoCalendar.Epidata_range demo_targets demo_solver "nat" 201002 "ght"
                     (FieldName "value") (demo_fetch 3) true "ov" 0 (demo_rows 3) _
                     eq_refl ltac:(vm_compute; reflexivity)
                     ltac:(vm_compute; eexists; reflexivity))).
    vm_compute. reflexivity.
  - eexists. split; [vm_compute; reflexivity|].
    eapply (proj2 (fit_loch_ness_signal_history DemoCalendar.add_epiweeks DemoCalendar.delta_epiweeks
                     (Z * Z) DemoCalendar.Epidata_range demo_targets demo_solver "nat" 201051 "ght"
                     (FieldName "value") (demo_fetch 52) true "ov" 0 (demo_rows 52) _
                     eq_refl ltac:(vm_compute; reflexivity)
                     ltac:(vm_compute; eexists; reflexivity))).
    vm_compute. discriminate.
Defined.

Lemma training_set_excludes_target_witness :
  ∃ (epiweeks : list Z) (X : list (list R)) (Y : list R),
    get_training_set_datasetname DemoCalendar.add_epiweeks (Z * Z) DemoCalendar.Epidata_range demo_targets
      "nat" 201002 demo_signal "ov" 0 = Ok (epiweeks, X, Y)
    ∧ length X = length epiweeks
    ∧ length Y = length epiweeks
    ∧ (DemoCalendar.add_epiweeks 201002 1 ∉ epiweeks)
    ∧ ∀ (i : nat) (week : Z),
        epiweeks !! i = Some week →
        ∃ (x : list R) (y : R),
          X !! i = Some x
          ∧ Y !! i = Some y
          ∧ aligned DemoCalendar.add_epiweeks demo_signal
              (ground_truth_of [TargetRow 201001 10; TargetRow 201002 20; TargetRow 201003 30])
              (DemoCalendar.add_epiweeks 201002 1) 0 week x y.
Proof.
  apply (training_set_excludes_target DemoCalendar.add_epiweeks (Z * Z) DemoCalendar.Epidata_range demo_targets
           "nat" 201002 demo_signal "ov" 0 _ eq_refl).
Defined.

(** *** The extras on the small data set *)

Definition demo_extracted (n : nat) : list (Z * list R) :=
  match extract DemoCalendar.add_epiweeks (demo_rows n) ["value"] 0 with
  | Ok signal => signal
  | Raise _ => []
  end.

Lemma extract_signal_witness :
  NoDup (dict_keys (demo_extracted 3))
  ∧ length (demo_extracted 3) ≤ length (demo_rows 3)
  ∧ (∀ week values, dict_get (demo_extracted 3) week = Some values →
       length values = length ["value"])
  ∧ ∀ week, week ∈ dict_keys (demo_extracted 3)
            ↔ ∃ row, row ∈ demo_rows 3
                     ∧ DemoCalendar.add_epiweeks (row_epiweek row) 0 = week.
Proof.
  apply (extract_signal DemoCalendar.add_epiweeks (demo_rows 3) ["value"] 0).
  vm_compute. reflexivity.
Defined.

Lemma fit_loch_ness_unavailable_witness :
  fit_loch_ness DemoCalendar.add_epiweeks DemoCalendar.delta_epiweeks (Z * Z)
    DemoCalendar.Epidata_range demo_targets demo_solver "nat" 201010 "ght"
    (FieldName "value") (demo_fetch 3) true "ov" 0
  = Raise (ExceptionNamed "ght" msg_unavailable 201011).
Proof.
  apply (fit_loch_ness_unavailable DemoCalendar.add_epiweeks DemoCalendar.delta_epiweeks
           (Z * Z) DemoCalendar.Epidata_range demo_targets demo_solver "nat" 201010 "ght"
           (FieldName "value") (demo_fetch 3) true "ov" 0 (demo_rows 3) (demo_extracted 3)).
  - reflexivity.
  - vm_compute. reflexivity.
  - apply Forall_forall. apply (bool_decide_unpack _). vm_compute. exact I.
Defined.

Lemma training_set_weeks_witness :
  ∃ (epiweeks : list Z) (X : list (list R)) (Y : list R),
    get_training_set_datasetname DemoCalendar.add_epiweeks (Z * Z) DemoCalendar.Epidata_range
      demo_targets "nat" 201002 demo_signal "ov" 0 = Ok (epiweeks, X, Y)
    ∧ StronglySorted Z.lt epiweeks
    ∧ ∀ week, week ∈ epiweeks
              ↔ week ≠ DemoCalendar.add_epiweeks 201002 1
                ∧ is_Some (ground_truth_of
                             [TargetRow 201001 10; TargetRow 201002 20; TargetRow 201003 30]
                           !! week)
                ∧ ∃ signal_week, signal_week ∈ dict_keys demo_signal
                                 ∧ DemoCalendar.add_epiweeks signal_week 0 = week.
Proof.
  apply (training_set_weeks DemoCalendar.add_epiweeks (Z * Z) DemoCalendar.Epidata_range
           demo_targets "nat" 201002 demo_signal "ov" 0 _ eq_refl).
Defined.

(** The training set of the 52-week signal: the ground truth covers three
    of its weeks only. *)
Definition demo_short_set : list Z * list (list R) * list R :=
  match get_training_set_datasetname DemoCalendar.add_epiweeks (Z * Z)
          DemoCalendar.Epidata_range demo_targets "nat" 201051 (demo_extracted 52) "ov" 0 with
  | Ok ts => ts
  | Raise _ => ([], [], [])
  end.

Lemma fit_loch_ness_label_history_witness :
  fit_loch_ness DemoCalendar.add_epiweeks DemoCalendar.delta_epiweeks (Z * Z)
    DemoCalendar.Epidata_range demo_targets demo_solver "nat" 201051 "ght"
    (FieldName "value") (demo_fetch 52) true "ov" 0
  = Raise (ExceptionFmt msg_targets_less [51%Z]).
Proof.
  apply (fit_loch_ness_label_history DemoCalendar.add_epiweeks DemoCalendar.delta_epiweeks
           (Z * Z) DemoCalendar.Epidata_range demo_targets demo_solver "nat" 201051 "ght"
           (FieldName "value") (demo_fetch 52) true "ov" 0 (demo_rows 52) (demo_extracted 52)
           demo_short_set.1.1 demo_short_set.1.2 demo_short_set.2).
  - reflexivity.
  - vm_compute. reflexivity.
  - vm_compute. eexists. reflexivity.
  - apply (bool_decide_unpack _). vm_compute. exact I.
  - vm_compute. reflexivity.
  - apply (bool_decide_unpack _). vm_compute. exact I.
Defined.

End LochNess.

(** ** The data source ([datasetname_data_source.py]) *)

Module DataSource.

Definition FIRST_DATA_EPIWEEK : Z := 199301.
Definition LAST_DATA_EPIWEEK : Z := 201752.

Definition ATOMIC_LOCATIONS : list string :=
  ["ak"; "al"; "ar"; "az"; "ca"; "co"; "ct"; "dc"; "de";
   "fl"; "ga"; "hi"; "ia"; "id"; "il"; "in"; "ks"; "ky";
   "la"; "ma"; "md"; "me"; "mi"; "mn"; "mo"; "ms"; "mt";
   "nc"; "nd"; "ne"; "nh"; "nj"; "nm"; "nv"; "ny"; "oh";
   "ok"; "or"; "pa"; "pr"; "ri"; "sc"; "sd"; "tn"; "tx";
   "ut"; "va"; "vi"; "vt"; "wa"; "wi"; "wv"; "wy"].
Definition ALL_LOCATIONS : list string := ATOMIC_LOCATIONS.
Definition TARGET_LOCATIONS : list string := ATOMIC_LOCATIONS.
Definition SENSOR_LOCATIONS : list string := ATOMIC_LOCATIONS.

Definition SENSORS : list string := ["ght"; "nsnd4"; "nsnd7"; "isch"].

Definition name_targets : string := "datasetname_targets".

(** What [get_truth_value] reads of a response of the service: its
    [result] code and, for a code of 1, the [value] of its first row ([None]
    for a null). *)
Record response : Type := Response {
  result_code : Z;
  first_value : option R
}.

(** [self.cache]: name, target, location and epiweek, in this order, lead to
    a value or to [None]. *)
Abbreviation cache_type := (gmap string (gmap string (gmap string (gmap Z (option R))))).

Record DatasetnameDataSource : Type := MkSource {
  sensors : list string;
  sensor_locations : list string;
  target : string;
  cache : cache_type
}.

(** [cache[name][target][location][epiweek]]; [None] stands for [KeyError]. *)
Definition cache_get (c : cache_type) (name target location : string) (epiweek : Z)
  : option (option R) :=
  by_target ← c !! name;
  by_location ← by_target !! target;
  by_epiweek ← by_location !! location;
  by_epiweek !! epiweek.

(** [add_to_cache], on the cache alone. *)
Definition cache_add (c : cache_type) (name target location : string) (epiweek : Z)
    (value : option R) : cache_type :=
  let by_target := default ∅ (c !! name) in
  let by_location := default ∅ (by_target !! target) in
  let by_epiweek := default ∅ (by_location !! location) in
  <[name := <[target := <[location := <[epiweek := value]> by_epiweek]> by_location]>
              by_target]> c.

Definition add_to_cache (self : DatasetnameDataSource) (name target location : string)
    (epiweek : Z) (value : option R) : option R * DatasetnameDataSource :=
  (value,
   MkSource (sensors self) (sensor_locations self) (DataSource.target self)
     (cache_add (cache self) name target location epiweek value)).

Section source.

(** [self.epidata.datasetname_targets(auth, target, location, epiweek)]. *)
Variable datasetname_targets : string → string → Z → response.

Definition get_truth_value (self : DatasetnameDataSource) (epiweek : Z) (location : string)
  : option R * DatasetnameDataSource :=
  match cache_get (cache self) name_targets (target self) location epiweek with
  | Some value => (value, self)
  | None =>
      let response := datasetname_targets (target self) location epiweek in
      if decide (result_code response ≠ 1%Z)
      then add_to_cache self name_targets (target self) location epiweek None
      else add_to_cache self name_targets (target self) location epiweek
             (first_value response)
  end.

(** Body of the loop [for loc in atomic_locations]; the state is the object
    and [available_locations]. *)
Definition visit_location (epiweek : Z) (st : DatasetnameDataSource * list string)
    (loc : string) : DatasetnameDataSource * list string :=
  let '(self, available_locations) := st in
  let '(value, self) := get_truth_value self epiweek loc in
  match value with
  | None => (self, available_locations)
  | Some _ => (self, available_locations ++ [loc])
  end.

(** [get_missing_locations], without the [lru_cache] that replays its
    outcomes.  A Python set is iterated in the order of [elements]; the
    returned tuple lists a set in that order too. *)
(* This is the function as written under its decorator, what runs when the
   week was not asked before; the decorated method, with its table, is
   [get_missing_locations_cached] below. *)
Definition get_missing_locations (self : DatasetnameDataSource) (epiweek : Z)
  : list string * DatasetnameDataSource :=
  let atomic_locations : gset string := list_to_set ATOMIC_LOCATIONS in
  let '(self, available_locations) :=
    foldl (visit_location epiweek) (self, []) (elements atomic_locations) in
  match available_locations with
  | _ :: _ => (elements (atomic_locations ∖ list_to_set available_locations), self)
  | [] => ([], self)
  end.

(** [get_missing_locations] under [@functools.lru_cache(maxsize=None)], for
    one object: the table holds, for every week asked so far, the tuple
    returned then.  A week in the table is answered from it and the function
    does not run; otherwise the function runs and its tuple is stored.
    Nothing is ever dropped from the table. *)
Definition get_missing_locations_cached (memo : gmap Z (list string))
    (self : DatasetnameDataSource) (epiweek : Z)
  : list string * (gmap Z (list string) * DatasetnameDataSource) :=
  match memo !! epiweek with
  | Some missing => (missing, (memo, self))
  | None =>
      let '(missing, self) := get_missing_locations self epiweek in
      (missing, (<[epiweek := missing]> memo, self))
  end.

(** *** Specification-side notions *)

(** The ground truth the object reports for a location and a week. *)
Definition truth (self : DatasetnameDataSource) (epiweek : Z) (location : string)
  : option R :=
  (get_truth_value self epiweek location).1.

(** *** The cache *)

Lemma cache_get_add (c : cache_type) (name target location : string) (epiweek : Z)
    (value : option R) (name' target' location' : string) (epiweek' : Z) :
  cache_get (cache_add c name target location epiweek value) name' target' location' epiweek'
  = if decide (name = name' ∧ target = target' ∧ location = location' ∧ epiweek = epiweek')
    then Some value
    else cache_get c name' target' location' epiweek'.
Proof.
  unfold cache_get, cache_add.
  destruct (decide (name = name')) as [<-|Hname].
  2: { rewrite lookup_insert_ne by done. destruct (decide _) as [[? _]|_]; done. }
  rewrite lookup_insert_eq. simpl.
  destruct (decide (target = target')) as [<-|Htarget].
  2: { rewrite lookup_insert_ne by done. destruct (decide _) as [(_ & ? & _)|_]; [done|].
       destruct (c !! name); simpl; [done|by rewrite lookup_empty]. }
  rewrite lookup_insert_eq. simpl.
  destruct (decide (location = location')) as [<-|Hlocation].
  2: { rewrite lookup_insert_ne by done. destruct (decide _) as [(_ & _ & ? & _)|_]; [done|].
       destruct (c !! name) as [by_target|]; simpl; [|by rewrite lookup_empty].
       destruct (by_target !! target); simpl; [done|by rewrite lookup_empty]. }
  rewrite lookup_insert_eq. simpl.
  destruct (decide (epiweek = epiweek')) as [<-|Hepiweek].
  - rewrite lookup_insert_eq. destruct (decide _) as [_|Hne]; [done|by destruct Hne].
  - rewrite lookup_insert_ne by done. destruct (decide _) as [(_ & _ & _ & ?)|_]; [done|].
    destruct (c !! name) as [by_target|]; simpl; [|by rewrite lookup_empty].
    destruct (by_target !! target) as [by_location|]; simpl; [|by rewrite lookup_empty].
    destruct (by_location !! location); simpl; [done|by rewrite lookup_empty].
Qed.

(** Asking for one location leaves the answer for every location as it was,
    the one asked for included: the cache only records what was answered. *)
Lemma get_truth_value_stable (self : DatasetnameDataSource) (epiweek : Z)
    (asked location : string) :
  truth (get_truth_value self epiweek asked).2 epiweek location
  = truth self epiweek location.
Proof.
  unfold truth, get_truth_value at 2.
  destruct (cache_get (cache self) name_targets (target self) asked epiweek)
    as [cached|] eqn:Hasked; [done|].
  set (answer := if decide (result_code (datasetname_targets (target self) asked epiweek) ≠ 1%Z)
                 then None
                 else first_value (datasetname_targets (target self) asked epiweek)).
  assert (Hstep : (if decide (result_code (datasetname_targets (target self) asked epiweek) ≠ 1%Z)
                   then add_to_cache self name_targets (target self) asked epiweek None
                   else add_to_cache self name_targets (target self) asked epiweek
                          (first_value (datasetname_targets (target self) asked epiweek)))
                  = add_to_cache self name_targets (target self) asked epiweek answer).
  { unfold answer. by destruct (decide _). }
  rewrite Hstep. unfold add_to_cache. simpl.
  unfold get_truth_value. simpl. rewrite cache_get_add.
  destruct (decide (_ ∧ _)) as [(_ & _ & <- & _)|Hne].
  - simpl. rewrite Hasked. fold answer. by rewrite Hstep.
  - destruct (cache_get (cache self) name_targets (target self) location epiweek)
      as [cached|] eqn:Hloc; [done|].
    by destruct (decide (result_code (datasetname_targets (target self) location epiweek)
                         ≠ 1%Z)).
Qed.

Lemma visit_locations (epiweek : Z) (locations : list string)
    (self : DatasetnameDataSource) (available_locations : list string) :
  (foldl (visit_location epiweek) (self, available_locations) locations).2
  = available_locations ++ filter (λ loc, is_Some (truth self epiweek loc)) locations.
Proof.
  revert self available_locations.
  induction locations as [|loc locations IH]; intros self available.
  - simpl. by rewrite app_nil_r.
  - cbn [foldl]. rewrite filter_cons.
    assert (Hstep : visit_location epiweek (self, available) loc
                    = ((get_truth_value self epiweek loc).2,
                       match truth self epiweek loc with
                       | Some _ => available ++ [loc]
                       | None => available
                       end)).
    { unfold visit_location, truth.
      by destruct (get_truth_value self epiweek loc) as [[v|] self']. }
    rewrite Hstep, IH.
    rewrite (list_filter_iff _ (λ l, is_Some (truth self epiweek l)))
      by (intros l; by rewrite get_truth_value_stable).
    destruct (truth self epiweek loc) as [v|].
    + rewrite decide_True by (by eexists). by rewrite <- app_assoc.
    + rewrite decide_False by (by intros [? ?]). done.
Qed.

(** *** Claim about the missing locations *)

(** When the function runs: if no atomic location has a ground-truth value
    for the week, it returns the empty tuple; if at least one has, it
    returns, without repetition, exactly the atomic locations whose
    ground-truth value is absent. *)
Lemma get_missing_locations_computes (self : DatasetnameDataSource) (epiweek : Z) :
  ((∀ loc, loc ∈ ATOMIC_LOCATIONS → truth self epiweek loc = None) →
   (get_missing_locations self epiweek).1 = [])
  ∧ ((∃ loc, loc ∈ ATOMIC_LOCATIONS ∧ truth self epiweek loc ≠ None) →
     NoDup (get_missing_locations self epiweek).1
     ∧ ∀ loc, loc ∈ (get_missing_locations self epiweek).1
              ↔ loc ∈ ATOMIC_LOCATIONS ∧ truth self epiweek loc = None).
Proof.
  unfold get_missing_locations.
  pose proof (visit_locations epiweek (elements (list_to_set ATOMIC_LOCATIONS : gset string))
                self []) as Havailable.
  destruct (foldl _ _ _) as [self' available]. cbn [snd app] in Havailable.
  assert (Hin : ∀ loc, loc ∈ available
                       ↔ loc ∈ ATOMIC_LOCATIONS ∧ is_Some (truth self epiweek loc)).
  { intros loc. rewrite Havailable, list_elem_of_filter, elem_of_elements,
      elem_of_list_to_set. tauto. }
  clear Havailable. split.
  - intros Hnone. destruct available as [|loc available]; [done|]. exfalso.
    destruct (proj1 (Hin loc) (list_elem_of_here _ _)) as [Hloc [v Hv]].
    rewrite (Hnone loc Hloc) in Hv. discriminate.
  - intros (loc & Hloc & Hsome).
    destruct available as [|loc' available].
    { exfalso. apply (not_elem_of_nil loc), Hin. split; [done|].
      by destruct (truth self epiweek loc); [eexists|]. }
    cbn [fst]. split; [apply NoDup_elements|].
    intros l. rewrite elem_of_elements, elem_of_difference, !elem_of_list_to_set, Hin.
    split.
    + intros [Hl Hnot]. split; [done|].
      destruct (truth self epiweek l) eqn:Hl'; [|done].
      exfalso. apply Hnot. split; [done|by eexists].
    + intros [Hl Hnone]. split; [done|]. rewrite Hnone. by intros [_ [? ?]].
Qed.

(** C9, amended. On a call that the [lru_cache] does not answer, that is for
    a week not asked of the object before: when no atomic location has a
    ground-truth value for the week, [get_missing_locations] returns the
    empty tuple; when at least one has, it returns, without repetition,
    exactly the atomic locations whose ground-truth value is absent.  From
    then on the week is answered from the table: the call returns the same
    tuple again, whatever the object holds by then, and leaves the object as
    it is. *)
Theorem get_missing_locations_spec (memo : gmap Z (list string))
    (self : DatasetnameDataSource) (epiweek : Z) :
  memo !! epiweek = None →
  ((∀ loc, loc ∈ ATOMIC_LOCATIONS → truth self epiweek loc = None) →
   (get_missing_locations_cached memo self epiweek).1 = [])
  ∧ ((∃ loc, loc ∈ ATOMIC_LOCATIONS ∧ truth self epiweek loc ≠ None) →
     NoDup (get_missing_locations_cached memo self epiweek).1
     ∧ ∀ loc, loc ∈ (get_missing_locations_cached memo self epiweek).1
              ↔ loc ∈ ATOMIC_LOCATIONS ∧ truth self epiweek loc = None)
  ∧ ∀ self' : DatasetnameDataSource,
      get_missing_locations_cached (get_missing_locations_cached memo self epiweek).2.1
        self' epiweek
      = ((get_missing_locations_cached memo self epiweek).1,
         ((get_missing_locations_cached memo self epiweek).2.1, self')).
Proof.
  intros Hmiss. pose proof (get_missing_locations_computes self epiweek) as [Hnone Hsome].
  unfold get_missing_locations_cached at 1 2 3 5 6 7. rewrite Hmiss.
  destruct (get_missing_locations self epiweek) as [missing self1]. cbn [fst snd] in *.
  split; [done|]. split; [done|]. intros self'.
  unfold get_missing_locations_cached. by rewrite lookup_insert_eq.
Qed.

(** *** More about the cache and the ground truth *)

(** X14. [add_to_cache] hands back the value it was given; afterwards the
    cache holds that value under the four keys, and every other entry,
    present or absent, is as before. *)
Theorem add_to_cache_lookup (self : DatasetnameDataSource) (name target location : string)
    (epiweek : Z) (value : option R) :
  (add_to_cache self name target location epiweek value).1 = value
  ∧ cache_get (cache (add_to_cache self name target location epiweek value).2)
      name target location epiweek = Some value
  ∧ ∀ (name' target' location' : string) (epiweek' : Z),
      (name', target', location', epiweek') ≠ (name, target, location, epiweek) →
      cache_get (cache (add_to_cache self name target location epiweek value).2)
        name' target' location' epiweek'
      = cache_get (cache self) name' target' location' epiweek'.
Proof.
  unfold add_to_cache. simpl. split; [done|]. split.
  - rewrite cache_get_add. destruct (decide _) as [_|Hne]; [done|]. by destruct Hne.
  - intros name' target' location' epiweek' Hne. rewrite cache_get_add.
    destruct (decide _) as [(-> & -> & -> & ->)|_]; done.
Qed.

Lemma get_truth_value_target (self : DatasetnameDataSource) (epiweek : Z) (location : string) :
  target (get_truth_value self epiweek location).2 = target self.
Proof.
  unfold get_truth_value.
  destruct (cache_get _ _ _ _ _); [done|]. by destruct (decide _).
Qed.

(** What a call of [get_truth_value] does to the cache: it adds the answer
    under the key asked for, if that key was absent. *)
Lemma get_truth_value_cache (self : DatasetnameDataSource) (epiweek : Z) (asked : string)
    (name target' location : string) (epiweek' : Z) :
  cache_get (cache (get_truth_value self epiweek asked).2) name target' location epiweek'
  = match cache_get (cache self) name target' location epiweek' with
    | Some value => Some value
    | None =>
        if decide (name_targets = name ∧ target self = target' ∧ asked = location
                   ∧ epiweek = epiweek')
        then Some (truth self epiweek asked)
        else None
    end.
Proof.
  unfold truth, get_truth_value.
  destruct (cache_get (cache self) name_targets (target self) asked epiweek)
    as [cached|] eqn:Hasked.
  - simpl. destruct (cache_get (cache self) name target' location epiweek') eqn:Hkey;
      [done|].
    destruct (decide _) as [(<- & <- & <- & <-)|_]; [congruence|done].
  - destruct (decide (result_code _ ≠ 1%Z)); simpl; rewrite cache_get_add;
      (destruct (decide _) as [(<- & <- & <- & <-)|_]; [by rewrite Hasked|]);
      by destruct (cache_get (cache self) name target' location epiweek').
Qed.

(** The answer of the service, as [get_truth_value] reads it. *)
Definition answer (target location : string) (epiweek : Z) : option R :=
  if decide (result_code (datasetname_targets target location epiweek) ≠ 1%Z)
  then None
  else first_value (datasetname_targets target location epiweek).

Lemma truth_cache (self : DatasetnameDataSource) (epiweek : Z) (location : string) :
  truth self epiweek location
  = match cache_get (cache self) name_targets (target self) location epiweek with
    | Some value => value
    | None => answer (target self) location epiweek
    end.
Proof.
  unfold truth, get_truth_value, answer.
  destruct (cache_get _ _ _ _ _); [done|]. by destruct (decide _).
Qed.

(** Asking for one location and week leaves every answer as it was. *)
Lemma get_truth_value_frame (self : DatasetnameDataSource) (epiweek : Z) (asked : string)
    (epiweek' : Z) (location : string) :
  truth (get_truth_value self epiweek asked).2 epiweek' location
  = truth self epiweek' location.
Proof.
  rewrite (truth_cache (get_truth_value self epiweek asked).2).
  rewrite get_truth_value_target, get_truth_value_cache, (truth_cache self epiweek').
  destruct (cache_get (cache self) name_targets (target self) location epiweek')
    as [cached|] eqn:Hkey; [done|].
  destruct (decide _) as [(_ & _ & -> & ->)|_]; [|done].
  by rewrite truth_cache, Hkey.
Qed.

Lemma visit_locations_frame (epiweek : Z) (locations : list string)
    (st : DatasetnameDataSource * list string) :
  target (foldl (visit_location epiweek) st locations).1 = target st.1
  ∧ (∀ epiweek' location,
       truth (foldl (visit_location epiweek) st locations).1 epiweek' location
       = truth st.1 epiweek' location)
  ∧ ∀ location,
      location ∈ locations ∨ is_Some (cache_get (cache st.1) name_targets (target st.1)
                                        location epiweek) →
      is_Some (cache_get (cache (foldl (visit_location epiweek) st locations).1)
                 name_targets (target st.1) location epiweek).
Proof.
  revert st. induction locations as [|loc locations IH]; intros [self available].
  - simpl. split; [done|]. split; [done|]. intros location [Hin|?]; [|done].
    by apply elem_of_nil in Hin.
  - cbn [foldl].
    assert (Hstep : (visit_location epiweek (self, available) loc).1
                    = (get_truth_value self epiweek loc).2).
    { unfold visit_location.
      by destruct (get_truth_value self epiweek loc) as [[v|] self']. }
    destruct (IH (visit_location epiweek (self, available) loc)) as (Htarget & Htruth & Hcached).
    rewrite Hstep in Htarget, Htruth, Hcached. cbn [fst].
    rewrite get_truth_value_target in Htarget, Hcached.
    split; [done|]. split.
    + intros epiweek' location. by rewrite Htruth, get_truth_value_frame.
    + intros location Hloc. apply Hcached.
      destruct (decide (location ∈ locations)) as [?|Hnot]; [by left|]. right.
      rewrite get_truth_value_cache.
      destruct (cache_get (cache self) name_targets (target self) location epiweek)
        as [cached|] eqn:Hkey; [by eexists|].
      destruct Hloc as [[->|?]%elem_of_cons|[? ?]]; [|done|done].
      destruct (decide _) as [_|Hne]; [by eexists|]. by destruct Hne.
Qed.

(** X15. A call of [get_missing_locations] changes nothing that the source
    reports, for any week and any location, and leaves the answer for every
    atomic location of the week asked about in the cache. *)
Theorem get_missing_locations_frame (self : DatasetnameDataSource) (epiweek : Z) :
  (∀ epiweek' location,
     truth (get_missing_locations self epiweek).2 epiweek' location
     = truth self epiweek' location)
  ∧ ∀ location, location ∈ ATOMIC_LOCATIONS →
      cache_get (cache (get_missing_locations self epiweek).2) name_targets (target self)
        location epiweek
      = Some (truth self epiweek location).
Proof.
  unfold get_missing_locations.
  destruct (visit_locations_frame epiweek
              (elements (list_to_set ATOMIC_LOCATIONS : gset string)) (self, []))
    as (Htarget & Htruth & Hcached).
  destruct (foldl _ _ _) as [self' available]. cbn [fst] in *.
  assert (Hself : ∀ l : list string * DatasetnameDataSource,
            l = match available with
                | _ :: _ => (elements ((list_to_set ATOMIC_LOCATIONS : gset string)
                                       ∖ list_to_set available), self')
                | [] => ([], self')
                end → l.2 = self').
  { intros l ->. by destruct available. }
  rewrite (Hself _ eq_refl). split; [done|].
  intros location Hloc.
  destruct (Hcached location) as [cached Hkey].
  { left. rewrite elem_of_elements. by apply elem_of_list_to_set. }
  rewrite Hkey. f_equal. rewrite <- (Htruth epiweek location).
  by rewrite truth_cache, Htarget, Hkey.
Qed.

End source.

(** *** More about the service *)

(** X16. The service is asked at most once for a location and week: after a
    first call, a second one gives the same answer whatever the service would
    say by then, and changes nothing. *)
Theorem get_truth_value_asks_once (service service' : string → string → Z → response)
    (self : DatasetnameDataSource) (epiweek : Z) (location : string) :
  get_truth_value service' (get_truth_value service self epiweek location).2 epiweek location
  = get_truth_value service self epiweek location.
Proof.
  unfold get_truth_value at 1.
  rewrite get_truth_value_target, get_truth_value_cache.
  unfold truth.
  destruct (cache_get (cache self) name_targets (target self) location epiweek)
    as [cached|] eqn:Hkey.
  - unfold get_truth_value. by rewrite Hkey.
  - destruct (decide _) as [_|Hne]; [|by destruct Hne].
    by destruct (get_truth_value service self epiweek location).
Qed.

(** *** Sensor readings and the bulk fetch *)

(** A loop whose body updates the object and may raise: the object is kept
    as the body left it, the exception ends the loop. *)
Fixpoint fold_state {A S} (body : S → A → S * result ()) (xs : list A) (s : S)
  : S * result () :=
  match xs with
  | [] => (s, Ok ())
  | x :: xs' =>
      match body s x with
      | (s', Ok _) => fold_state body xs' s'
      | (s', Raise e) => (s', Raise e)
      end
  end.

(** The value of the last row of [rows] for the week, if any. *)
Definition last_row_value (rows : list target_row) (epiweek : Z) : option R :=
  foldl (λ found row, if decide (target_epiweek row = epiweek)
                      then Some (target_value row) else found)
        None rows.

Section bulk.

Variable range_epiweeks_inclusive : Z → Z → list Z.
Variable week_range : Type.
Variable Epidata_range : Z → Z → week_range.
(** [self.epidata.datasetname_sensors(auth, target, name, location, epiweek)]. *)
Variable datasetname_sensors : string → string → string → Z → response.
(** [self.epidata.check(self.epidata.datasetname_targets(auth, target, loc, weeks))]. *)
Variable targets_in : string → string → week_range → result (list target_row).
(** [self.epidata.datasetname_sensors(auth, target, sen, loc, weeks)]: the
    [result] code of the response and what [self.epidata.check] makes of it. *)
Variable sensors_in : string → string → string → week_range → Z * result (list target_row).

(** [get_sensor_value], without the [lru_cache] that replays its outcomes. *)
Definition get_sensor_value (self : DatasetnameDataSource) (epiweek : Z)
    (location name : string) : option R * DatasetnameDataSource :=
  match cache_get (cache self) name (target self) location epiweek with
  | Some value => (value, self)
  | None =>
      let response := datasetname_sensors (target self) name location epiweek in
      if decide (result_code response ≠ 1%Z)
      then add_to_cache self name (target self) location epiweek None
      else add_to_cache self name (target self) location epiweek (first_value response)
  end.

(** [extract] of [prefetch]. *)
Definition extract (response : Z * result (list target_row)) : result (list target_row) :=
  if decide (response.1 = (-2)%Z) then Ok [] else response.2.

(** The loops of [prefetch] that default every week to [None]. *)
Definition set_defaults (self : DatasetnameDataSource) (loc : string) (weeks : list Z)
  : DatasetnameDataSource :=
  foldl (λ self week,
           foldl (λ self name, (add_to_cache self name (target self) loc week None).2)
                 self (name_targets :: sensors self))
        self weeks.

(** The loops of [prefetch] that store the rows of a response under [name]. *)
Definition store_rows (self : DatasetnameDataSource) (name loc : string)
    (rows : list target_row) : DatasetnameDataSource :=
  foldl (λ self row,
           (add_to_cache self name (target self) loc (target_epiweek row)
              (Some (target_value row))).2)
        self rows.

(** Body of the loop [for sen in self.get_sensors()]. *)
Definition prefetch_sensor (weeks : week_range) (loc : string)
    (self : DatasetnameDataSource) (sen : string) : DatasetnameDataSource * result () :=
  let response := sensors_in (target self) sen loc weeks in
  match extract response with
  | Ok rows => (store_rows self sen loc rows, Ok ())
  | Raise e => (self, Raise e)
  end.

(** Body of the loop [for loc in self.get_truth_locations()]. *)
Definition prefetch_location (epiweek : Z) (weeks : week_range)
    (self : DatasetnameDataSource) (loc : string) : DatasetnameDataSource * result () :=
  let self :=
    set_defaults self loc (range_epiweeks_inclusive FIRST_DATA_EPIWEEK epiweek) in
  match targets_in (target self) loc weeks with
  | Raise e => (self, Raise e)
  | Ok datasetnameData =>
      let self := store_rows self name_targets loc datasetnameData in
      if decide (loc ∉ (list_to_set SENSOR_LOCATIONS : gset string))
      then (self, Ok ())
      else fold_state (prefetch_sensor weeks loc) (sensors self) self
  end.

Definition prefetch (self : DatasetnameDataSource) (epiweek : Z)
  : DatasetnameDataSource * result () :=
  let weeks := Epidata_range FIRST_DATA_EPIWEEK epiweek in
  fold_state (prefetch_location epiweek weeks) TARGET_LOCATIONS self.

(** *** What the loops do to the cache *)

Lemma store_rows_target (self : DatasetnameDataSource) (name loc : string)
    (rows : list target_row) :
  target (store_rows self name loc rows) = target self
  ∧ sensors (store_rows self name loc rows) = sensors self.
Proof.
  unfold store_rows. revert self. induction rows as [|row rows IH]; intros self; [done|].
  cbn [foldl]. by destruct (IH (add_to_cache self name (target self) loc (target_epiweek row)
                                  (Some (target_value row))).2) as [-> ->].
Qed.

Lemma store_rows_get (self : DatasetnameDataSource) (name loc : string)
    (rows : list target_row) (name' target' location' : string) (epiweek' : Z) :
  cache_get (cache (store_rows self name loc rows)) name' target' location' epiweek'
  = if decide (name = name' ∧ target self = target' ∧ loc = location')
    then match last_row_value rows epiweek' with
         | Some value => Some (Some value)
         | None => cache_get (cache self) name' target' location' epiweek'
         end
    else cache_get (cache self) name' target' location' epiweek'.
Proof.
  unfold store_rows, last_row_value.
  assert (Hgen : ∀ (self0 : DatasetnameDataSource) (found : option R),
    target self0 = target self →
    cache_get (cache (foldl (λ self row,
                 (add_to_cache self name (target self) loc (target_epiweek row)
                    (Some (target_value row))).2) self0 rows))
      name' target' location' epiweek'
    = if decide (name = name' ∧ target self = target' ∧ loc = location')
      then match foldl (λ found row, if decide (target_epiweek row = epiweek')
                                     then Some (target_value row) else found) None rows with
           | Some value => Some (Some value)
           | None => cache_get (cache self0) name' target' location' epiweek'
           end
      else cache_get (cache self0) name' target' location' epiweek').
  { clear. induction rows as [|row rows IH] using rev_ind; intros self0 found Htarget.
    - simpl. by destruct (decide _).
    - rewrite !foldl_app. cbn [foldl].
      assert (Ht : target (foldl (λ self row,
                     (add_to_cache self name (target self) loc (target_epiweek row)
                        (Some (target_value row))).2) self0 rows) = target self).
      { rewrite <- Htarget. apply (store_rows_target self0 name loc rows). }
      unfold add_to_cache at 1. cbn [snd cache]. rewrite cache_get_add, Ht.
      rewrite (IH self0 found Htarget).
      destruct (decide (name = name' ∧ target self = target' ∧ loc = location'))
        as [(-> & <- & ->)|Hne].
      + destruct (decide (target_epiweek row = epiweek')) as [->|Hweek].
        * destruct (decide _) as [_|Hno]; [done|]. by destruct Hno.
        * destruct (decide _) as [(_ & _ & _ & ?)|_]; done.
      + destruct (decide _) as [(-> & <- & -> & _)|_]; [|done]. by destruct Hne. }
  by apply (Hgen self None).
Qed.

Lemma set_defaults_target (self : DatasetnameDataSource) (loc : string) (weeks : list Z) :
  target (set_defaults self loc weeks) = target self
  ∧ sensors (set_defaults self loc weeks) = sensors self.
Proof.
  unfold set_defaults. revert self. induction weeks as [|week weeks IH]; intros self; [done|].
  assert (Hnames : ∀ names self0,
    target (foldl (λ self name, (add_to_cache self name (target self) loc week None).2)
              self0 names) = target self0
    ∧ sensors (foldl (λ self name, (add_to_cache self name (target self) loc week None).2)
                 self0 names) = sensors self0).
  { clear. induction names as [|name names IH]; intros self0; [done|].
    cbn [foldl]. by destruct (IH (add_to_cache self0 name (target self0) loc week None).2)
      as [-> ->]. }
  destruct (Hnames (name_targets :: sensors self) self) as [Ht Hs].
  destruct (IH (foldl (λ self0 name, (add_to_cache self0 name (target self0) loc week None).2)
                  self (name_targets :: sensors self))) as [Ht' Hs'].
  split; [etrans; [exact Ht'|exact Ht]|etrans; [exact Hs'|exact Hs]].
Qed.

Lemma set_defaults_get (self : DatasetnameDataSource) (loc : string) (weeks : list Z)
    (location' : string) (epiweek' : Z) :
  cache_get (cache (set_defaults self loc weeks)) name_targets (target self) location' epiweek'
  = if decide (loc = location' ∧ epiweek' ∈ weeks)
    then Some None
    else cache_get (cache self) name_targets (target self) location' epiweek'.
Proof.
  unfold set_defaults.
  assert (Hnames : ∀ week names self0, target self0 = target self →
    target (foldl (λ self name, (add_to_cache self name (target self) loc week None).2)
              self0 names) = target self
    ∧ sensors (foldl (λ self name, (add_to_cache self name (target self) loc week None).2)
                 self0 names) = sensors self0
    ∧ cache_get (cache (foldl (λ self name,
                          (add_to_cache self name (target self) loc week None).2)
                          self0 names)) name_targets (target self) location' epiweek'
      = if decide (name_targets ∈ names ∧ loc = location' ∧ week = epiweek')
        then Some None
        else cache_get (cache self0) name_targets (target self) location' epiweek').
  { clear. intros week. induction names as [|name names IH] using rev_ind;
      intros self0 Htarget.
    - cbn [foldl]. split; [done|]. split; [done|].
      destruct (decide (name_targets ∈ [] ∧ loc = location' ∧ week = epiweek'))
        as [[Hin _]|_]; [|done]. by apply elem_of_nil in Hin.
    - rewrite !foldl_app. cbn [foldl].
      destruct (IH self0 Htarget) as (Ht & Hs & Hget).
      set (self1 := foldl _ self0 names) in *. clearbody self1.
      unfold add_to_cache. cbn [snd cache target sensors].
      split; [done|]. split; [done|]. rewrite cache_get_add, Ht, Hget.
      destruct (decide (name = name_targets ∧ target self = target self ∧ loc = location'
                        ∧ week = epiweek')) as [(Hn & _ & Hl & Hw)|Hne];
        destruct (decide (name_targets ∈ names ∧ loc = location' ∧ week = epiweek'))
          as [(Hin & Hl' & Hw')|Hno];
        destruct (decide (name_targets ∈ names ++ [name] ∧ loc = location' ∧ week = epiweek'))
          as [(Hin2 & Hl2 & Hw2)|Hno2]; try done; exfalso.
      + apply Hno2. split; [|done]. apply elem_of_app. by left.
      + apply Hno2. split; [|done]. apply elem_of_app. right. rewrite Hn.
        apply list_elem_of_here.
      + apply Hno2. split; [|done]. apply elem_of_app. by left.
      + apply elem_of_app in Hin2 as [Hin|Hin]; [by apply Hno|].
        apply list_elem_of_singleton in Hin. by apply Hne. }
  revert self Hnames. induction weeks as [|week weeks IH] using rev_ind; intros self Hnames.
  - cbn [foldl]. destruct (decide (loc = location' ∧ epiweek' ∈ [])) as [[_ Hin]|_]; [|done].
    by apply elem_of_nil in Hin.
  - rewrite foldl_app. cbn [foldl].
    pose proof (set_defaults_target self loc weeks) as [Ht Hs]. unfold set_defaults in Ht, Hs.
    specialize (IH self Hnames).
    set (self1 := foldl _ self weeks) in *. clearbody self1.
    destruct (Hnames week (name_targets :: sensors self1) self1 Ht) as (_ & _ & Hget).
    etrans; [exact Hget|]. rewrite IH.
    destruct (decide (name_targets ∈ name_targets :: sensors self1 ∧ loc = location'
                      ∧ week = epiweek')) as [(_ & Hl & Hw)|Hne];
      destruct (decide (loc = location' ∧ epiweek' ∈ weeks)) as [(Hl' & Hin)|Hno];
      destruct (decide (loc = location' ∧ epiweek' ∈ weeks ++ [week]))
        as [(Hl2 & Hin2)|Hno2]; try done; exfalso.
    + apply Hno2. split; [done|]. apply elem_of_app. by left.
    + apply Hno2. split; [done|]. apply elem_of_app. right. rewrite Hw.
      apply list_elem_of_here.
    + apply Hno2. split; [done|]. apply elem_of_app. by left.
    + apply elem_of_app in Hin2 as [Hin|Hin]; [by apply Hno|].
      apply list_elem_of_singleton in Hin. apply Hne.
      split; [apply list_elem_of_here|done].
Qed.

Lemma prefetch_sensors_keep (weeks : week_range) (loc : string) (names : list string)
    (self self' : DatasetnameDataSource) (r : result ()) :
  fold_state (prefetch_sensor weeks loc) names self = (self', r) →
  name_targets ∉ names →
  target self' = target self
  ∧ sensors self' = sensors self
  ∧ ∀ target' location' epiweek',
      cache_get (cache self') name_targets target' location' epiweek'
      = cache_get (cache self) name_targets target' location' epiweek'.
Proof.
  revert self. induction names as [|sen names IH]; intros self; simpl.
  - by intros [= <- <-] _.
  - unfold prefetch_sensor at 1.
    destruct (extract (sensors_in (target self) sen loc weeks)) as [rows|e].
    + intros Hfold Hnot. apply not_elem_of_cons in Hnot as [Hne Hnot].
      destruct (IH _ Hfold Hnot) as (Ht & Hs & Hget).
      destruct (store_rows_target self sen loc rows) as [Ht' Hs'].
      split; [congruence|]. split; [congruence|].
      intros target' location' epiweek'. rewrite Hget, store_rows_get.
      destruct (decide _) as [(-> & _)|_]; done.
    + by intros [= <- <-] _.
Qed.

Lemma prefetch_location_get (epiweek : Z) (weeks : week_range)
    (self self' : DatasetnameDataSource) (loc : string) (r : result ()) :
  prefetch_location epiweek weeks self loc = (self', r) →
  name_targets ∉ sensors self →
  target self' = target self
  ∧ sensors self' = sensors self
  ∧ (∀ location' epiweek', location' ≠ loc →
       cache_get (cache self') name_targets (target self) location' epiweek'
       = cache_get (cache self) name_targets (target self) location' epiweek')
  ∧ (r = Ok () →
     ∃ rows, targets_in (target self) loc weeks = Ok rows
             ∧ ∀ week, week ∈ range_epiweeks_inclusive FIRST_DATA_EPIWEEK epiweek →
                 cache_get (cache self') name_targets (target self) loc week
                 = Some (last_row_value rows week)).
Proof.
  unfold prefetch_location. intros Hrun Hnot.
  pose proof (set_defaults_target self loc
                (range_epiweeks_inclusive FIRST_DATA_EPIWEEK epiweek)) as [Ht Hs].
  set (self1 := set_defaults self loc
                  (range_epiweeks_inclusive FIRST_DATA_EPIWEEK epiweek)) in *.
  assert (Hget1 : ∀ location' epiweek',
    cache_get (cache self1) name_targets (target self) location' epiweek'
    = if decide (loc = location'
                 ∧ epiweek' ∈ range_epiweeks_inclusive FIRST_DATA_EPIWEEK epiweek)
      then Some None
      else cache_get (cache self) name_targets (target self) location' epiweek')
    by (intros; apply set_defaults_get).
  rewrite Ht in Hrun.
  destruct (targets_in (target self) loc weeks) as [rows|e] eqn:Hrows.
  2: { injection Hrun as <- <-. split; [done|]. split; [done|]. split; [|done].
       intros location' epiweek' Hne. rewrite Hget1.
       destruct (decide (loc = location' ∧ epiweek' ∈ _)) as [[-> _]|_]; done. }
  destruct (store_rows_target self1 name_targets loc rows) as [Ht2 Hs2].
  set (self2 := store_rows self1 name_targets loc rows) in *.
  assert (Hget2 : ∀ location' epiweek',
    cache_get (cache self2) name_targets (target self) location' epiweek'
    = if decide (loc = location')
      then match last_row_value rows epiweek' with
           | Some value => Some (Some value)
           | None => cache_get (cache self1) name_targets (target self) location' epiweek'
           end
      else cache_get (cache self1) name_targets (target self) location' epiweek').
  { intros location' epiweek'. unfold self2. rewrite store_rows_get, Ht.
    destruct (decide (name_targets = name_targets ∧ target self = target self
                      ∧ loc = location')) as [(_ & _ & ->)|Hne].
    - by destruct (decide (location' = location')).
    - destruct (decide (loc = location')) as [->|]; [|done]. by destruct Hne. }
  assert (Hfinal : ∀ self3 : DatasetnameDataSource,
    target self3 = target self → sensors self3 = sensors self →
    (∀ target' location' epiweek',
       cache_get (cache self3) name_targets target' location' epiweek'
       = cache_get (cache self2) name_targets target' location' epiweek') →
    target self3 = target self
    ∧ sensors self3 = sensors self
    ∧ (∀ location' epiweek', location' ≠ loc →
         cache_get (cache self3) name_targets (target self) location' epiweek'
         = cache_get (cache self) name_targets (target self) location' epiweek')
    ∧ (r = Ok () →
       ∃ rows0, Ok rows = Ok rows0
                ∧ ∀ week, week ∈ range_epiweeks_inclusive FIRST_DATA_EPIWEEK epiweek →
                    cache_get (cache self3) name_targets (target self) loc week
                    = Some (last_row_value rows0 week))).
  { intros self3 Ht3 Hs3 Hget3. split; [done|]. split; [done|]. split.
    - intros location' epiweek' Hne. rewrite Hget3, Hget2, Hget1.
      destruct (decide (loc = location' ∧ epiweek' ∈ _)) as [[-> _]|_]; [done|].
      by destruct (decide (loc = location')) as [->|_].
    - intros _. exists rows. split; [done|]. intros week Hweek.
      rewrite Hget3, Hget2, Hget1.
      destruct (decide (loc = loc ∧ week ∈ _)) as [_|Hno]; [|by destruct Hno].
      destruct (decide (loc = loc)) as [_|]; [|done].
      by destruct (last_row_value rows week). }
  destruct (decide (loc ∉ (list_to_set SENSOR_LOCATIONS : gset string))).
  - injection Hrun as <- <-. apply Hfinal; [congruence|congruence|done].
  - destruct (prefetch_sensors_keep _ _ _ _ _ _ Hrun) as (Ht3 & Hs3 & Hget3).
    { by rewrite Hs2, Hs. }
    apply Hfinal; [congruence|congruence|done].
Qed.

Lemma prefetch_locations_get (epiweek : Z) (weeks : week_range) (locations : list string)
    (self self' : DatasetnameDataSource) :
  fold_state (prefetch_location epiweek weeks) locations self = (self', Ok ()) →
  name_targets ∉ sensors self →
  target self' = target self
  ∧ ∀ loc, loc ∈ locations →
      ∃ rows, targets_in (target self) loc weeks = Ok rows
              ∧ ∀ week, week ∈ range_epiweeks_inclusive FIRST_DATA_EPIWEEK epiweek →
                  cache_get (cache self') name_targets (target self) loc week
                  = Some (last_row_value rows week).
Proof.
  revert self. induction locations as [|loc0 locations IH]; intros self; simpl.
  - intros [= <-] _. split; [done|]. by intros loc ?%elem_of_nil.
  - destruct (prefetch_location epiweek weeks self loc0) as [self1 [[]|e]] eqn:Hloc0;
      [|done].
    intros Hfold Hnot.
    destruct (prefetch_location_get _ _ _ _ _ _ Hloc0 Hnot) as (Ht1 & Hs1 & Hother & Hhere).
    destruct (IH self1 Hfold) as [Ht' Hrest]; [by rewrite Hs1|].
    split; [congruence|]. intros loc Hloc.
    destruct (decide (loc ∈ locations)) as [Hin|Hnin].
    { destruct (Hrest loc Hin) as (rows & Hrows & Hweeks). rewrite Ht1 in Hrows, Hweeks.
      by exists rows. }
    apply elem_of_cons in Hloc as [->|?]; [|done].
    destruct (Hhere eq_refl) as (rows & Hrows & Hweeks).
    exists rows. split; [done|]. intros week Hweek. rewrite <- (Hweeks week Hweek).
    clear -Hfold Hnin Hnot Hs1 Ht1. revert self1 Hfold Hs1 Ht1.
    induction locations as [|loc locations IH]; intros self1; simpl.
    + by intros [= <-].
    + destruct (prefetch_location epiweek weeks self1 loc) as [self2 [[]|e]] eqn:Hloc;
        [|done].
      intros Hfold Hs1 Ht1. apply not_elem_of_cons in Hnin as [Hne Hnin].
      destruct (prefetch_location_get _ _ _ _ _ _ Hloc) as (Ht2 & Hs2 & Hother & _).
      { by rewrite Hs1. }
      rewrite (IH Hnin self2 Hfold) by congruence.
      rewrite <- Ht1. by apply Hother.
Qed.

(** *** What the bulk fetch and the sensor readings leave behind *)

(** X17. After a [prefetch] that went through, the ground truth of every
    truth location and every week from the first data week to the week given
    is answered from the cache: it is the value of the last fetched row for
    that location and week, [None] when there is none, whatever the service
    would answer, and asking changes nothing.  This needs that no sensor is
    named like the ground truth. *)
Theorem prefetch_truth (self self' : DatasetnameDataSource) (epiweek : Z) :
  name_targets ∉ sensors self →
  prefetch self epiweek = (self', Ok ()) →
  ∀ loc week,
    loc ∈ TARGET_LOCATIONS →
    week ∈ range_epiweeks_inclusive FIRST_DATA_EPIWEEK epiweek →
    ∃ rows, targets_in (target self) loc (Epidata_range FIRST_DATA_EPIWEEK epiweek) = Ok rows
            ∧ ∀ service : string → string → Z → response,
                get_truth_value service self' week loc = (last_row_value rows week, self').
Proof.
  intros Hnot Hrun loc week Hloc Hweek. unfold prefetch in Hrun.
  destruct (prefetch_locations_get _ _ _ _ _ Hrun Hnot) as [Ht Hall].
  destruct (Hall loc Hloc) as (rows & Hrows & Hweeks).
  exists rows. split; [done|]. intros service. unfold get_truth_value.
  by rewrite Ht, (Hweeks week Hweek).
Qed.

(** X18. Reading a sensor whose name is not that of the ground truth leaves
    every ground-truth answer as it was. *)
Theorem get_sensor_value_keeps_truth (service : string → string → Z → response)
    (self : DatasetnameDataSource) (epiweek : Z) (location name : string)
    (epiweek' : Z) (location' : string) :
  name ≠ name_targets →
  truth service (get_sensor_value self epiweek location name).2 epiweek' location'
  = truth service self epiweek' location'.
Proof.
  intros Hname. rewrite !truth_cache. unfold get_sensor_value.
  destruct (cache_get (cache self) name (target self) location epiweek); [done|].
  destruct (decide (result_code _ ≠ 1%Z)); unfold add_to_cache; cbn [snd cache target];
    rewrite cache_get_add; (destruct (decide _) as [(-> & _)|_]; done).
Qed.

End bulk.

(** *** A service on which the claim is exercised *)

(** Only California and Colorado report, and only in 2017w10. *)
Definition demo_service (target location : string) (epiweek : Z) : response :=
  if decide ((location = "ca" ∨ location = "co") ∧ epiweek = 201710%Z)
  then Response 1 (Some 2%R)
  else Response (-2) None.

Definition demo_source : DatasetnameDataSource := MkSource SENSORS SENSOR_LOCATIONS "ov" ∅.

Example demo_missing_none :
  (get_missing_locations demo_service demo_source 201711).1 = [].
Proof. vm_compute. reflexivity. Qed.

Example demo_missing_some :
  length (get_missing_locations demo_service demo_source 201710).1 = 51%nat
  ∧ ("ca" ∉ (get_missing_locations demo_service demo_source 201710).1)
  ∧ ("ny" ∈ (get_missing_locations demo_service demo_source 201710).1).
Proof.
  split; [vm_compute; reflexivity|].
  split; apply (bool_decide_unpack _); vm_compute; exact I.
Qed.

Lemma get_missing_locations_spec_witness :
  ((∀ loc, loc ∈ ATOMIC_LOCATIONS → truth demo_service demo_source 201710 loc = None) →
   (get_missing_locations_cached demo_service ∅ demo_source 201710).1 = [])
  ∧ ((∃ loc, loc ∈ ATOMIC_LOCATIONS ∧ truth demo_service demo_source 201710 loc ≠ None) →
     NoDup (get_missing_locations_cached demo_service ∅ demo_source 201710).1
     ∧ ∀ loc, loc ∈ (get_missing_locations_cached demo_service ∅ demo_source 201710).1
              ↔ loc ∈ ATOMIC_LOCATIONS ∧ truth demo_service demo_source 201710 loc = None)
  ∧ ∀ self' : DatasetnameDataSource,
      get_missing_locations_cached demo_service
        (get_missing_locations_cached demo_service ∅ demo_source 201710).2.1 self' 201710
      = ((get_missing_locations_cached demo_service ∅ demo_source 201710).1,
         ((get_missing_locations_cached demo_service ∅ demo_source 201710).2.1, self')).
Proof.
  apply (get_missing_locations_spec demo_service ∅ demo_source 201710).
  apply lookup_empty.
Defined.

(** *** A week asked before its values arrive *)

(** The table and the object after the week 2017w11, for which nobody has
    reported, was asked of the fresh object. *)
Definition demo_asked : gmap Z (list string) * DatasetnameDataSource :=
  (get_missing_locations_cached demo_service ∅ demo_source 201711).2.

(** The object once a value for Alaska and that week is stored, as a later
    [prefetch] stores the rows of its batch. *)
Definition demo_arrived : DatasetnameDataSource :=
  (add_to_cache demo_asked.2 name_targets "ov" "ak" 201711 (Some 3%R)).2.

(** C9, as the spec states it, fails for a week that was asked before: the
    week 2017w11 is asked when nobody has reported, and the empty tuple is
    returned and stored; then a value for Alaska arrives in the cache; asked
    again, the method replays the empty tuple, although Alaska now has a
    value and Alabama, with none, is therefore to be returned. *)
Lemma get_missing_locations_replays_first_tuple :
  ¬ ∀ (memo : gmap Z (list string)) (self : DatasetnameDataSource) (epiweek : Z),
      (∃ loc, loc ∈ ATOMIC_LOCATIONS ∧ truth demo_service self epiweek loc ≠ None) →
      ∀ loc, loc ∈ (get_missing_locations_cached demo_service memo self epiweek).1
             ↔ loc ∈ ATOMIC_LOCATIONS ∧ truth demo_service self epiweek loc = None.
Proof.
  intros Hclaim.
  assert (Hak : truth demo_service demo_arrived 201711 "ak" = Some 3%R)
    by (vm_compute; reflexivity).
  assert (Hal : truth demo_service demo_arrived 201711 "al" = None)
    by (vm_compute; reflexivity).
  assert (Hreplay : (get_missing_locations_cached demo_service demo_asked.1 demo_arrived
                       201711).1 = []) by (vm_compute; reflexivity).
  assert (Hatom : ∀ loc, loc = "ak" ∨ loc = "al" → loc ∈ ATOMIC_LOCATIONS).
  { intros loc [->| ->]; apply (bool_decide_unpack _); vm_compute; exact I. }
  assert (Hsome : ∃ loc, loc ∈ ATOMIC_LOCATIONS
                         ∧ truth demo_service demo_arrived 201711 loc ≠ None).
  { exists "ak". split; [apply Hatom; by left|]. rewrite Hak. discriminate. }
  pose proof (proj2 (Hclaim demo_asked.1 demo_arrived 201711%Z Hsome "al")
                (conj (Hatom "al" (or_intror eq_refl)) Hal)) as Hin.
  rewrite Hreplay in Hin. by apply elem_of_nil in Hin.
Qed.

(** *** A bulk fetch of three weeks *)

(** Alaska reports the first two weeks, the second one twice; nobody else
    reports. *)
Definition demo_targets_in (target location : string) (weeks : Z * Z)
  : result (list target_row) :=
  if decide (location = "ak")
  then Ok [TargetRow 199301 1; TargetRow 199302 2; TargetRow 199302 5]
  else Ok [].

(** Only the sensor [ght] has readings; the others answer with code -2. *)
Definition demo_sensors_in (target name location : string) (weeks : Z * Z)
  : Z * result (list target_row) :=
  if decide (name = "ght")
  then (1%Z, Ok [TargetRow 199301 7])
  else ((-2)%Z, Raise (Exception "no results")).

Definition demo_sensor_service (target name location : string) (epiweek : Z) : response :=
  Response 1 (Some 3%R).

Definition demo_prefetched : DatasetnameDataSource :=
  (prefetch DemoCalendar.range_epiweeks_inclusive (Z * Z) DemoCalendar.Epidata_range
     demo_targets_in demo_sensors_in demo_source 199303).1.

Lemma prefetch_truth_witness :
  ∃ rows, demo_targets_in "ov" "ak" (FIRST_DATA_EPIWEEK, 199303%Z) = Ok rows
          ∧ ∀ service : string → string → Z → response,
              get_truth_value service demo_prefetched 199302 "ak"
              = (last_row_value rows 199302, demo_prefetched).
Proof.
  apply (prefetch_truth DemoCalendar.range_epiweeks_inclusive (Z * Z)
           DemoCalendar.Epidata_range demo_targets_in demo_sensors_in
           demo_source demo_prefetched 199303).
  - apply (bool_decide_unpack _). vm_compute. exact I.
  - unfold demo_prefetched.
    assert (Hdone : (prefetch DemoCalendar.range_epiweeks_inclusive (Z * Z)
                       DemoCalendar.Epidata_range demo_targets_in demo_sensors_in
                       demo_source 199303).2 = Ok ()) by (vm_compute; reflexivity).
    destruct (prefetch DemoCalendar.range_epiweeks_inclusive (Z * Z)
                DemoCalendar.Epidata_range demo_targets_in demo_sensors_in
                demo_source 199303) as [self' r].
    cbn [fst snd] in *. rewrite Hdone. reflexivity.
  - apply (bool_decide_unpack _). vm_compute. exact I.
  - apply (bool_decide_unpack _). vm_compute. exact I.
Defined.

Lemma get_sensor_value_keeps_truth_witness :
  truth demo_service
    (get_sensor_value demo_sensor_service demo_source 201710 "ca" "ght").2 201710 "ca"
  = truth demo_service demo_source 201710 "ca".
Proof.
  apply (get_sensor_value_keeps_truth demo_sensor_service demo_service demo_source
           201710 "ca" "ght" 201710 "ca").
  unfold name_targets. discriminate.
Defined.

End DataSource.

(** ** The fixed-feature regression ([isch.py]) *)

Module Isch.

Definition msg_not_predicting : string := "not predicting during this period".
Definition msg_too_fresh : string := "The available data are too fresh".
Definition msg_found : string := "Found training instances, but required at least".
Definition msg_future : string := "trained on future data".

(** The attributes of an [ISCH] object.  [data] holds [self.data[i]['stable']]
    ([self.valid] is written once and never read; it is left out); [model]
    and [training_week] are unset until [train] has run. *)
Record ISCH : Type := MkISCH {
  region : string;
  target : string;
  data : gmap Z R;
  ew2i : gmap Z Z;
  i2ew : gmap Z Z;
  weeks : list Z;
  model : option (list R);
  training_week : option Z
}.

(** [d[k]] for the dictionaries of the object. *)
Definition at_key {V} (d : gmap Z V) (k : Z) : result V :=
  match d !! k with
  | Some v => Ok v
  | None => Raise KeyError
  end.

(** The first loop of [__init__]: number the weeks of the calendar. *)
Definition index_weeks (calendar : list Z) : gmap Z Z * gmap Z Z :=
  foldl (λ '(ew2i, i2ew) ew,
           let i := Z.of_nat (size ew2i) in
           (<[ew := i]> ew2i, <[i := ew]> i2ew))
        (∅, ∅) calendar.

(** The second loop of [__init__]: file each row under the index of its week. *)
Definition store_rows (ew2i : gmap Z Z) (rx : list target_row) : gmap Z R :=
  foldl (λ data row,
           match ew2i !! target_epiweek row with
           | None => data
           | Some i => <[i := target_value row]> data
           end)
        ∅ rx.

Section isch.

(** The epiweek calendar ([delphi.utils.epiweek]); a year has a positive
    number of weeks. *)
Variable add_epiweeks : Z → Z → Z.
Variable split_epiweek : Z → Z * Z.
Variable get_num_weeks : Z → positive.
Variable range_epiweeks_inclusive : Z → Z → list Z.
(** [Epidata.range] and [Epidata.check(Epidata.datasetname_targets(...))]. *)
Variable week_range : Type.
Variable Epidata_range : Z → Z → week_range.
Variable datasetname_targets : string → string → week_range → result (list target_row).
(** The solve [inv(X.T X) X.T Y] of [train], from the rows of [X] and the
    entries of [Y]; numpy raises [LinAlgError] on a singular matrix. *)
Variable normal_equations : list (list R) → list R → result (list R).

(** [ISCH(region, target)]. *)
Definition new_ISCH (region target : string) : result ISCH :=
  let weeks := Epidata_range 199301 202330 in
  rx ← datasetname_targets target region weeks;
  let '(ew2i, i2ew) := index_weeks (range_epiweeks_inclusive 199301 202330) in
  let data := store_rows ew2i rx in
  Ok (MkISCH region target data ew2i i2ew
        (merge_sort Z.le (map fst (map_to_list data))) None None).

Definition _get_features (self : ISCH) (ew : Z) (valid : bool) : result (list R) :=
  i ← at_key (ew2i self) ew;
  let holidays :=
    map (λ holiday, if decide ((split_epiweek (add_epiweeks ew holiday)).2 = 1%Z)
                    then 1%R else 0%R)
        [0%Z; 1%Z; 2%Z; 3%Z] in
  let '(y, w) := split_epiweek ew in
  let N := get_num_weeks y in
  let offset := (PI * 2 * IZR w / IZR (Z.pos N))%R in
  Ok ([1%R] ++ holidays ++ [sin offset; cos offset]).

(** The training window [(i1, i2)] that [train] resolves, before it is
    tested for emptiness. *)
Definition training_window (self : ISCH) (epiweek : Z) : result (Z * Z) :=
  if decide (ew2i self !! epiweek = None)
  then Raise (Exception msg_not_predicting)
  else
    i1 ← py_index (weeks self) 2;
    ie ← at_key (ew2i self) epiweek;
    il ← at_key (ew2i self) DataSource.LAST_DATA_EPIWEEK;
    Ok (i1, Z.min (ie - 5) (il - 1)).

(** Body of the loop [for i in range(i1, i2 + 1)]: one row of [X] and one
    entry of [Y]. *)
Definition training_instance (self : ISCH) (i : Z) : result (list R * R) :=
  ew ← at_key (i2ew self) i;
  x ← _get_features self ew false;
  y ← at_key (data self) (i + 1);
  Ok (x, y).

(** [M[-n:]] for a positive [n]. *)
Definition last_rows {A} (n : nat) (M : list A) : list A := drop (length M - n) M.

(** [train]: the outcome carries the object with its [model] and
    [training_week] set. *)
Definition train (self : ISCH) (epiweek : Z)
  : result (ISCH * (list (list R) * list R * list R)) :=
  w ← training_window self epiweek;
  let '(i1, i2) := w in
  if decide (i2 < i1)%Z
  then Raise (ExceptionFmt msg_too_fresh [(i1 - i2)%Z])
  else
    ew2 ← at_key (i2ew self) i2;
    let num_weeks := (i2 - i1 + 1)%Z in
    XY ← map_raising (training_instance self) (seqZ i1 (i2 + 1 - i1));
    let '(X, Y) := (map fst XY, map snd XY) in
    let min_training_instances := Z.max (10 * 7) 52 in
    if decide (num_weeks < min_training_instances)%Z
    then Raise (ExceptionFmt msg_found [num_weeks; min_training_instances])
    else
      let max_training_instances := (50 * 7)%nat in
      let X := last_rows max_training_instances X in
      let Y := last_rows max_training_instances Y in
      model ← normal_equations X Y;
      Ok (MkISCH (region self) (target self) (data self) (ew2i self) (i2ew self)
            (weeks self) (Some model) (Some epiweek),
          (X, Y, model)).

(** [predict] with [train=True] or [train=False]. *)
Definition predict (self : ISCH) (epiweek : Z) (do_train valid : bool)
  : result (ISCH * R) :=
  self ← (if do_train then r ← train self epiweek; Ok r.1 else Ok self);
  match training_week self, model self with
  | Some week, Some beta =>
      if decide (epiweek < week)%Z then Raise (Exception msg_future)
      else
        X ← _get_features self epiweek valid;
        if decide (length X = length beta)
        then Ok (self, foldr Rplus 0%R (zip_with Rmult X beta))
        else Raise ValueError
  | _, _ => Raise AttributeError
  end.

(** *** Specification-side notions *)

(** What [__init__] establishes about the two week numberings. *)
Record numbered (ew2i i2ew : gmap Z Z) : Prop := Numbered {
  numbered_i2ew : ∀ i, (0 ≤ i < Z.of_nat (size ew2i))%Z → is_Some (i2ew !! i);
  numbered_ew2i : ∀ ew i, ew2i !! ew = Some i → (0 ≤ i ≤ Z.of_nat (size ew2i))%Z;
  numbered_back : ∀ i ew, i2ew !! i = Some ew → is_Some (ew2i !! ew)
}.

(** An object as [__init__] leaves it, up to what [train] stores. *)
Record well_formed (self : ISCH) : Prop := WellFormed {
  wf_numbered : numbered (ew2i self) (i2ew self);
  wf_weeks : ∀ i, i ∈ weeks self → (0 ≤ i)%Z
}.

(** Every week of the window has its label, the observation one week on. *)
Definition labelled (self : ISCH) (i1 i2 : Z) : Prop :=
  ∀ i, (i1 ≤ i ≤ i2)%Z → is_Some (data self !! (i + 1)%Z).

(** The training instance of index [i], where it can be built. *)
Definition instance_of (self : ISCH) (i : Z) : list R * R :=
  match training_instance self i with
  | Ok xy => xy
  | Raise _ => ([], 0%R)
  end.

(** The rows of [X] and the entries of [Y] over the window. *)
Definition window_X (self : ISCH) (i1 i2 : Z) : list (list R) :=
  map (λ i, (instance_of self i).1) (seqZ i1 (i2 + 1 - i1)).
Definition window_Y (self : ISCH) (i1 i2 : Z) : list R :=
  map (λ i, (instance_of self i).2) (seqZ i1 (i2 + 1 - i1)).

(** The object once [train] has stored its model. *)
Definition trained (self : ISCH) (epiweek : Z) (beta : list R) : ISCH :=
  MkISCH (region self) (target self) (data self) (ew2i self) (i2ew self)
    (weeks self) (Some beta) (Some epiweek).

(** *** What [__init__] establishes *)

Lemma numbered_step (ew2i i2ew : gmap Z Z) (ew : Z) :
  numbered ew2i i2ew →
  numbered (<[ew := Z.of_nat (size ew2i)]> ew2i) (<[Z.of_nat (size ew2i) := ew]> i2ew).
Proof.
  intros [Hi2ew Hew2i Hback].
  assert (Hsize : size ew2i ≤ size (<[ew := Z.of_nat (size ew2i)]> ew2i)
                  ∧ size (<[ew := Z.of_nat (size ew2i)]> ew2i) ≤ S (size ew2i)).
  { rewrite map_size_insert. destruct (ew2i !! ew); simpl; lia. }
  split.
  - intros i Hi. rewrite lookup_insert.
    destruct (decide (Z.of_nat (size ew2i) = i)); [by eexists|].
    apply Hi2ew. lia.
  - intros ew' i. rewrite lookup_insert.
    destruct (decide (ew = ew')) as [_|_].
    + intros [= <-]. lia.
    + intros Hlook. specialize (Hew2i _ _ Hlook). lia.
  - intros i ew'. rewrite lookup_insert.
    destruct (decide (Z.of_nat (size ew2i) = i)) as [_|_].
    + intros [= <-]. rewrite lookup_insert_eq. by eexists.
    + intros Hlook. rewrite lookup_insert. destruct (decide (ew = ew')); [by eexists|].
      by apply (Hback i).
Qed.

Lemma index_weeks_numbered (calendar : list Z) :
  numbered (index_weeks calendar).1 (index_weeks calendar).2.
Proof.
  unfold index_weeks.
  assert (Hgen : ∀ st : gmap Z Z * gmap Z Z, numbered st.1 st.2 →
    numbered (foldl (λ '(ew2i, i2ew) ew,
                       let i := Z.of_nat (size ew2i) in
                       (<[ew := i]> ew2i, <[i := ew]> i2ew)) st calendar).1
             (foldl (λ '(ew2i, i2ew) ew,
                       let i := Z.of_nat (size ew2i) in
                       (<[ew := i]> ew2i, <[i := ew]> i2ew)) st calendar).2).
  { induction calendar as [|ew calendar IH]; intros [ew2i i2ew] Hst; [done|].
    simpl. apply IH. simpl. by apply numbered_step. }
  apply Hgen. split; simpl.
  - intros i. rewrite map_size_empty. lia.
  - intros ew i. by rewrite lookup_empty.
  - intros i ew. by rewrite lookup_empty.
Qed.

Lemma store_rows_keys (ew2i : gmap Z Z) (rx : list target_row) (i : Z) :
  is_Some (store_rows ew2i rx !! i) → ∃ ew, ew2i !! ew = Some i.
Proof.
  unfold store_rows.
  assert (Hgen : ∀ data : gmap Z R,
    (∀ i, is_Some (data !! i) → ∃ ew, ew2i !! ew = Some i) →
    ∀ i, is_Some (foldl (λ data row,
                           match ew2i !! target_epiweek row with
                           | None => data
                           | Some i => <[i := target_value row]> data
                           end) data rx !! i) → ∃ ew, ew2i !! ew = Some i).
  { induction rx as [|row rx IH]; intros data Hdata; [done|].
    simpl. apply IH. destruct (ew2i !! target_epiweek row) as [j|] eqn:Hj; [|done].
    intros k. rewrite lookup_insert. destruct (decide (j = k)) as [<-|]; [|apply Hdata].
    intros _. by eexists. }
  apply Hgen. intros k. rewrite lookup_empty. by intros [? ?].
Qed.

Lemma new_ISCH_well_formed (region target : string) (self : ISCH) :
  new_ISCH region target = Ok self → well_formed self.
Proof.
  unfold new_ISCH. destruct (datasetname_targets _ _ _) as [rx|]; [|done]. simpl.
  pose proof (index_weeks_numbered (range_epiweeks_inclusive 199301 202330)) as Hnum.
  destruct (index_weeks _) as [ew2i i2ew]. simpl in Hnum.
  intros [= <-]. split; simpl; [done|].
  intros i. rewrite merge_sort_Permutation, list_elem_of_fmap.
  intros [[k v] [-> Hin%elem_of_map_to_list]]. simpl.
  destruct (store_rows_keys ew2i rx k) as [ew Hew]; [by eexists|].
  by destruct (numbered_ew2i _ _ Hnum _ _ Hew).
Qed.

Lemma new_ISCH_Ok (region target : string) (rx : list target_row) :
  datasetname_targets target region (Epidata_range 199301 202330) = Ok rx →
  is_Ok (new_ISCH region target).
Proof.
  intros Hrx. unfold new_ISCH. rewrite Hrx.
  destruct (index_weeks (range_epiweeks_inclusive 199301 202330)) as [ew2i i2ew] eqn:Hidx.
  simpl. by eexists.
Qed.

(** *** The window and its instances *)

Lemma py_index_elem {A} (xs : list A) (i : Z) (x : A) :
  py_index xs i = Ok x → x ∈ xs.
Proof.
  unfold py_index. destruct (_ <? 0)%Z; [done|].
  destruct (xs !! _) eqn:Hx; [|done]. intros [= <-]. by eapply list_elem_of_lookup_2.
Qed.

Lemma training_window_inv (self : ISCH) (epiweek i1 i2 : Z) :
  training_window self epiweek = Ok (i1, i2) →
  i1 ∈ weeks self
  ∧ ∃ ie il, ew2i self !! epiweek = Some ie
             ∧ ew2i self !! DataSource.LAST_DATA_EPIWEEK = Some il
             ∧ i2 = Z.min (ie - 5) (il - 1).
Proof.
  unfold training_window, at_key.
  destruct (decide (ew2i self !! epiweek = None)); [done|].
  destruct (py_index (weeks self) 2) as [j|] eqn:Hj; [|done]. simpl.
  destruct (ew2i self !! epiweek) as [ie|]; [|done]. simpl.
  destruct (ew2i self !! DataSource.LAST_DATA_EPIWEEK) as [il|]; [|done]. simpl.
  intros [= <- <-]. split; [by eapply py_index_elem|]. by exists ie, il.
Qed.

Lemma training_instance_Ok (self : ISCH) (i : Z) :
  well_formed self →
  (0 ≤ i < Z.of_nat (size (ew2i self)))%Z →
  is_Some (data self !! (i + 1)%Z) →
  training_instance self i = Ok (instance_of self i).
Proof.
  intros [Hnum _] Hi [y Hy]. unfold instance_of, training_instance, at_key.
  destruct (numbered_i2ew _ _ Hnum i Hi) as [ew Hew]. rewrite Hew. simpl.
  destruct (numbered_back _ _ Hnum i ew Hew) as [j Hj].
  unfold _get_features, at_key. rewrite Hj. simpl.
  destruct (split_epiweek ew) as [yr w]. simpl. by rewrite Hy.
Qed.

Lemma window_instances (self : ISCH) (epiweek i1 i2 : Z) :
  well_formed self →
  training_window self epiweek = Ok (i1, i2) →
  labelled self i1 i2 →
  map_raising (training_instance self) (seqZ i1 (i2 + 1 - i1))
  = Ok (map (instance_of self) (seqZ i1 (i2 + 1 - i1))).
Proof.
  intros Hwf Hwin Hlab. apply map_raising_total. intros i Hi%elem_of_seqZ.
  destruct (training_window_inv _ _ _ _ Hwin) as (Hi1 & ie & il & Hie & _ & ->).
  pose proof (wf_weeks _ Hwf _ Hi1).
  pose proof (numbered_ew2i _ _ (wf_numbered _ Hwf) _ _ Hie).
  apply training_instance_Ok; [done|lia|]. apply Hlab. lia.
Qed.

Lemma window_end_numbered (self : ISCH) (epiweek i1 i2 : Z) :
  well_formed self →
  training_window self epiweek = Ok (i1, i2) →
  (i1 ≤ i2)%Z →
  is_Some (i2ew self !! i2).
Proof.
  intros Hwf Hwin Hle.
  destruct (training_window_inv _ _ _ _ Hwin) as (Hi1 & ie & il & Hie & _ & ->).
  pose proof (wf_weeks _ Hwf _ Hi1).
  pose proof (numbered_ew2i _ _ (wf_numbered _ Hwf) _ _ Hie).
  apply (numbered_i2ew _ _ (wf_numbered _ Hwf)). lia.
Qed.

(** *** The calendar and the solve, as the fit needs them *)

(** The year and the week of the calendar week numbered [i]. *)
Definition week_at (self : ISCH) (i : Z) : Z * Z :=
  match i2ew self !! i with
  | Some ew => split_epiweek ew
  | None => (0%Z, 0%Z)
  end.

(** The number of weeks of a year. *)
Definition year_length (y : Z) : Z := Z.pos (get_num_weeks y).

(** What is assumed of the epiweek calendar at the week [ew], numbered [i]:
    its week number lies within its year, a year has 52 or 53 weeks,
    [add_epiweeks] leads to the weeks numbered next, and the week after it is
    the next week of the year or the first week of the next year. *)
Record calendar_week (self : ISCH) (i ew : Z) : Prop := CalendarWeek {
  week_in_year :
    (1 ≤ (split_epiweek ew).2 ≤ year_length (split_epiweek ew).1)%Z;
  year_52_53 : (52 ≤ year_length (split_epiweek ew).1 ≤ 53)%Z;
  weeks_ahead :
    ∀ h ew', (0 ≤ h ≤ 3)%Z → i2ew self !! (i + h)%Z = Some ew' → add_epiweeks ew h = ew';
  next_week :
    ∀ ew', i2ew self !! (i + 1)%Z = Some ew' →
      split_epiweek ew'
      = if decide ((split_epiweek ew).2 < year_length (split_epiweek ew).1)%Z
        then ((split_epiweek ew).1, ((split_epiweek ew).2 + 1)%Z)
        else (((split_epiweek ew).1 + 1)%Z, 1%Z)
}.

(** The calendar of the object is an epiweek calendar. *)
Definition on_calendar (self : ISCH) : Prop :=
  ∀ i ew, i2ew self !! i = Some ew → calendar_week self i ew.

(** The same, as a check that can be run on an object. *)
Definition calendar_week_check (self : ISCH) (i ew : Z) : bool :=
  bool_decide (1 ≤ (split_epiweek ew).2 ≤ year_length (split_epiweek ew).1)%Z
  && bool_decide (52 ≤ year_length (split_epiweek ew).1 ≤ 53)%Z
  && forallb (λ h, match i2ew self !! (i + h)%Z with
                   | Some ew' => bool_decide (add_epiweeks ew h = ew')
                   | None => true
                   end) [0%Z; 1%Z; 2%Z; 3%Z]
  && match i2ew self !! (i + 1)%Z with
     | Some ew' =>
         bool_decide
           (split_epiweek ew'
            = if decide ((split_epiweek ew).2 < year_length (split_epiweek ew).1)%Z
              then ((split_epiweek ew).1, ((split_epiweek ew).2 + 1)%Z)
              else (((split_epiweek ew).1 + 1)%Z, 1%Z))
     | None => true
     end.

(** The product of a row with a vector of coefficients. *)
Definition row_dot (x v : list R) : R := foldr Rplus 0%R (zip_with Rmult x v).

(** The [k] columns of [X] are linearly independent: the zero vector alone
    is orthogonal to every row. *)
Definition full_column_rank (k : nat) (X : list (list R)) : Prop :=
  ∀ v, length v = k → (∀ x, x ∈ X → row_dot x v = 0%R) → ∀ c, c ∈ v → c = 0%R.

(** What is assumed of numpy, in exact arithmetic: on rows of seven entries
    with one label each, [inv(X.T X)] and the products around it return when
    the columns of [X] are linearly independent, which is when [X.T X] has an
    inverse. *)
Definition solves_full_rank : Prop :=
  ∀ X Y, Forall (λ x, length x = 7%nat) X → length Y = length X →
         full_column_rank 7 X → is_Ok (normal_equations X Y).

(** The holiday flag [h] of the week numbered [i]. *)
Definition flag (self : ISCH) (i h : Z) : R :=
  if decide ((week_at self (i + h)).2 = 1%Z) then 1%R else 0%R.

Lemma calendar_week_check_sound (self : ISCH) :
  map_Forall (λ i ew, calendar_week_check self i ew = true) (i2ew self) → on_calendar self.
Proof.
  intros Hall i ew Hew. specialize (Hall i ew Hew). unfold calendar_week_check in Hall.
  apply andb_prop in Hall as [Hall Hnext]. apply andb_prop in Hall as [Hall Hahead].
  apply andb_prop in Hall as [Hin Hlen].
  apply bool_decide_eq_true in Hin, Hlen. split; [done|done| |].
  - intros h ew' Hh Hew'. rewrite forallb_forall in Hahead.
    assert (Hcase : h = 0%Z ∨ h = 1%Z ∨ h = 2%Z ∨ h = 3%Z) by lia.
    specialize (Hahead h). rewrite Hew' in Hahead.
    apply (proj1 (bool_decide_eq_true _)), Hahead.
    destruct Hcase as [->|[->|[->| ->]]]; cbn; auto.
  - intros ew' Hew'. rewrite Hew' in Hnext. by apply bool_decide_eq_true in Hnext.
Qed.

Lemma week_run (self : ISCH) (i : Z) (k : nat) (y w : Z) :
  on_calendar self →
  (∀ j, (i ≤ j ≤ i + Z.of_nat k)%Z → is_Some (i2ew self !! j)) →
  week_at self i = (y, w) →
  (w + Z.of_nat k ≤ year_length y)%Z →
  week_at self (i + Z.of_nat k) = (y, (w + Z.of_nat k)%Z).
Proof.
  intros Hcal. induction k as [|k IH]; intros Hrows Hstart Hfit.
  - by rewrite !Z.add_0_r.
  - assert (Hk : week_at self (i + Z.of_nat k) = (y, (w + Z.of_nat k)%Z)).
    { apply IH; [|done|lia]. intros j Hj. apply Hrows. lia. }
    destruct (Hrows (i + Z.of_nat k)%Z) as [ew Hew]; [lia|].
    destruct (Hrows (i + Z.of_nat k + 1)%Z) as [ew' Hew']; [lia|].
    unfold week_at in Hk |- *. rewrite Hew in Hk.
    replace (i + Z.of_nat (S k))%Z with (i + Z.of_nat k + 1)%Z by lia. rewrite Hew'.
    rewrite (next_week _ _ _ (Hcal _ _ Hew) _ Hew'), Hk. cbn [fst snd].
    rewrite decide_True by lia. f_equal. lia.
Qed.

Lemma week_year_start (self : ISCH) (i y w : Z) :
  on_calendar self →
  (∀ j, (i ≤ j ≤ i + (year_length y - w + 1))%Z → is_Some (i2ew self !! j)) →
  week_at self i = (y, w) →
  (1 ≤ w ≤ year_length y)%Z →
  week_at self (i + (year_length y - w + 1)) = ((y + 1)%Z, 1%Z).
Proof.
  intros Hcal Hrows Hstart Hw.
  assert (Hlast : week_at self (i + Z.of_nat (Z.to_nat (year_length y - w)))
                  = (y, (w + Z.of_nat (Z.to_nat (year_length y - w)))%Z)).
  { apply week_run; [done| |done|lia]. intros j Hj. apply Hrows. lia. }
  rewrite Z2Nat.id in Hlast by lia.
  destruct (Hrows (i + (year_length y - w))%Z) as [ew Hew]; [lia|].
  destruct (Hrows (i + (year_length y - w) + 1)%Z) as [ew' Hew']; [lia|].
  unfold week_at in Hlast |- *. rewrite Hew in Hlast.
  replace (i + (year_length y - w + 1))%Z with (i + (year_length y - w) + 1)%Z by lia.
  rewrite Hew', (next_week _ _ _ (Hcal _ _ Hew) _ Hew'), Hlast. cbn [fst snd].
  rewrite decide_False by lia. done.
Qed.

Lemma week_at_calendar (self : ISCH) (i : Z) :
  on_calendar self → is_Some (i2ew self !! i) →
  (1 ≤ (week_at self i).2 ≤ year_length (week_at self i).1)%Z
  ∧ (52 ≤ year_length (week_at self i).1 ≤ 53)%Z.
Proof.
  intros Hcal [ew Hew]. unfold week_at. rewrite Hew.
  split; [apply (week_in_year _ _ _ (Hcal _ _ Hew))|apply (year_52_53 _ _ _ (Hcal _ _ Hew))].
Qed.

(** Seventy weeks in a row hold the first week of a year with three weeks
    before it and six after it. *)
Lemma year_start_in_window (self : ISCH) (i1 : Z) :
  on_calendar self →
  (∀ j, (i1 ≤ j ≤ i1 + 69)%Z → is_Some (i2ew self !! j)) →
  ∃ p y, (i1 + 3 ≤ p ≤ i1 + 55)%Z
         ∧ (52 ≤ year_length y ≤ 53)%Z
         ∧ (∀ k, (0 ≤ k ≤ 6)%Z → week_at self (p + k) = (y, (1 + k)%Z))
         ∧ (∀ j, (1 ≤ j ≤ 3)%Z → (50 ≤ (week_at self (p - j)).2)%Z).
Proof.
  intros Hcal Hrows.
  assert (Hyear : ∀ q y, (i1 ≤ q ≤ i1 + 55)%Z → week_at self q = (y, 1%Z) →
                         (52 ≤ year_length y ≤ 53)%Z
                         ∧ ∀ k, (0 ≤ k ≤ 6)%Z → week_at self (q + k) = (y, (1 + k)%Z)).
  { intros q y Hq Hstart.
    destruct (week_at_calendar self q Hcal) as [_ Hlen]; [apply Hrows; lia|].
    rewrite Hstart in Hlen. cbn [fst] in Hlen. split; [done|]. intros k Hk.
    replace k with (Z.of_nat (Z.to_nat k)) by lia.
    apply week_run; [done| |done|lia]. intros j Hj. apply Hrows. lia. }
  assert (Hbefore : ∀ q y w, (i1 ≤ q)%Z → week_at self q = (y, w) →
                             (1 ≤ w ≤ year_length y)%Z → (52 ≤ year_length y ≤ 53)%Z →
                             (q + (year_length y - w + 1) ≤ i1 + 55)%Z →
                             ∀ j, (1 ≤ j ≤ 3)%Z → (q ≤ q + (year_length y - w + 1) - j)%Z →
                                  (50 ≤ (week_at self (q + (year_length y - w + 1) - j)).2)%Z).
  { intros q y w Hq Hstart Hw Hlen Hend j Hj Hback.
    replace (q + (year_length y - w + 1) - j)%Z
      with (q + Z.of_nat (Z.to_nat (year_length y - w + 1 - j)))%Z by lia.
    rewrite (week_run self q _ y w Hcal); [cbn [snd]; lia| |done|lia].
    intros i Hi. apply Hrows. lia. }
  destruct (week_at self i1) as [y0 w0] eqn:Hstart.
  destruct (week_at_calendar self i1 Hcal) as [Hw0 Hlen0]; [apply Hrows; lia|].
  rewrite Hstart in Hw0, Hlen0. cbn [fst snd] in Hw0, Hlen0.
  assert (Hnext : week_at self (i1 + (year_length y0 - w0 + 1)) = ((y0 + 1)%Z, 1%Z)).
  { apply week_year_start; [done| |done|done]. intros j Hj. apply Hrows. lia. }
  destruct (decide (3 ≤ year_length y0 - w0 + 1)%Z) as [Hfar|Hnear].
  - exists (i1 + (year_length y0 - w0 + 1))%Z, (y0 + 1)%Z.
    destruct (Hyear (i1 + (year_length y0 - w0 + 1))%Z (y0 + 1)%Z) as [Hlen Hafter];
      [lia|done|].
    split; [lia|]. split; [done|]. split; [done|]. intros j Hj.
    apply (Hbefore i1 y0 w0); [lia|done|done|done|lia|done|lia].
  - destruct (Hyear (i1 + (year_length y0 - w0 + 1))%Z (y0 + 1)%Z) as [Hlen1 _];
      [lia|done|].
    set (q := (i1 + (year_length y0 - w0 + 1))%Z) in *.
    assert (Hnext2 : week_at self (q + (year_length (y0 + 1) - 1 + 1))
                     = ((y0 + 1 + 1)%Z, 1%Z)).
    { apply week_year_start; [done| |done|lia]. intros j Hj. apply Hrows. lia. }
    exists (q + (year_length (y0 + 1) - 1 + 1))%Z, (y0 + 1 + 1)%Z.
    destruct (Hyear (q + (year_length (y0 + 1) - 1 + 1))%Z (y0 + 1 + 1)%Z)
      as [Hlen Hafter]; [lia|done|].
    split; [lia|]. split; [done|]. split; [done|]. intros j Hj.
    apply (Hbefore q (y0 + 1)%Z 1%Z); [lia|done|lia|done|lia|done|lia].
Qed.

(** The feature row of a week of the window, by the week numbers around it. *)
Lemma instance_features (self : ISCH) (i : Z) :
  well_formed self → on_calendar self →
  (∀ h, (0 ≤ h ≤ 3)%Z → is_Some (i2ew self !! (i + h)%Z)) →
  (instance_of self i).1
  = match data self !! (i + 1)%Z with
    | Some _ =>
        [1%R; flag self i 0; flag self i 1; flag self i 2; flag self i 3;
         sin (PI * 2 * IZR (week_at self i).2 / IZR (year_length (week_at self i).1));
         cos (PI * 2 * IZR (week_at self i).2 / IZR (year_length (week_at self i).1))]
    | None => []
    end.
Proof.
  intros [Hnum _] Hcal Hrows.
  destruct (Hrows 0%Z) as [ew Hew]; [lia|]. rewrite Z.add_0_r in Hew.
  destruct (numbered_back _ _ Hnum i ew Hew) as [j Hj].
  assert (Hflag : ∀ h, (0 ≤ h ≤ 3)%Z →
            (if decide ((split_epiweek (add_epiweeks ew h)).2 = 1%Z) then 1%R else 0%R)
            = flag self i h).
  { intros h Hh. destruct (Hrows h Hh) as [ew' Hew'].
    rewrite (weeks_ahead _ _ _ (Hcal _ _ Hew) h ew' Hh Hew').
    unfold flag, week_at. by rewrite Hew'. }
  unfold instance_of, training_instance, at_key. rewrite Hew. cbn [mbind result_bind].
  unfold _get_features, at_key. rewrite Hj. cbn [mbind result_bind map].
  rewrite !Hflag by lia. unfold week_at, year_length. rewrite Hew.
  destruct (split_epiweek ew) as [y w]. cbn [mbind result_bind fst snd app].
  by destruct (data self !! (i + 1)%Z).
Qed.

Lemma cos_lt_1_small (t : R) : (0 < t < PI)%R → (cos t < 1)%R.
Proof.
  intros [Ht0 Ht1].
  replace t with (2 * (t / 2))%R by lra. rewrite cos_2a_sin.
  assert (0 < sin (t / 2))%R by (apply sin_gt_0; lra).
  nra.
Qed.

(** Three weeks in a row of one year pin down the intercept and the two
    seasonal coefficients. *)
Lemma three_weeks_independent (t a c d : R) :
  (0 < t < PI)%R →
  (a + c * sin (2 * t) + d * cos (2 * t) = 0)%R →
  (a + c * sin (3 * t) + d * cos (3 * t) = 0)%R →
  (a + c * sin (4 * t) + d * cos (4 * t) = 0)%R →
  a = 0%R ∧ c = 0%R ∧ d = 0%R.
Proof.
  intros Ht E2 E3 E4.
  assert (Hs : (0 < sin t)%R) by (apply sin_gt_0; lra).
  assert (Hp : (cos t < 1)%R) by (by apply cos_lt_1_small).
  replace (2 * t)%R with (3 * t - t)%R in E2 by lra.
  replace (4 * t)%R with (3 * t + t)%R in E4 by lra.
  rewrite sin_minus, cos_minus in E2. rewrite sin_plus, cos_plus in E4.
  pose proof (sin2_cos2 (3 * t)) as Hunit. unfold Rsqr in Hunit.
  set (S3 := sin (3 * t)) in *. set (C3 := cos (3 * t)) in *.
  set (s := sin t) in *. set (p := cos t) in *.
  assert (Ha : (a * (1 - p) = 0)%R) by nra.
  assert (a = 0%R) as -> by nra.
  assert (H1 : (c * S3 + d * C3 = 0)%R) by lra.
  assert (H2 : (s * (c * C3 - d * S3) = 0)%R) by nra.
  assert (H3 : (c * C3 - d * S3 = 0)%R) by nra.
  assert (c = 0%R) by nra. assert (d = 0%R) by nra. done.
Qed.

Lemma flag_value (self : ISCH) (p r h : Z) :
  (∀ m, (-3 ≤ m ≤ 6)%Z → (week_at self (p + m)).2 = 1%Z ↔ m = 0%Z) →
  (-3 ≤ r ≤ 3)%Z → (0 ≤ h ≤ 3)%Z →
  flag self (p + r) h = if decide (r + h = 0)%Z then 1%R else 0%R.
Proof.
  intros Hone Hr Hh. unfold flag. replace (p + r + h)%Z with (p + (r + h))%Z by lia.
  destruct (decide (r + h = 0)%Z) as [Hzero|Hzero].
  - rewrite decide_True; [done|]. apply Hone; lia.
  - rewrite decide_False; [done|]. rewrite Hone; lia.
Qed.

(** Seventy labelled weeks in a row give a matrix of independent columns. *)
Lemma window_full_rank (self : ISCH) (i1 i2 : Z) :
  well_formed self → on_calendar self →
  (∀ j, (i1 ≤ j ≤ i2)%Z → is_Some (i2ew self !! j)) →
  labelled self i1 i2 →
  (i1 + 69 ≤ i2)%Z →
  full_column_rank 7 (window_X self i1 i2).
Proof.
  intros Hwf Hcal Hrows Hlab Hlong v Hv Horth.
  destruct (year_start_in_window self i1 Hcal) as (p & y & Hp & Hlen & Hafter & Hbefore).
  { intros j Hj. apply Hrows. lia. }
  assert (Hone : ∀ m, (-3 ≤ m ≤ 6)%Z → (week_at self (p + m)).2 = 1%Z ↔ m = 0%Z).
  { intros m Hm. destruct (decide (0 ≤ m)%Z) as [Hpos|Hneg].
    - rewrite (Hafter m) by lia. cbn [snd]. lia.
    - pose proof (Hbefore (- m)%Z) as Hweek.
      replace (p - - m)%Z with (p + m)%Z in Hweek by lia. lia. }
  assert (Hrow : ∀ r, (-3 ≤ r ≤ 3)%Z →
    row_dot [1%R;
             if decide (r + 0 = 0)%Z then 1%R else 0%R;
             if decide (r + 1 = 0)%Z then 1%R else 0%R;
             if decide (r + 2 = 0)%Z then 1%R else 0%R;
             if decide (r + 3 = 0)%Z then 1%R else 0%R;
             sin (PI * 2 * IZR (week_at self (p + r)).2
                  / IZR (year_length (week_at self (p + r)).1));
             cos (PI * 2 * IZR (week_at self (p + r)).2
                  / IZR (year_length (week_at self (p + r)).1))] v = 0%R).
  { intros r Hr.
    assert (Hfeat : (instance_of self (p + r)).1
                    = match data self !! (p + r + 1)%Z with
                      | Some _ =>
                          [1%R; flag self (p + r) 0; flag self (p + r) 1;
                           flag self (p + r) 2; flag self (p + r) 3;
                           sin (PI * 2 * IZR (week_at self (p + r)).2
                                / IZR (year_length (week_at self (p + r)).1));
                           cos (PI * 2 * IZR (week_at self (p + r)).2
                                / IZR (year_length (week_at self (p + r)).1))]
                      | None => []
                      end).
    { apply instance_features; [done|done|]. intros h Hh. apply Hrows. lia. }
    destruct (Hlab (p + r)%Z) as [label Hlabel]; [lia|]. rewrite Hlabel in Hfeat.
    rewrite !(flag_value self p r _ Hone) in Hfeat by lia.
    rewrite <- Hfeat. apply Horth. unfold window_X. apply list_elem_of_fmap.
    exists (p + r)%Z. split; [done|]. apply elem_of_seqZ. lia. }
  destruct v as [|a [|b0 [|b1 [|b2 [|b3 [|c [|d [|]]]]]]]]; try done.
  unfold row_dot in Hrow. cbn [zip_with foldr] in Hrow.
  assert (HN : (52 <= IZR (year_length y) <= 53)%R).
  { split; [apply (IZR_le 52)|apply (IZR_le _ 53)]; lia. }
  set (t := (2 * PI / IZR (year_length y))%R).
  assert (Ht : (0 < t < PI)%R).
  { pose proof PI_RGT_0 as Hpi. unfold t. split.
    - apply Rdiv_lt_0_compat; lra.
    - apply (Rmult_lt_reg_r (IZR (year_length y))); [lra|].
      unfold Rdiv. rewrite Rmult_assoc, Rinv_l by lra. nra. }
  assert (Hangle : ∀ k : Z, (1 ≤ k ≤ 3)%Z →
            (a + c * sin (IZR (1 + k) * t) + d * cos (IZR (1 + k) * t) = 0)%R).
  { intros k Hk. pose proof (Hrow k ltac:(lia)) as Hk0.
    rewrite (Hafter k) in Hk0 by lia. cbn [fst snd] in Hk0.
    repeat first [rewrite decide_True in Hk0 by lia | rewrite decide_False in Hk0 by lia].
    replace (PI * 2 * IZR (1 + k) / IZR (year_length y))%R with (IZR (1 + k) * t)%R in Hk0
      by (unfold t; field; lra).
    lra. }
  pose proof (Hangle 1%Z ltac:(lia)) as E2. pose proof (Hangle 2%Z ltac:(lia)) as E3.
  pose proof (Hangle 3%Z ltac:(lia)) as E4.
  change (IZR (1 + 1)) with 2%R in E2. change (IZR (1 + 2)) with 3%R in E3.
  change (IZR (1 + 3)) with 4%R in E4.
  destruct (three_weeks_independent t a c d Ht E2 E3 E4) as (-> & -> & ->).
  assert (Hflag : ∀ r, (-3 ≤ r ≤ 0)%Z →
            ((if decide (r + 0 = 0)%Z then 1 else 0) * b0
             + ((if decide (r + 1 = 0)%Z then 1 else 0) * b1
                + ((if decide (r + 2 = 0)%Z then 1 else 0) * b2
                   + (if decide (r + 3 = 0)%Z then 1 else 0) * b3)) = 0)%R).
  { intros r Hr. pose proof (Hrow r ltac:(lia)) as Hr0. lra. }
  pose proof (Hflag 0%Z ltac:(lia)) as F0. pose proof (Hflag (-1)%Z ltac:(lia)) as F1.
  pose proof (Hflag (-2)%Z ltac:(lia)) as F2. pose proof (Hflag (-3)%Z ltac:(lia)) as F3.
  repeat first [rewrite decide_True in F0 by lia | rewrite decide_False in F0 by lia].
  repeat first [rewrite decide_True in F1 by lia | rewrite decide_False in F1 by lia].
  repeat first [rewrite decide_True in F2 by lia | rewrite decide_False in F2 by lia].
  repeat first [rewrite decide_True in F3 by lia | rewrite decide_False in F3 by lia].
  intros c0 Hc0.
  repeat (apply elem_of_cons in Hc0 as [->|Hc0]; [lra|]).
  by apply elem_of_nil in Hc0.
Qed.

Lemma instance_length (self : ISCH) (i : Z) :
  well_formed self →
  (0 ≤ i < Z.of_nat (size (ew2i self)))%Z →
  is_Some (data self !! (i + 1)%Z) →
  length (instance_of self i).1 = 7%nat.
Proof.
  intros [Hnum _] Hi [y Hy]. unfold instance_of, training_instance, at_key.
  destruct (numbered_i2ew _ _ Hnum i Hi) as [ew Hew]. rewrite Hew. simpl.
  destruct (numbered_back _ _ Hnum i ew Hew) as [j Hj].
  unfold _get_features, at_key. rewrite Hj. simpl.
  destruct (split_epiweek ew) as [yr w]. simpl. by rewrite Hy.
Qed.

(** *** Claim about the training window *)

(** C4, amended. For a well-formed object whose resolved window [i1 .. i2]
    is not empty and every week of which has its label (the observation of
    the following week): with fewer than [max(10 * 7, 52) = 70] weeks in the
    window the call raises the exception that reports the count found and
    the 70 required; with exactly 70 the fit succeeds: the check is passed,
    nothing is truncated, the solve returns a model and the call returns the
    rows, the labels and that model.  That the solve returns rests on what
    the two libraries behind it do: the calendar of the object is an epiweek
    calendar, and numpy inverts [X.T X] when the columns of [X] are linearly
    independent, which the seventy feature rows are shown to be. *)
Theorem train_window_sufficiency (self : ISCH) (epiweek i1 i2 : Z) :
  well_formed self →
  training_window self epiweek = Ok (i1, i2) →
  (i1 ≤ i2)%Z →
  labelled self i1 i2 →
  ((i2 - i1 + 1 < 70)%Z →
   train self epiweek = Raise (ExceptionFmt msg_found [(i2 - i1 + 1)%Z; 70%Z]))
  ∧ ((i2 - i1 + 1 = 70)%Z →
     on_calendar self →
     solves_full_rank →
     ∃ beta,
       normal_equations (window_X self i1 i2) (window_Y self i1 i2) = Ok beta
       ∧ train self epiweek
         = Ok (trained self epiweek beta,
               (window_X self i1 i2, window_Y self i1 i2, beta))).
Proof.
  intros Hwf Hwin Hle Hlab.
  assert (Htrain : train self epiweek
    = if decide (i2 - i1 + 1 < 70)%Z
      then Raise (ExceptionFmt msg_found [(i2 - i1 + 1)%Z; 70%Z])
      else (model ← normal_equations (last_rows (50 * 7) (window_X self i1 i2))
                                     (last_rows (50 * 7) (window_Y self i1 i2));
            Ok (trained self epiweek model,
                (last_rows (50 * 7) (window_X self i1 i2),
                 last_rows (50 * 7) (window_Y self i1 i2), model)))).
  { unfold train. rewrite Hwin. simpl.
    destruct (decide (i2 < i1)%Z); [lia|].
    destruct (window_end_numbered _ _ _ _ Hwf Hwin Hle) as [ew2 Hew2].
    unfold at_key. rewrite Hew2. simpl.
    rewrite (window_instances _ _ _ _ Hwf Hwin Hlab). simpl.
    rewrite !map_map. fold (window_X self i1 i2). fold (window_Y self i1 i2).
    change (Z.max (10 * 7) 52) with 70%Z. reflexivity. }
  rewrite Htrain. clear Htrain. split; intros Hcount.
  - destruct (decide (i2 - i1 + 1 < 70)%Z); [done|lia].
  - intros Hcal Hsolve. destruct (decide (i2 - i1 + 1 < 70)%Z); [lia|].
    assert (Hlen : ∀ {A} (f : Z → A), length (map f (seqZ i1 (i2 + 1 - i1))) = 70%nat).
    { intros A f. rewrite length_map, length_seqZ. lia. }
    assert (HX : last_rows (50 * 7) (window_X self i1 i2) = window_X self i1 i2).
    { unfold last_rows, window_X. by rewrite Hlen. }
    assert (HY : last_rows (50 * 7) (window_Y self i1 i2) = window_Y self i1 i2).
    { unfold last_rows, window_Y. by rewrite Hlen. }
    rewrite HX, HY.
    destruct (training_window_inv _ _ _ _ Hwin) as (Hi1 & ie & il & Hie & _ & Hi2).
    pose proof (wf_weeks _ Hwf _ Hi1) as Hpos.
    pose proof (numbered_ew2i _ _ (wf_numbered _ Hwf) _ _ Hie) as Hie'.
    assert (Hrows : ∀ j, (i1 ≤ j ≤ i2)%Z → is_Some (i2ew self !! j)).
    { intros j Hj. apply (numbered_i2ew _ _ (wf_numbered _ Hwf)). lia. }
    destruct (Hsolve (window_X self i1 i2) (window_Y self i1 i2)) as [beta Hbeta].
    + unfold window_X. apply Forall_forall. intros x [i [-> Hi]]%list_elem_of_fmap.
      apply elem_of_seqZ in Hi. apply instance_length; [done|lia|]. apply Hlab. lia.
    + unfold window_X, window_Y. by rewrite !Hlen.
    + apply window_full_rank; [done|done|done|done|lia].
    + exists beta. split; [done|]. by rewrite Hbeta.
Qed.

(** *** Further facts about the object *)

Lemma index_weeks_snoc (calendar : list Z) (ew : Z) :
  index_weeks (calendar ++ [ew])
  = (<[ew := Z.of_nat (size (index_weeks calendar).1)]> (index_weeks calendar).1,
     <[Z.of_nat (size (index_weeks calendar).1) := ew]> (index_weeks calendar).2).
Proof.
  unfold index_weeks. rewrite foldl_app. cbn [foldl].
  by destruct (foldl _ _ calendar).
Qed.

(** X19. On a calendar that lists no week twice, the first loop of
    [__init__] numbers the weeks by their position: [ew2i] sends a week to
    its position in the calendar and nothing else, and [i2ew] is the inverse
    of [ew2i]. *)
Theorem index_weeks_positions (calendar : list Z) :
  NoDup calendar →
  size (index_weeks calendar).1 = length calendar
  ∧ (∀ ew i, (index_weeks calendar).1 !! ew = Some i
             ↔ (0 ≤ i)%Z ∧ calendar !! Z.to_nat i = Some ew)
  ∧ (∀ i ew, (index_weeks calendar).2 !! i = Some ew
             ↔ (index_weeks calendar).1 !! ew = Some i).
Proof.
  induction calendar as [|ew calendar IH] using rev_ind; intros Hnd.
  - split; [done|]. split.
    + intros ew i. cbn. rewrite lookup_empty. split; [done|]. by intros [_ ?].
    + intros i ew. cbn. by rewrite !lookup_empty.
  - apply NoDup_app in Hnd as (Hnd & Hnot & _).
    destruct (IH Hnd) as (Hsize & Ha & Hb). rewrite index_weeks_snoc. cbn [fst snd].
    set (ew2i := (index_weeks calendar).1) in *.
    set (i2ew := (index_weeks calendar).2) in *. clearbody ew2i i2ew. rewrite Hsize.
    assert (Hfresh : ew ∉ calendar).
    { intros Hin. apply (Hnot ew Hin). apply list_elem_of_here. }
    assert (Hnone : ew2i !! ew = None).
    { destruct (ew2i !! ew) as [i|] eqn:Hi; [|done]. apply Ha in Hi as [_ Hi].
      by apply list_elem_of_lookup_2 in Hi. }
    assert (Ha' : ∀ ew' i,
      <[ew := Z.of_nat (length calendar)]> ew2i !! ew' = Some i
      ↔ (0 ≤ i)%Z ∧ (calendar ++ [ew]) !! Z.to_nat i = Some ew').
    { intros ew' i. rewrite lookup_insert. destruct (decide (ew = ew')) as [<-|Hne].
      - split.
        + intros [= <-]. split; [lia|]. rewrite Nat2Z.id. apply list_lookup_middle. done.
        + intros [Hi Hlook]. f_equal.
          destruct (decide (Z.to_nat i < length calendar)%nat) as [Hlt|Hge].
          * rewrite lookup_app_l in Hlook by done.
            by apply list_elem_of_lookup_2 in Hlook.
          * apply lookup_lt_Some in Hlook. rewrite length_app in Hlook.
            simpl in Hlook. lia.
      - rewrite Ha. split; intros [Hi Hlook]; (split; [done|]).
        + rewrite lookup_app_l; [done|]. by eapply lookup_lt_Some.
        + destruct (decide (Z.to_nat i < length calendar)%nat) as [Hlt|Hge].
          * by rewrite lookup_app_l in Hlook.
          * rewrite lookup_app_r in Hlook by lia.
            destruct (Z.to_nat i - length calendar)%nat; simpl in Hlook; [|done].
            congruence. }
    split. { rewrite map_size_insert_None by done. rewrite length_app. simpl. lia. }
    split; [exact Ha'|]. intros i ew'. rewrite !lookup_insert.
    destruct (decide (Z.of_nat (length calendar) = i)) as [<-|Hi];
      destruct (decide (ew = ew')) as [<-|He].
    + done.
    + split; [congruence|]. intros Hlook. apply Ha in Hlook as [_ Hlook].
      apply lookup_lt_Some in Hlook. lia.
    + rewrite Hb, Hnone. split; [done|congruence].
    + apply Hb.
Qed.

Lemma store_rows_lookup (ew2i : gmap Z Z) (rx : list target_row) (i : Z) :
  is_Some (store_rows ew2i rx !! i)
  ↔ ∃ row, row ∈ rx ∧ ew2i !! target_epiweek row = Some i.
Proof.
  unfold store_rows. induction rx as [|row rx IH] using rev_ind.
  - cbn. rewrite lookup_empty. split; [by intros [? ?]|].
    by intros (row & Hin%elem_of_nil & _).
  - rewrite foldl_app. cbn [foldl].
    set (data := foldl _ ∅ rx) in *. clearbody data.
    assert (Hold : is_Some (data !! i)
                   → ∃ row0, row0 ∈ rx ++ [row] ∧ ew2i !! target_epiweek row0 = Some i).
    { intros Hi. apply IH in Hi as (row0 & Hin & Hrow0). exists row0.
      split; [|done]. apply elem_of_app. by left. }
    destruct (ew2i !! target_epiweek row) as [j|] eqn:Hj.
    + rewrite lookup_insert_is_Some'. split.
      * intros [<-|Hi]; [|by apply Hold]. exists row. split; [|done].
        apply elem_of_app. right. apply list_elem_of_here.
      * intros (row0 & Hin & Hrow0). apply elem_of_app in Hin as [Hin|Hin].
        -- right. apply IH. by exists row0.
        -- apply list_elem_of_singleton in Hin as ->. left. congruence.
    + split; [done|]. intros (row0 & Hin & Hrow0). apply elem_of_app in Hin as [Hin|Hin].
      * apply IH. by exists row0.
      * apply list_elem_of_singleton in Hin as ->. congruence.
Qed.

Lemma data_keys_strict (data : gmap Z R) :
  StronglySorted Z.lt (merge_sort Z.le (map fst (map_to_list data))).
Proof.
  assert (Hnd : NoDup (merge_sort Z.le (map fst (map_to_list data)))).
  { rewrite merge_sort_Permutation. apply NoDup_fst_map_to_list. }
  pose proof (StronglySorted_merge_sort Z.le (map fst (map_to_list data))) as Hsorted.
  set (keys := merge_sort Z.le (map fst (map_to_list data))) in *. clearbody keys.
  induction Hsorted as [|key keys Hsorted IH Hall]; [constructor|].
  apply NoDup_cons in Hnd as [Hnot Hnd]. constructor; [by apply IH|].
  rewrite Forall_forall in Hall |- *. intros k Hk. specialize (Hall k Hk).
  assert (key ≠ k) by (intros ->; done). lia.
Qed.

(** X20. Whenever the rows of the region can be fetched, [ISCH(region,
    target)] returns an object whose [weeks] are strictly increasing and are
    exactly the numbers of the calendar weeks that some fetched row reports. *)
Theorem new_ISCH_weeks (region target : string) (rx : list target_row) :
  datasetname_targets target region (Epidata_range 199301 202330) = Ok rx →
  ∃ self, new_ISCH region target = Ok self
          ∧ StronglySorted Z.lt (weeks self)
          ∧ ∀ i, i ∈ weeks self
                 ↔ ∃ row, row ∈ rx ∧ ew2i self !! target_epiweek row = Some i.
Proof.
  intros Hrx. unfold new_ISCH. rewrite Hrx. cbn [mbind result_bind].
  destruct (index_weeks (range_epiweeks_inclusive 199301 202330)) as [ew2i i2ew].
  eexists. split; [reflexivity|]. cbn [weeks Isch.ew2i]. split.
  - apply data_keys_strict.
  - intros i. rewrite <- store_rows_lookup, merge_sort_Permutation, list_elem_of_fmap.
    split.
    + intros [[k v] [-> Hin%elem_of_map_to_list]]. by eexists.
    + intros [v Hv]. exists (i, v). split; [done|]. by apply elem_of_map_to_list.
Qed.

(** X21. The feature row of a week of the calendar has seven entries: the
    intercept 1, four holiday flags that are 0 or 1, and a point of the unit
    circle; for a week outside the calendar the call raises [KeyError].
    The argument [valid] plays no part. *)
Theorem get_features_shape (self : ISCH) (ew : Z) (valid : bool) :
  match ew2i self !! ew with
  | None => _get_features self ew valid = Raise KeyError
  | Some _ =>
      ∃ h0 h1 h2 h3 s c : R,
        _get_features self ew valid = Ok [1%R; h0; h1; h2; h3; s; c]
        ∧ Forall (λ h, h = 0%R ∨ h = 1%R) [h0; h1; h2; h3]
        ∧ (s * s + c * c = 1)%R
  end.
Proof.
  unfold _get_features, at_key. destruct (ew2i self !! ew) as [i|]; [|done].
  cbn [mbind result_bind]. destruct (split_epiweek ew) as [y w].
  do 6 eexists. split; [reflexivity|]. split.
  - repeat (apply Forall_cons; split; [destruct (decide _); [by right|by left]|]).
    apply Forall_nil_2.
  - pose proof (sin2_cos2 (PI * 2 * IZR w / IZR (Z.pos (get_num_weeks y)))) as Hunit.
    unfold Rsqr in Hunit. exact Hunit.
Qed.

Lemma drop_seqZ (m n k : Z) :
  (0 ≤ k ≤ n)%Z → drop (Z.to_nat k) (seqZ m n) = seqZ (m + k) (n - k).
Proof.
  intros Hk. replace n with (k + (n - k))%Z at 1 by lia.
  rewrite seqZ_app by lia. apply drop_app_length'. rewrite length_seqZ. lia.
Qed.

Lemma last_rows_window {A} (f : Z → A) (i1 i2 : Z) (n : nat) :
  (i1 ≤ i2)%Z → (0 < n)%nat →
  last_rows n (map f (seqZ i1 (i2 + 1 - i1)))
  = map f (seqZ (Z.max i1 (i2 + 1 - Z.of_nat n)) (i2 + 1 - Z.max i1 (i2 + 1 - Z.of_nat n))).
Proof.
  intros Hle Hn. unfold last_rows. rewrite length_map, length_seqZ.
  change (map f) with (fmap (M := list) f). rewrite <- fmap_drop. f_equal.
  replace (Z.to_nat (i2 + 1 - i1) - n)%nat
    with (Z.to_nat (Z.max i1 (i2 + 1 - Z.of_nat n) - i1)) by lia.
  rewrite drop_seqZ by lia. f_equal; lia.
Qed.

Lemma train_labelled (self : ISCH) (epiweek i1 i2 : Z) :
  well_formed self →
  training_window self epiweek = Ok (i1, i2) →
  labelled self i1 i2 →
  (70 ≤ i2 - i1 + 1)%Z →
  train self epiweek
  = (beta ← normal_equations (last_rows 350 (window_X self i1 i2))
                             (last_rows 350 (window_Y self i1 i2));
     Ok (trained self epiweek beta,
         (last_rows 350 (window_X self i1 i2), last_rows 350 (window_Y self i1 i2), beta))).
Proof.
  intros Hwf Hwin Hlab Hcount. assert (Hle : (i1 ≤ i2)%Z) by lia.
  unfold train. rewrite Hwin. simpl.
  destruct (decide (i2 < i1)%Z); [lia|].
  destruct (window_end_numbered _ _ _ _ Hwf Hwin Hle) as [ew2 Hew2].
  unfold at_key. rewrite Hew2. simpl.
  rewrite (window_instances _ _ _ _ Hwf Hwin Hlab). simpl.
  rewrite !map_map. fold (window_X self i1 i2). fold (window_Y self i1 i2).
  change (Z.max (10 * 7) 52) with 70%Z.
  destruct (decide (i2 - i1 + 1 < 70)%Z); [lia|]. reflexivity.
Qed.

(** X22. For a well-formed object whose window [i1 .. i2] holds at least 70
    weeks, each with its label, [train] fits the model on the most recent
    weeks only: on the instances of the weeks [max(i1, i2 - 349) .. i2], at
    most 350 of them, and it returns what the normal-equation solve returns
    on them. *)
Theorem train_recent_weeks (self : ISCH) (epiweek i1 i2 : Z) :
  well_formed self →
  training_window self epiweek = Ok (i1, i2) →
  labelled self i1 i2 →
  (70 ≤ i2 - i1 + 1)%Z →
  train self epiweek
  = (beta ← normal_equations (window_X self (Z.max i1 (i2 - 349)) i2)
                             (window_Y self (Z.max i1 (i2 - 349)) i2);
     Ok (trained self epiweek beta,
         (window_X self (Z.max i1 (i2 - 349)) i2,
          window_Y self (Z.max i1 (i2 - 349)) i2, beta)))
  ∧ (length (window_X self (Z.max i1 (i2 - 349)) i2) ≤ 350)%nat.
Proof.
  intros Hwf Hwin Hlab Hcount. assert (Hle : (i1 ≤ i2)%Z) by lia.
  rewrite (train_labelled _ _ _ _ Hwf Hwin Hlab Hcount).
  unfold window_X, window_Y.
  rewrite !(last_rows_window _ i1 i2 350 Hle) by lia.
  replace (i2 + 1 - Z.of_nat 350)%Z with (i2 - 349)%Z by lia.
  split; [reflexivity|]. rewrite length_map, length_seqZ. lia.
Qed.

Lemma get_features_Ok (self : ISCH) (ew : Z) (valid : bool) (i : Z) :
  ew2i self !! ew = Some i →
  ∃ x, _get_features self ew valid = Ok x ∧ length x = 7%nat.
Proof.
  intros Hi. unfold _get_features, at_key. rewrite Hi. cbn [mbind result_bind].
  destruct (split_epiweek ew) as [y w]. by eexists.
Qed.

Lemma train_Ok_inv (self self' : ISCH) (epiweek : Z) (X : list (list R)) (Y beta : list R) :
  train self epiweek = Ok (self', (X, Y, beta)) →
  is_Some (ew2i self !! epiweek) ∧ self' = trained self epiweek beta.
Proof.
  unfold train, training_window.
  destruct (decide (ew2i self !! epiweek = None)) as [|Hsome]; [done|].
  destruct (py_index (weeks self) 2) as [i1|]; [|done]. cbn [mbind result_bind].
  destruct (at_key (ew2i self) epiweek) as [ie|]; [|done]. cbn [mbind result_bind].
  destruct (at_key (ew2i self) DataSource.LAST_DATA_EPIWEEK) as [il|]; [|done].
  cbn [mbind result_bind].
  destruct (decide (Z.min (ie - 5) (il - 1) < i1)%Z); [done|].
  destruct (at_key (i2ew self) _) as [ew2|]; [|done]. cbn [mbind result_bind].
  destruct (map_raising _ _) as [XY|]; [|done]. cbn [mbind result_bind].
  destruct (decide (_ < _)%Z); [done|].
  destruct (normal_equations _ _) as [model|]; [|done]. cbn [mbind result_bind].
  intros [= <- _ _ <-]. split; [|done].
  by destruct (ew2i self !! epiweek).
Qed.

(** X23. When [train] goes through for the week and the solve has returned
    seven coefficients, [predict] with [train=True] returns the trained
    object and the product of the week's feature row with the coefficients;
    it does not raise the exception about future data. *)
Theorem predict_trains_first (self self' : ISCH) (epiweek : Z) (valid : bool)
    (X : list (list R)) (Y beta : list R) :
  train self epiweek = Ok (self', (X, Y, beta)) →
  length beta = 7%nat →
  ∃ x, _get_features self epiweek valid = Ok x
       ∧ predict self epiweek true valid
         = Ok (self', foldr Rplus 0%R (zip_with Rmult x beta)).
Proof.
  intros Htrain Hbeta. destruct (train_Ok_inv _ _ _ _ _ _ Htrain) as [[i Hi] ->].
  destruct (get_features_Ok self epiweek valid i Hi) as (x & Hx & Hlen).
  exists x. split; [exact Hx|]. unfold predict. rewrite Htrain.
  cbn [mbind result_bind fst training_week model trained].
  destruct (decide (epiweek < epiweek)%Z); [lia|].
  assert (Hsame : _get_features (trained self epiweek beta) epiweek valid
                  = _get_features self epiweek valid) by reflexivity.
  rewrite Hsame, Hx. cbn [mbind result_bind].
  destruct (decide (length x = length beta)) as [_|Hne]; [done|].
  by rewrite Hbeta, Hlen in Hne.
Qed.

(** X24. [ISCH(region, target).predict(epiweek, train=False)] never
    returns: on the object as [__init__] leaves it, the model and the
    training week are not set, and reading them raises [AttributeError]. *)
Theorem predict_untrained (region target : string) (epiweek : Z) (valid : bool) :
  (self ← new_ISCH region target; predict self epiweek false valid)
  = (self ← new_ISCH region target; Raise AttributeError).
Proof.
  unfold new_ISCH. destruct (datasetname_targets _ _ _) as [rx|]; [|done].
  cbn [mbind result_bind].
  by destruct (index_weeks (range_epiweeks_inclusive 199301 202330)) as [ew2i i2ew].
Qed.

End isch.

(** *** Two regions on which the claim is exercised *)

Definition demo_solver (X : list (list R)) (Y : list R) : result (list R) :=
  Ok [0%R; 0%R; 0%R; 0%R; 0%R; 0%R; 0%R].

(** A region that reported every week from 2010w01 to 2011w30. *)
Definition steady_targets (target region : string) (weeks : Z * Z)
  : result (list target_row) :=
  Ok (DemoCalendar.rows_of (DemoCalendar.range_epiweeks_inclusive 201001 201130)).

(** A region that reported the first ten weeks of 2010, week 5 apart. *)
Definition gappy_targets (target region : string) (weeks : Z * Z)
  : result (list target_row) :=
  Ok (DemoCalendar.rows_of
        [201001; 201002; 201003; 201004; 201006; 201007; 201008; 201009; 201010]%Z).

Definition demo_new (targets : string → string → Z * Z → result (list target_row))
  : result ISCH :=
  new_ISCH DemoCalendar.range_epiweeks_inclusive (Z * Z) DemoCalendar.Epidata_range
    targets "ca" "ov".

Definition built (r : result ISCH) : ISCH :=
  match r with
  | Ok self => self
  | Raise _ => MkISCH "" "" ∅ ∅ ∅ [] None None
  end.

Definition steady : ISCH := built (demo_new steady_targets).
Definition gappy : ISCH := built (demo_new gappy_targets).

Definition demo_train (self : ISCH) (epiweek : Z)
  : result (ISCH * (list (list R) * list R * list R)) :=
  train DemoCalendar.add_epiweeks DemoCalendar.split_epiweek DemoCalendar.get_num_weeks
    demo_solver self epiweek.

Lemma built_well_formed (targets : string → string → Z * Z → result (list target_row))
    (rx : list target_row) :
  targets "ov" "ca" (DemoCalendar.Epidata_range 199301 202330) = Ok rx →
  well_formed (built (demo_new targets)).
Proof.
  intros Hrx. unfold demo_new.
  destruct (new_ISCH_Ok DemoCalendar.range_epiweeks_inclusive (Z * Z)
              DemoCalendar.Epidata_range targets "ca" "ov" rx Hrx) as [self Hself].
  rewrite Hself. unfold built. by eapply new_ISCH_well_formed.
Qed.

Lemma steady_well_formed : well_formed steady.
Proof. exact (built_well_formed steady_targets _ eq_refl). Qed.

Lemma gappy_well_formed : well_formed gappy.
Proof. exact (built_well_formed gappy_targets _ eq_refl). Qed.

Lemma labelled_list (self : ISCH) (i1 i2 : Z) :
  Forall (λ i, is_Some (data self !! (i + 1)%Z)) (seqZ i1 (i2 + 1 - i1)) →
  labelled self i1 i2.
Proof.
  intros Hall i Hi. rewrite Forall_forall in Hall. apply Hall, elem_of_seqZ. lia.
Qed.

Lemma steady_labelled (i2 : Z) : (i2 ≤ 955)%Z → labelled steady 886 i2.
Proof.
  intros Hi2 i Hi.
  assert (886 ≤ i ≤ 955)%Z as Hi' by lia. clear Hi Hi2. revert i Hi'.
  apply labelled_list. apply (bool_decide_unpack _). vm_compute. exact I.
Qed.

(** C4, as the spec states it, fails on the region with a gap: the
    window of 13 weeks is not empty and holds fewer than 70 instances, and
    the call raises [KeyError] on the missing label before it reaches the
    check. *)
Lemma train_with_gap_raises_KeyError :
  ¬ ∀ (self : ISCH) (epiweek i1 i2 : Z),
      well_formed self →
      training_window self epiweek = Ok (i1, i2) →
      (i1 ≤ i2)%Z →
      (i2 - i1 + 1 < 70)%Z →
      demo_train self epiweek = Raise (ExceptionFmt msg_found [(i2 - i1 + 1)%Z; 70%Z]).
Proof.
  intros Hclaim.
  assert (886 ≤ 898)%Z as Hle by lia.
  assert (898 - 886 + 1 < 70)%Z as Hcount by lia.
  assert (training_window gappy 201020 = Ok (886%Z, 898%Z)) as Hwin
    by (vm_compute; reflexivity).
  assert (demo_train gappy 201020 = Raise KeyError) as Hraise
    by (vm_compute; reflexivity).
  pose proof (Hclaim gappy 201020%Z 886%Z 898%Z gappy_well_formed Hwin Hle Hcount)
    as Habsurd.
  exact (eq_ind (Raise KeyError)
           (λ r, match r with Raise KeyError => True | _ => False end) I _
           (eq_trans (eq_sym Hraise) Habsurd)).
Qed.

(** The demonstration calendar, of 52 weeks a year, is an epiweek calendar
    along the whole of the object. *)
Lemma steady_on_calendar :
  on_calendar DemoCalendar.add_epiweeks DemoCalendar.split_epiweek
    DemoCalendar.get_num_weeks steady.
Proof.
  apply calendar_week_check_sound. apply (bool_decide_unpack _). vm_compute. exact I.
Qed.

(** The demonstration solve returns on every matrix. *)
Lemma demo_solver_solves : solves_full_rank demo_solver.
Proof. intros X Y _ _ _. by eexists. Qed.

Lemma train_window_sufficiency_witness :
  demo_train steady 201020 = Raise (ExceptionFmt msg_found [13%Z; 70%Z])
  ∧ ∃ beta,
      demo_solver
        (window_X DemoCalendar.add_epiweeks DemoCalendar.split_epiweek
           DemoCalendar.get_num_weeks steady 886 955)
        (window_Y DemoCalendar.add_epiweeks DemoCalendar.split_epiweek
           DemoCalendar.get_num_weeks steady 886 955) = Ok beta
      ∧ demo_train steady 201125
        = Ok (trained steady 201125 beta,
              (window_X DemoCalendar.add_epiweeks DemoCalendar.split_epiweek
                 DemoCalendar.get_num_weeks steady 886 955,
               window_Y DemoCalendar.add_epiweeks DemoCalendar.split_epiweek
                 DemoCalendar.get_num_weeks steady 886 955,
               beta)).
Proof.
  assert (886 ≤ 898)%Z as Hle1 by lia. assert (886 ≤ 955)%Z as Hle2 by lia.
  assert (898 - 886 + 1 < 70)%Z as Hcount1 by lia.
  assert (955 - 886 + 1 = 70)%Z as Hcount2 by lia.
  assert (898 ≤ 955)%Z as Hlab1 by lia. assert (955 ≤ 955)%Z as Hlab2 by lia.
  assert (training_window steady 201020 = Ok (886%Z, 898%Z)) as Hwin1
    by (vm_compute; reflexivity).
  assert (training_window steady 201125 = Ok (886%Z, 955%Z)) as Hwin2
    by (vm_compute; reflexivity).
  split.
  - exact (proj1 (train_window_sufficiency DemoCalendar.add_epiweeks
                    DemoCalendar.split_epiweek DemoCalendar.get_num_weeks demo_solver
                    steady 201020 886 898 steady_well_formed Hwin1 Hle1
                    (steady_labelled 898 Hlab1)) Hcount1).
  - exact (proj2 (train_window_sufficiency DemoCalendar.add_epiweeks
                    DemoCalendar.split_epiweek DemoCalendar.get_num_weeks demo_solver
                    steady 201125 886 955 steady_well_formed Hwin2 Hle2
                    (steady_labelled 955 Hlab2)) Hcount2 steady_on_calendar
             demo_solver_solves).
Defined.

(** *** Runs on which the further facts are exercised *)

Lemma index_weeks_positions_witness :
  size (index_weeks [201001; 201002; 201003]%Z).1 = length [201001; 201002; 201003]%Z
  ∧ (∀ ew i, (index_weeks [201001; 201002; 201003]%Z).1 !! ew = Some i
             ↔ (0 ≤ i)%Z ∧ [201001; 201002; 201003]%Z !! Z.to_nat i = Some ew)
  ∧ (∀ i ew, (index_weeks [201001; 201002; 201003]%Z).2 !! i = Some ew
             ↔ (index_weeks [201001; 201002; 201003]%Z).1 !! ew = Some i).
Proof.
  apply (index_weeks_positions [201001; 201002; 201003]%Z).
  apply (bool_decide_unpack _). vm_compute. exact I.
Defined.

Lemma new_ISCH_weeks_witness :
  ∃ self, demo_new steady_targets = Ok self
          ∧ StronglySorted Z.lt (weeks self)
          ∧ ∀ i, i ∈ weeks self
                 ↔ ∃ row, row ∈ DemoCalendar.rows_of
                                  (DemoCalendar.range_epiweeks_inclusive 201001 201130)
                          ∧ ew2i self !! target_epiweek row = Some i.
Proof.
  exact (new_ISCH_weeks DemoCalendar.range_epiweeks_inclusive (Z * Z)
           DemoCalendar.Epidata_range steady_targets "ca" "ov" _ eq_refl).
Defined.

(** A region that reported every week from 2003w01 to 2011w30. *)
Definition long_targets (target region : string) (weeks : Z * Z)
  : result (list target_row) :=
  Ok (DemoCalendar.rows_of (DemoCalendar.range_epiweeks_inclusive 200301 201130)).

Definition long : ISCH := built (demo_new long_targets).

Lemma long_well_formed : well_formed long.
Proof. exact (built_well_formed long_targets _ eq_refl). Qed.

Lemma long_labelled : labelled long 522 955.
Proof. apply labelled_list. apply (bool_decide_unpack _). vm_compute. exact I. Qed.

Lemma train_recent_weeks_witness :
  demo_train long 201125
  = Ok (trained long 201125 [0%R; 0%R; 0%R; 0%R; 0%R; 0%R; 0%R],
        (window_X DemoCalendar.add_epiweeks DemoCalendar.split_epiweek
           DemoCalendar.get_num_weeks long 606 955,
         window_Y DemoCalendar.add_epiweeks DemoCalendar.split_epiweek
           DemoCalendar.get_num_weeks long 606 955,
         [0%R; 0%R; 0%R; 0%R; 0%R; 0%R; 0%R]))
  ∧ (length (window_X DemoCalendar.add_epiweeks DemoCalendar.split_epiweek
               DemoCalendar.get_num_weeks long 606 955) ≤ 350)%nat.
Proof.
  assert (70 ≤ 955 - 522 + 1)%Z as Hcount by lia.
  assert (training_window long 201125 = Ok (522%Z, 955%Z)) as Hwin
    by (vm_compute; reflexivity).
  exact (train_recent_weeks DemoCalendar.add_epiweeks DemoCalendar.split_epiweek
           DemoCalendar.get_num_weeks demo_solver long 201125 522 955
           long_well_formed Hwin long_labelled Hcount).
Defined.

Lemma predict_trains_first_witness :
  ∃ x, _get_features DemoCalendar.add_epiweeks DemoCalendar.split_epiweek
         DemoCalendar.get_num_weeks steady 201125 true = Ok x
       ∧ predict DemoCalendar.add_epiweeks DemoCalendar.split_epiweek
           DemoCalendar.get_num_weeks demo_solver steady 201125 true true
         = Ok (trained steady 201125 [0%R; 0%R; 0%R; 0%R; 0%R; 0%R; 0%R],
               foldr Rplus 0%R
                 (zip_with Rmult x [0%R; 0%R; 0%R; 0%R; 0%R; 0%R; 0%R])).
Proof.
  assert (70 ≤ 955 - 886 + 1)%Z as Hcount by lia.
  assert (955 ≤ 955)%Z as Hlab by lia.
  assert (training_window steady 201125 = Ok (886%Z, 955%Z)) as Hwin
    by (vm_compute; reflexivity).
  exact (predict_trains_first DemoCalendar.add_epiweeks DemoCalendar.split_epiweek
           DemoCalendar.get_num_weeks demo_solver steady
           (trained steady 201125 [0%R; 0%R; 0%R; 0%R; 0%R; 0%R; 0%R]) 201125 true
           _ _ [0%R; 0%R; 0%R; 0%R; 0%R; 0%R; 0%R]
           (train_labelled DemoCalendar.add_epiweeks DemoCalendar.split_epiweek
              DemoCalendar.get_num_weeks demo_solver steady 201125 886 955
              steady_well_formed Hwin (steady_labelled 955 Hlab) Hcount)
           eq_refl).
Defined.

End Isch.

(** ** The orchestrator ([SensorUpdate]) *)

Module SensorUpdate.

(** A sensor implementation, called as [impl(location, epiweek, valid, target)]:
    it returns a reading or raises. *)
Abbreviation implementation := (string → Z → bool → string → result R).

(** The arguments of one call [database.insert(target, name, location, epiweek, value)]. *)
Record reading : Type := Reading {
  reading_target : string;
  reading_name : string;
  reading_location : string;
  reading_epiweek : Z;
  reading_value : R
}.

(** The lines the orchestrator prints. *)
Inductive line : Type :=
| LineValue (name location : string) (test_week : Z) (value : R)
| LineFailed (name location : string) (test_week : Z) (ex : exn)
| LineNotFound (name location : string) (ew1 : Z)
| LineUpdating (name location : string) (ew1 last_week : Z).

(** What the orchestrator acts on: the calls made to [database.insert], in
    order, and the lines printed. *)
Record world : Type := World {
  inserted : list reading;
  printed : list line
}.

Record SensorUpdate : Type := MkSensorUpdate {
  valid : bool;
  implementations : gmap string implementation;
  target : string
}.

Definition msg_last_week : string := "last_week must be provided for now".
Definition msg_unknown_location : string := "unknown location".

Definition print (w : world) (l : line) : world :=
  World (inserted w) (printed w ++ [l]).

(** [database.insert]: the persistence layer is external; the call is
    recorded. *)
Definition database_insert (w : world) (r : reading) : world :=
  World (inserted w ++ [r]) (printed w).

Section getters.

(** The calendar, the service and the solvers the sensors rest on. *)
Variable add_epiweeks : Z → Z → Z.
Variable delta_epiweeks : Z → Z → Z.
Variable split_epiweek : Z → Z * Z.
Variable get_num_weeks : Z → positive.
Variable range_epiweeks_inclusive : Z → Z → list Z.
Variable week_range : Type.
Variable Epidata_range : Z → Z → week_range.
Variable datasetname_targets : string → string → week_range → result (list target_row).
(** [Epidata.check(Epidata.ght(auth, loc, weeks, query))] and
    [Epidata.check(Epidata.datasetnamestat_norsdashboard(auth, target, location, weeks))]. *)
Variable Epidata_ght : string → week_range → string → result (list LochNess.signal_row).
Variable Epidata_norsdashboard :
  string → string → week_range → result (list LochNess.signal_row).
Variable weighted_least_squares : list R → list (list R) → list R → result (list R).
Variable normal_equations : list (list R) → list R → result (list R).

(** [SignalGetter.get_ght]. *)
Definition signal_ght (location : string) (epiweek : Z) (valid : bool)
  : week_range → result (list LochNess.signal_row) :=
  let loc := if decide (location = "nat") then "US" else location in
  λ weeks, Epidata_ght loc weeks "datasetname".

(** [SignalGetter.get_datasetnamestat_norsdashboard]. *)
Definition signal_norsdashboard (location : string) (epiweek : Z) (valid : bool)
    (target : string) : week_range → result (list LochNess.signal_row) :=
  λ weeks, Epidata_norsdashboard target location weeks.

Definition fit (location : string) (epiweek : Z) (name : string)
    (fetch : week_range → result (list LochNess.signal_row)) (valid : bool)
    (target : string) (signal_to_truth_ew_shift : Z) : result R :=
  LochNess.fit_loch_ness add_epiweeks delta_epiweeks week_range Epidata_range
    datasetname_targets weighted_least_squares location epiweek name
    (LochNess.FieldName "value") fetch valid target signal_to_truth_ew_shift.

(** [SensorGetter.get_isch]. *)
Definition get_isch (location : string) (epiweek : Z) (valid : bool) (target : string)
  : result R :=
  self ← Isch.new_ISCH range_epiweeks_inclusive week_range Epidata_range
           datasetname_targets location target;
  r ← Isch.predict add_epiweeks split_epiweek get_num_weeks normal_equations
        self epiweek true valid;
  Ok r.2.

(** [SensorGetter.get_ght]. *)
Definition get_ght (location : string) (epiweek : Z) (valid : bool) (target : string)
  : result R :=
  let fetch := signal_ght location epiweek valid in
  fit location epiweek "ght" fetch valid target 0.

(** [SensorGetter.get_datasetnamestat_norsdashboard_4ahead]. *)
Definition get_datasetnamestat_norsdashboard_4ahead (location : string) (epiweek : Z)
    (valid : bool) (target : string) : result R :=
  let fetch := signal_norsdashboard location epiweek valid target in
  fit location epiweek "datasetnamestat_norsdashboard_4ahead" fetch valid target 4.

(** [SensorGetter.get_datasetnamestat_norsdashboard_7ahead]. *)
Definition get_datasetnamestat_norsdashboard_7ahead (location : string) (epiweek : Z)
    (valid : bool) (target : string) : result R :=
  let fetch := signal_norsdashboard location epiweek valid target in
  fit location epiweek "datasetnamestat_norsdashboard_7ahead" fetch valid target 7.

(** [SensorGetter.get_sensor_implementations]. *)
Definition get_sensor_implementations : gmap string implementation :=
  list_to_map
    [("isch", get_isch); ("ght", get_ght);
     ("nsnd4", get_datasetnamestat_norsdashboard_4ahead);
     ("nsnd7", get_datasetnamestat_norsdashboard_7ahead)].

End getters.

Section orchestrator.

(** The epiweek calendar. *)
Variable add_epiweeks : Z → Z → Z.
Variable range_epiweeks_inclusive : Z → Z → list Z.
(** [str.lower]. *)
Variable lower : string → string.
(** [database.get_most_recent_epiweek(name, location)]. *)
Variable get_most_recent_epiweek : world → string → string → option Z.

(** [get_location_list]; its exception is [UnknownLocationException]. *)
Definition get_location_list (loc : string) : result (list string) :=
  let loc := lower loc in
  if decide (loc = "all") then Ok DataSource.SENSOR_LOCATIONS
  else if decide (loc ∈ DataSource.SENSOR_LOCATIONS) then Ok [loc]
  else Raise (ExceptionAt msg_unknown_location loc).

(** [update_single].  The lookup of the implementation stands before the
    [try]; inside it, formatting a float with [%.3f] cannot raise, so the
    handler sees the exceptions of the implementation and no others. *)
Definition update_single (self : SensorUpdate) (database : world) (test_week : Z)
    (name location : string) : result world :=
  let train_week := add_epiweeks test_week (-1) in
  match implementations self !! name with
  | None => Raise KeyError
  | Some impl =>
      match impl location train_week (valid self) (target self) with
      | Ok value =>
          let database := print database (LineValue name location test_week value) in
          Ok (database_insert database
                (Reading (target self) name location test_week value))
      | Raise ex =>
          Ok (print database (LineFailed name location test_week ex))
      end
  end.

(** The loop [for test_week in flu.range_epiweeks(ew1, last_week, inclusive=True)]. *)
Definition update_weeks (self : SensorUpdate) (database : world) (test_weeks : list Z)
    (name location : string) : result world :=
  fold_raising (λ database test_week, update_single self database test_week name location)
    test_weeks database.

(** Body of the loop [for location in get_location_list(loc)]. *)
Definition update_location (self : SensorUpdate) (first_week : option Z) (last_week : Z)
    (name : string) (database : world) (location : string) : result world :=
  let '(ew1, database) :=
    match first_week with
    | Some ew1 => (ew1, database)
    | None =>
        match get_most_recent_epiweek database name location with
        | Some ew1 => (ew1, database)
        | None => (201040%Z, print database (LineNotFound name location 201040))
        end
    end in
  let database := print database (LineUpdating name location ew1 last_week) in
  update_weeks self database (range_epiweeks_inclusive ew1 last_week) name location.

Definition update (self : SensorUpdate) (database : world) (sensors : list (string * string))
    (first_week last_week : option Z) : result world :=
  match last_week with
  | None => Raise (Exception msg_last_week)
  | Some last_week =>
      fold_raising
        (λ database '(name, loc),
           locations ← get_location_list loc;
           fold_raising (update_location self first_week last_week name) locations database)
        sensors database
  end.

(** *** Specification-side notions *)

(** The outcome of the implementation for the test week. *)
Definition outcome (self : SensorUpdate) (impl : implementation) (location : string)
    (test_week : Z) : result R :=
  impl location (add_epiweeks test_week (-1)) (valid self) (target self).

(** The insert the week gives rise to, if any. *)
Definition reading_of (self : SensorUpdate) (impl : implementation) (name location : string)
    (test_week : Z) : option reading :=
  match outcome self impl location test_week with
  | Ok value => Some (Reading (target self) name location test_week value)
  | Raise _ => None
  end.

(** The line the week gives rise to. *)
Definition line_of (self : SensorUpdate) (impl : implementation) (name location : string)
    (test_week : Z) : line :=
  match outcome self impl location test_week with
  | Ok value => LineValue name location test_week value
  | Raise ex => LineFailed name location test_week ex
  end.

Lemma update_single_known (self : SensorUpdate) (database : world) (test_week : Z)
    (name location : string) (impl : implementation) :
  implementations self !! name = Some impl →
  update_single self database test_week name location
  = Ok (World (inserted database
               ++ option_list (reading_of self impl name location test_week))
              (printed database ++ [line_of self impl name location test_week])).
Proof.
  intros Himpl. unfold update_single, reading_of, line_of, outcome. rewrite Himpl.
  destruct (impl location _ _ _) as [value|ex]; simpl.
  - reflexivity.
  - unfold print. by rewrite app_nil_r.
Qed.

(** *** Claim about the update loop *)

(** C8. For a known sensor, the loop over the test weeks never raises: a week
    whose implementation raises is logged with its exception and the loop
    goes on with the next week; the values passed to [database.insert] are,
    in order, those of the weeks whose implementation returned, and no
    other. *)
Theorem update_weeks_skips_failures (self : SensorUpdate) (database : world)
    (test_weeks : list Z) (name location : string) (impl : implementation) :
  implementations self !! name = Some impl →
  update_weeks self database test_weeks name location
  = Ok (World (inserted database ++ omap (reading_of self impl name location) test_weeks)
              (printed database ++ map (line_of self impl name location) test_weeks)).
Proof.
  intros Himpl. unfold update_weeks. revert database.
  induction test_weeks as [|test_week test_weeks IH]; intros database.
  - simpl. rewrite !app_nil_r. by destruct database.
  - cbn [fold_raising]. rewrite (update_single_known _ _ _ _ _ impl Himpl).
    cbn [mbind result_bind]. rewrite IH. cbn [inserted printed].
    rewrite <- !app_assoc. do 3 f_equal. simpl.
    by destruct (reading_of self impl name location test_week).
Qed.

(** *** Further facts about an update *)

Lemma fold_raising_Ok {A S} (body : S → A → result S) (xs : list A) (s : S) :
  (∀ s x, x ∈ xs → is_Ok (body s x)) → is_Ok (fold_raising body xs s).
Proof.
  revert s. induction xs as [|x xs IH]; intros s Hbody; [by eexists|].
  cbn [fold_raising]. destruct (Hbody s x) as [s' ->]; [apply list_elem_of_here|].
  cbn [mbind result_bind]. apply IH. intros s0 x0 Hx0. apply Hbody.
  by apply list_elem_of_further.
Qed.

Lemma fold_raising_appends {A} (Q : A → reading → Prop) (body : world → A → result world)
    (xs : list A) (w w' : world) :
  (∀ w x w', x ∈ xs → body w x = Ok w' →
     ∃ new, inserted w' = inserted w ++ new ∧ Forall (Q x) new) →
  fold_raising body xs w = Ok w' →
  ∃ new, inserted w' = inserted w ++ new ∧ Forall (λ r, ∃ x, x ∈ xs ∧ Q x r) new.
Proof.
  revert w. induction xs as [|x xs IH]; intros w Hbody; cbn [fold_raising].
  - intros [= <-]. exists []. by rewrite app_nil_r.
  - destruct (body w x) as [w1|] eqn:Hw1; [|done]. cbn [mbind result_bind]. intros Hfold.
    destruct (Hbody w x w1) as (new1 & Hnew1 & HQ1); [apply list_elem_of_here|done|].
    destruct (IH w1) as (new2 & Hnew2 & HQ2); [|done|].
    { intros w0 x0 w0' Hx0. apply Hbody. by apply list_elem_of_further. }
    exists (new1 ++ new2). split; [by rewrite Hnew2, Hnew1, app_assoc|].
    apply Forall_app. split.
    + eapply Forall_impl; [exact HQ1|]. intros r Hr. exists x.
      split; [apply list_elem_of_here|done].
    + eapply Forall_impl; [exact HQ2|]. intros r (x0 & Hx0 & Hr). exists x0.
      split; [by apply list_elem_of_further|done].
Qed.

Lemma update_location_appends (self : SensorUpdate) (first_week : option Z) (last_week : Z)
    (name : string) (database : world) (location : string) (database' : world) :
  update_location self first_week last_week name database location = Ok database' →
  ∃ new, inserted database' = inserted database ++ new
         ∧ Forall (λ r, reading_target r = target self ∧ reading_name r = name
                        ∧ reading_location r = location
                        ∧ (∀ ew1, first_week = Some ew1 →
                             reading_epiweek r ∈ range_epiweeks_inclusive ew1 last_week))
                  new.
Proof.
  unfold update_location.
  assert (Hweeks : ∀ (test_weeks : list Z) (w w' : world),
    update_weeks self w test_weeks name location = Ok w' →
    ∃ new, inserted w' = inserted w ++ new
           ∧ Forall (λ r, reading_target r = target self ∧ reading_name r = name
                          ∧ reading_location r = location
                          ∧ reading_epiweek r ∈ test_weeks) new).
  { intros test_weeks w w' Hrun. unfold update_weeks in Hrun.
    apply (fold_raising_appends
             (λ test_week r, reading_target r = target self ∧ reading_name r = name
                             ∧ reading_location r = location
                             ∧ reading_epiweek r = test_week)) in Hrun.
    - destruct Hrun as (new & Hnew & Hnews). exists new. split; [done|].
      eapply Forall_impl; [exact Hnews|].
      intros r (test_week & Hin & Htarget & Hname & Hloc & Hweek). by rewrite Hweek.
    - intros w0 test_week w0' _. unfold update_single.
      destruct (implementations self !! name) as [impl|]; [|done].
      destruct (impl location _ _ _) as [value|ex]; intros [= <-].
      + eexists [_]. split; [reflexivity|]. by repeat constructor.
      + exists []. split; [by rewrite app_nil_r|]. constructor. }
  destruct first_week as [ew1|].
  - intros Hrun. apply Hweeks in Hrun as (new & Hnew & Hnews). exists new.
    split; [done|]. eapply Forall_impl; [exact Hnews|].
    intros r (Htarget & Hname & Hloc & Hweek). repeat split; try done.
    by intros ew [= <-].
  - destruct (get_most_recent_epiweek database name location) as [ew1|];
      intros Hrun; apply Hweeks in Hrun as (new & Hnew & Hnews); exists new;
      (split; [done|]); (eapply Forall_impl; [exact Hnews|]);
      intros r (Htarget & Hname & Hloc & Hweek); by repeat split.
Qed.

(** X25. An update never fails because a sensor does: once a last week is
    given, every requested sensor has an implementation and every requested
    location is known, [update] returns, whatever the implementations
    return or raise. *)
Theorem update_contains_failures (self : SensorUpdate) (database : world)
    (sensors : list (string * string)) (first_week : option Z) (last_week : Z) :
  (∀ name loc, (name, loc) ∈ sensors →
     is_Some (implementations self !! name) ∧ is_Ok (get_location_list loc)) →
  is_Ok (update self database sensors first_week (Some last_week)).
Proof.
  intros Hknown. unfold update. apply fold_raising_Ok.
  intros database0 [name loc] Hin. destruct (Hknown name loc Hin) as [[impl Himpl] [locations Hloc]].
  rewrite Hloc. cbn [mbind result_bind]. apply fold_raising_Ok.
  intros database1 location _. unfold update_location.
  destruct (match first_week with
            | Some ew1 => (ew1, database1)
            | None =>
                match get_most_recent_epiweek database1 name location with
                | Some ew1 => (ew1, database1)
                | None => (201040%Z, print database1 (LineNotFound name location 201040))
                end
            end) as [ew1 database2].
  unfold update_weeks. apply fold_raising_Ok. intros database3 test_week _.
  rewrite (update_single_known _ _ _ _ _ impl Himpl). by eexists.
Qed.

(** What [update] was asked for: a reading for the target of the object,
    for a requested sensor, at a sensor location the request names (or at
    any sensor location, for [all]), and, where a first week is given, for
    a week from the first to the last. *)
Definition requested (self : SensorUpdate) (sensors : list (string * string))
    (first_week : option Z) (last_week : Z) (r : reading) : Prop :=
  reading_target r = target self
  ∧ (∃ loc, (reading_name r, loc) ∈ sensors
            ∧ (lower loc = "all" ∨ lower loc = reading_location r))
  ∧ reading_location r ∈ DataSource.SENSOR_LOCATIONS
  ∧ (∀ ew1, first_week = Some ew1 →
       reading_epiweek r ∈ range_epiweeks_inclusive ew1 last_week).

(** X26. An update that returns has only added to what was passed to
    [database.insert], and every reading it added was requested. *)
Theorem update_inserts_requested (self : SensorUpdate) (database database' : world)
    (sensors : list (string * string)) (first_week : option Z) (last_week : Z) :
  update self database sensors first_week (Some last_week) = Ok database' →
  ∃ new, inserted database' = inserted database ++ new
         ∧ Forall (requested self sensors first_week last_week) new.
Proof.
  unfold update. intros Hrun.
  apply (fold_raising_appends
           (λ '(name, loc) r,
              reading_target r = target self ∧ reading_name r = name
              ∧ (lower loc = "all" ∨ lower loc = reading_location r)
              ∧ reading_location r ∈ DataSource.SENSOR_LOCATIONS
              ∧ (∀ ew1, first_week = Some ew1 →
                   reading_epiweek r ∈ range_epiweeks_inclusive ew1 last_week)))
    in Hrun.
  - destruct Hrun as (new & Hnew & Hall). exists new. split; [done|].
    eapply Forall_impl; [exact Hall|].
    intros r ([name loc] & Hin & Htarget & Hname & Hloc & Hsensor & Hweek).
    split; [done|]. split; [|done]. exists loc. by rewrite Hname.
  - clear Hrun database database'. intros database [name loc] database' Hin.
    unfold get_location_list.
    destruct (decide (lower loc = "all")) as [Hall|Hone].
    + cbn [mbind result_bind]. intros Hrun.
      apply (fold_raising_appends
               (λ location r,
                  reading_target r = target self ∧ reading_name r = name
                  ∧ reading_location r = location
                  ∧ (∀ ew1, first_week = Some ew1 →
                       reading_epiweek r ∈ range_epiweeks_inclusive ew1 last_week)))
        in Hrun.
      * destruct Hrun as (new & Hnew & Hnews). exists new. split; [done|].
        eapply Forall_impl; [exact Hnews|].
        intros r (location & Hlocation & Htarget & Hname & Hloc & Hweek).
        rewrite Hloc. by repeat split; [..|left| |].
      * intros w location w'. intros _ Hlocation. revert Hlocation. apply update_location_appends.
    + destruct (decide (lower loc ∈ DataSource.SENSOR_LOCATIONS)) as [Hsensor|]; [|done].
      cbn [mbind result_bind]. intros Hrun.
      apply (fold_raising_appends
               (λ location r,
                  reading_target r = target self ∧ reading_name r = name
                  ∧ reading_location r = location
                  ∧ (∀ ew1, first_week = Some ew1 →
                       reading_epiweek r ∈ range_epiweeks_inclusive ew1 last_week)))
        in Hrun.
      * destruct Hrun as (new & Hnew & Hnews). exists new. split; [done|].
        eapply Forall_impl; [exact Hnews|].
        intros r (location & Hlocation%list_elem_of_singleton & Htarget & Hname & Hloc & Hweek).
        rewrite Hloc, Hlocation. by repeat split; [..|right| |].
      * intros w location w'. intros _ Hlocation. revert Hlocation. apply update_location_appends.
Qed.

End orchestrator.

(** *** The command line ([validate_args], [parse_sensor_location_pairs]) *)

(** The parsed command line ([argparse.Namespace]). *)
Record arguments : Type := Namespace {
  args_names : string;
  args_first : option Z;
  args_last : option Z;
  args_epiweek : option Z;
  args_valid : bool;
  args_test : bool;
  args_target : string
}.

(** How [validate_args] ends when it does not return: with what
    [flu.check_epiweek] raised, or with a [ValueError] of its own. *)
Inductive rejection : Type :=
| Raised (e : exn)
| ValueErrorWith (msg : string).

Definition msg_week_overrides : string := "`week` overrides `first` and `last`".
Definition msg_first_after_last : string := "`first` must not be greater than `last`".
Definition msg_invalid_sensors : string := "invalid sensor specification".

Definition pair_regex : string := "[^-,]+-[^-,]+".
Definition names_regex : string := pair_regex +:+ "(," +:+ pair_regex +:+ ")*".

Section command_line.

(** [flu.check_epiweek(ew)], and whether [re.match(regex, names)] finds a
    match. *)
Variable check_epiweek : Z → result ().
Variable re_match : string → string → bool.

Definition validate_args (args : arguments)
  : rejection + (string * option Z * option Z * bool * bool * string) :=
  let '(first, last, week) := (args_first args, args_last args, args_epiweek args) in
  match fold_raising (λ _ ew, match ew with
                              | Some ew => check_epiweek ew
                              | None => Ok ()
                              end) [first; last; week] () with
  | Raise e => inl (Raised e)
  | Ok _ =>
      match (match week with
             | Some w =>
                 if decide (first ≠ None ∨ last ≠ None)
                 then inl (ValueErrorWith msg_week_overrides)
                 else inr (Some w, Some w)
             | None => inr (first, last)
             end) with
      | inl e => inl e
      | inr (first, last) =>
          if match first, last with
             | Some f, Some l => bool_decide (l < f)%Z
             | _, _ => false
             end
          then inl (ValueErrorWith msg_first_after_last)
          else if negb (re_match names_regex (args_names args))
          then inl (ValueErrorWith msg_invalid_sensors)
          else inr (args_names args, first, last, args_valid args, args_test args,
                    args_target args)
      end
  end.

(** X27. What [validate_args] returns is in order: the first week is not
    after the last one where both are there; an [epiweek] stands for both
    and is accepted only where neither was given, and without it both are
    as given; every week returned has passed [check_epiweek]; and the
    sensor specification is the one given, on which the regular expression
    found a match. *)
Theorem validate_args_accepts (args : arguments) (names : string)
    (first last : option Z) (valid test : bool) (target : string) :
  validate_args args = inr (names, first, last, valid, test, target) →
  (∀ f l, first = Some f → last = Some l → (f ≤ l)%Z)
  ∧ match args_epiweek args with
    | Some w => first = Some w ∧ last = Some w
                ∧ args_first args = None ∧ args_last args = None
    | None => first = args_first args ∧ last = args_last args
    end
  ∧ (∀ ew, first = Some ew ∨ last = Some ew → check_epiweek ew = Ok ())
  ∧ names = args_names args
  ∧ re_match names_regex names = true.
Proof.
  unfold validate_args. destruct args as [names0 first0 last0 week0 valid0 test0 target0].
  cbn [args_names args_first args_last args_epiweek args_valid args_test args_target
       fold_raising mbind result_bind].
  assert (Hcheck : ∀ ew : option Z,
    match (match ew with Some ew => check_epiweek ew | None => Ok () end) with
    | Ok _ => ∀ w, ew = Some w → check_epiweek w = Ok ()
    | Raise _ => True
    end).
  { intros [w|]; [|done]. destruct (check_epiweek w) as [[]|] eqn:Hw; [|done].
    by intros w' [= <-]. }
  pose proof (Hcheck first0) as Hfirst. pose proof (Hcheck last0) as Hlast.
  pose proof (Hcheck week0) as Hweek. clear Hcheck.
  destruct (match first0 with Some ew => check_epiweek ew | None => Ok () end); [|done].
  destruct (match last0 with Some ew => check_epiweek ew | None => Ok () end); [|done].
  destruct (match week0 with Some ew => check_epiweek ew | None => Ok () end); [|done].
  destruct week0 as [w|].
  - destruct (decide (first0 ≠ None ∨ last0 ≠ None)) as [|Hnone]; [done|].
    destruct (bool_decide (w < w)%Z) eqn:Hww; [done|].
    destruct (re_match names_regex names0) eqn:Hmatch; [|done].
    cbn [negb]. intros [= <- <- <- <- <- <-].
    split; [intros f l [= <-] [= <-]; lia|].
    split.
    { repeat split; [destruct first0|destruct last0]; try done;
        exfalso; apply Hnone; ((by left) || (by right)). }
    split; [|done]. intros ew [[= <-]|[= <-]]; by apply Hweek.
  - destruct (match first0, last0 with
              | Some f, Some l => bool_decide (l < f)%Z
              | _, _ => false
              end) eqn:Horder; [done|].
    destruct (re_match names_regex names0) eqn:Hmatch; [|done].
    cbn [negb]. intros [= <- <- <- <- <- <-].
    split.
    { intros f l -> ->. apply bool_decide_eq_false in Horder. lia. }
    split; [done|]. split; [|done]. intros ew [Hew|Hew]; [by apply Hfirst|by apply Hlast].
Qed.

End command_line.

Import Stdlib.Strings.Ascii.

(** [s.split(sep)] for a separator of one character. *)
Fixpoint split (sep : ascii) (s : string) : list string :=
  match s with
  | EmptyString => [EmptyString]
  | String c s' =>
      if decide (c = sep) then EmptyString :: split sep s'
      else match split sep s' with
           | piece :: pieces => String c piece :: pieces
           | [] => [String c EmptyString]
           end
  end.

Definition parse_sensor_location_pairs (names : string) : list (list string) :=
  map (split "-") (split "," names).

(** [sep.join(pieces)], by which the parse is judged. *)
Fixpoint join (sep : ascii) (pieces : list string) : string :=
  match pieces with
  | [] => EmptyString
  | [piece] => piece
  | piece :: pieces' => piece +:+ String sep (join sep pieces')
  end.

Lemma split_not_nil (sep : ascii) (s : string) : split sep s ≠ [].
Proof.
  destruct s as [|c s]; simpl; [done|]. destruct (decide (c = sep)); [done|].
  by destruct (split sep s).
Qed.

Lemma join_cons (sep : ascii) (piece : string) (pieces : list string) :
  pieces ≠ [] → join sep (piece :: pieces) = piece +:+ String sep (join sep pieces).
Proof. by destruct pieces. Qed.

Lemma join_String (sep c : ascii) (piece : string) (pieces : list string) :
  join sep (String c piece :: pieces) = String c (join sep (piece :: pieces)).
Proof. by destruct pieces. Qed.

Lemma join_split (sep : ascii) (s : string) : join sep (split sep s) = s.
Proof.
  induction s as [|c s IH]; [done|]. cbn [split].
  pose proof (split_not_nil sep s) as Hnil.
  destruct (decide (c = sep)) as [->|_].
  - rewrite join_cons by done. by rewrite IH.
  - destruct (split sep s) as [|piece pieces]; [done|].
    rewrite join_String. by rewrite IH.
Qed.

Lemma split_pieces (sep : ascii) (s piece : string) :
  piece ∈ split sep s →
  (sep ∉ String.list_ascii_of_string piece)
  ∧ ∀ c, c ∈ String.list_ascii_of_string piece → c ∈ String.list_ascii_of_string s.
Proof.
  revert piece. induction s as [|c s IH]; intros piece; cbn [split].
  - intros ->%list_elem_of_singleton. split; [|done]. simpl. apply not_elem_of_nil.
  - pose proof (split_not_nil sep s) as Hnil. destruct (decide (c = sep)) as [->|Hne].
    + intros [->|Hin]%elem_of_cons.
      * split; [|by intros c' ?%elem_of_nil]. simpl. apply not_elem_of_nil.
      * destruct (IH piece Hin) as [Hsep Hsub]. split; [done|].
        intros c' Hc'. simpl. apply list_elem_of_further. by apply Hsub.
    + destruct (split sep s) as [|piece0 pieces]; [done|].
      intros [->|Hin]%elem_of_cons.
      * destruct (IH piece0) as [Hsep Hsub]; [apply list_elem_of_here|]. split.
        -- simpl. intros [?|?]%elem_of_cons; [by apply Hne|done].
        -- intros c'. simpl. intros [->|Hc']%elem_of_cons; [apply list_elem_of_here|].
           apply list_elem_of_further. by apply Hsub.
      * destruct (IH piece) as [Hsep Hsub]; [by apply list_elem_of_further|].
        split; [done|]. intros c' Hc'. simpl. apply list_elem_of_further. by apply Hsub.
Qed.

(** X28. [parse_sensor_location_pairs] loses nothing and leaves no
    separator behind: joining the pieces of each element with dashes and the
    elements with commas gives the string back; no element is empty, and no
    piece holds a dash or a comma. *)
Theorem parse_sensor_location_pairs_round_trip (names : string) :
  join "," (map (join "-") (parse_sensor_location_pairs names)) = names
  ∧ parse_sensor_location_pairs names ≠ []
  ∧ Forall (λ pair, pair ≠ []
                    ∧ Forall (λ piece, ("-"%char ∉ String.list_ascii_of_string piece)
                                       ∧ ","%char ∉ String.list_ascii_of_string piece) pair)
           (parse_sensor_location_pairs names).
Proof.
  unfold parse_sensor_location_pairs. split; [|split].
  - rewrite map_map.
    rewrite (List.map_ext (λ element, join "-" (split "-" element)) (λ element, element));
      [by rewrite List.map_id, join_split|].
    intros element. apply join_split.
  - pose proof (split_not_nil "," names). by destruct (split "," names).
  - apply Forall_forall. intros pair [element [-> Helement]]%list_elem_of_fmap.
    split; [apply split_not_nil|]. apply Forall_forall. intros piece Hpiece.
    destruct (split_pieces _ _ _ Hpiece) as [Hdash Hsub].
    destruct (split_pieces _ _ _ Helement) as [Hcomma _].
    split; [done|]. intros Hin. by apply Hcomma, Hsub.
Qed.

(** *** A run on which the claim is exercised *)

(** A sensor that fails on every odd week. *)
Definition demo_impl (location : string) (epiweek : Z) (valid : bool) (target : string)
  : result R :=
  if decide (epiweek mod 2 = 0)%Z then Ok (IZR epiweek)
  else Raise (ExceptionNamed "ght" "unavailable on" (epiweek + 1)).

Definition demo_update : SensorUpdate :=
  MkSensorUpdate true {["ght" := demo_impl]} "ov".

Lemma update_weeks_skips_failures_witness :
  update_weeks DemoCalendar.add_epiweeks demo_update (World [] []) [201003; 201004; 201005]%Z
    "ght" "ca"
  = Ok (World [Reading "ov" "ght" "ca" 201003 201002%R;
               Reading "ov" "ght" "ca" 201005 201004%R]
              [LineValue "ght" "ca" 201003 201002%R;
               LineFailed "ght" "ca" 201004 (ExceptionNamed "ght" "unavailable on" 201004);
               LineValue "ght" "ca" 201005 201004%R]).
Proof.
  exact (update_weeks_skips_failures DemoCalendar.add_epiweeks demo_update (World [] [])
           [201003; 201004; 201005]%Z "ght" "ca" demo_impl eq_refl).
Defined.

(** *** Runs on which the further facts are exercised *)

(** [str.lower] on the letters A to Z. *)
Definition demo_lower (s : string) : string :=
  String.string_of_list_ascii
    (map (λ c, let n := nat_of_ascii c in
               if bool_decide (65 ≤ n ≤ 90)%nat then ascii_of_nat (n + 32) else c)
         (String.list_ascii_of_string s)).

(** A database that holds no reading yet. *)
Definition demo_most_recent (database : world) (name location : string) : option Z := None.

Lemma update_contains_failures_witness :
  is_Ok (update DemoCalendar.add_epiweeks DemoCalendar.range_epiweeks_inclusive demo_lower
           demo_most_recent demo_update (World [] []) [("ght", "CA")] None
           (Some 201005%Z)).
Proof.
  apply (update_contains_failures DemoCalendar.add_epiweeks
           DemoCalendar.range_epiweeks_inclusive demo_lower demo_most_recent
           demo_update (World [] []) [("ght", "CA")] None 201005).
  intros name loc Hin. apply list_elem_of_singleton in Hin. injection Hin as -> ->.
  split; [by eexists|]. eexists. vm_compute. reflexivity.
Defined.

Lemma update_inserts_requested_witness :
  ∃ new,
    inserted (World [Reading "ov" "ght" "ca" 201003 201002%R;
                     Reading "ov" "ght" "ca" 201005 201004%R]
                    [LineUpdating "ght" "ca" 201003 201005;
                     LineValue "ght" "ca" 201003 201002%R;
                     LineFailed "ght" "ca" 201004
                       (ExceptionNamed "ght" "unavailable on" 201004);
                     LineValue "ght" "ca" 201005 201004%R])
    = inserted (World [] []) ++ new
    ∧ Forall (requested DemoCalendar.range_epiweeks_inclusive demo_lower demo_update
                [("ght", "CA")] (Some 201003%Z) 201005) new.
Proof.
  apply (update_inserts_requested DemoCalendar.add_epiweeks
           DemoCalendar.range_epiweeks_inclusive demo_lower demo_most_recent
           demo_update (World [] []) _ [("ght", "CA")] (Some 201003%Z) 201005).
  reflexivity.
Defined.

(** A check that lets every week through, and a matcher that finds a match
    in every string. *)
Definition demo_check_epiweek (ew : Z) : result () := Ok ().
Definition demo_re_match (regex names : string) : bool := true.

Lemma validate_args_accepts_witness :
  (∀ f l, Some 201003%Z = Some f → Some 201005%Z = Some l → (f ≤ l)%Z)
  ∧ (Some 201003%Z = Some 201003%Z ∧ Some 201005%Z = Some 201005%Z)
  ∧ (∀ ew, Some 201003%Z = Some ew ∨ Some 201005%Z = Some ew
           → demo_check_epiweek ew = Ok ())
  ∧ "ght-ca" = "ght-ca"
  ∧ demo_re_match names_regex "ght-ca" = true.
Proof.
  apply (validate_args_accepts demo_check_epiweek demo_re_match
           (Namespace "ght-ca" (Some 201003%Z) (Some 201005%Z) None true false "ov")
           "ght-ca" (Some 201003%Z) (Some 201005%Z) true false "ov").
  reflexivity.
Defined.

End SensorUpdate.
